(** * FhirValidator: a shallow embedding of the validator wrapper

    The development follows the class [FhirValidator] of the wrapper
    (the version with the artifact manager, the process supervisor and the
    HTTP client).  JavaScript values are a small inductive type with the
    operators the class uses; the file system, the log sink and the network
    are an explicit [world] threaded through every method; what Node itself
    provides ([JSON.parse], [Buffer], [URL], ...) is the interface
    [Runtime]. *)

From Stdlib Require Import ZArith Lia Bool Ascii String SpecFloat.
From Equations Require Import Equations.
From stdpp Require Import base option list strings gmap pretty.

Local Open Scope string_scope.
Local Open Scope Z_scope.
Set Warnings "-register-all".

(* ===================================================================== *)
(** ** JavaScript values                                                  *)
(* ===================================================================== *)

(** Thrown values.  The class only ever throws [Error] objects itself; the
    runtime adds [TypeError] (property of null, not a function, invalid
    URL) and [SyntaxError] ([JSON.parse]). *)
Inductive error : Type :=
| Error (msg : string)
| TypeError (msg : string)
| SyntaxError (msg : string).

Definition message (e : error) : string :=
  match e with Error m | TypeError m | SyntaxError m => m end.

(** An expression that evaluates to a value or throws. *)
Inductive res (A : Type) : Type :=
| Ok (a : A)
| Throw (e : error).
Arguments Ok {A} a.
Arguments Throw {A} e.

Definition res_bind {A B} (r : res A) (k : A -> res B) : res B :=
  match r with Ok a => k a | Throw e => Throw e end.

(** How a call of a method ends.  A synchronous method returns ([Done]) or
    throws ([Fail]); the promise of an asynchronous one resolves ([Done])
    or rejects ([Fail]).  [Uncaught] is an exception that escapes an event
    callback: no handler of the class sees it and the promise under
    construction is never settled. *)
Inductive outcome (A : Type) : Type :=
| Done (a : A)
| Fail (e : error)
| Uncaught (e : error).
Arguments Done {A} a.
Arguments Fail {A} e.
Arguments Uncaught {A} e.

Notation "'try!' x <- r ; k" := (res_bind r (fun x => k))
  (at level 10, x name, r at level 100, k at level 200).

(** *** Numbers *)

(** A JavaScript number is an IEEE 754 double, here a [spec_float] of
    precision 53 with the library's arithmetic; [double_of_Z n] is the
    double nearest to the integer [n]. *)
Definition double_of_Z (n : Z) : spec_float := binary_normalize 53 1024 n 0 false.

Fixpoint zeros (n : nat) : string :=
  match n with
  | O => EmptyString
  | S k => String "0" (zeros k)
  end.

(** The least [n] in [n0 .. n0 + fuel] with [a * 2^e < 10^n], for [a > 0]. *)
Fixpoint decimal_point (fuel : nat) (a e n : Z) : Z :=
  match fuel with
  | O => n
  | S k =>
      if a * 2 ^ Z.max e 0 * 10 ^ Z.max (- n) 0 <? 2 ^ Z.max (- e) 0 * 10 ^ Z.max n 0
      then n else decimal_point k a e (n + 1)
  end.

(** Number::toString prints the shortest decimal that reads back as the
    double, and the nearest one among the shortest.

    [nearest_decimal m e digits n]: the decimal [s * 10^t], with [digits]
    digits in front of a decimal point at [n] (so [t = n - digits]), that
    lies nearest to [m * 2^e] among those that round to it, if there is
    one.  A decimal rounds to the double when it lies between the
    midpoints to its two neighbours, the midpoints included when [m] is
    even; the neighbour below is half as far when [m] is the least
    mantissa of its exponent.  In units of [2^(e-2)] the double is [4m],
    the midpoints are [low] and [high]; [p] and [q] bring a decimal [c *
    10^t] and such a number [a * 2^(e-2)] to the common scale on which [c
    * q] and [a * p] compare as the two do. *)
Definition nearest_decimal (m e digits n : Z) : option (Z * Z) :=
  let t := n - digits in
  let x := 4 * m in
  let low := if (m =? 2 ^ 52) && (-1074 <? e) then 4 * m - 1 else 4 * m - 2 in
  let high := 4 * m + 2 in
  let e2 := e - 2 in
  let p := 2 ^ Z.max e2 0 * 10 ^ Z.max (- t) 0 in
  let q := 2 ^ Z.max (- e2) 0 * 10 ^ Z.max t 0 in
  let s := (x * p) / q in
  let inside c :=
    if Z.even m then (low * p <=? c * q) && (c * q <=? high * p)
    else (low * p <? c * q) && (c * q <? high * p) in
  let below := x * p - s * q in
  let above := (s + 1) * q - x * p in
  match inside s, inside (s + 1) with
  | true, true =>
      if below <? above then Some (s, t)
      else if above <? below then Some (s + 1, t)
      else Some (if Z.even s then s else s + 1, t)
  | true, false => Some (s, t)
  | false, true => Some (s + 1, t)
  | false, false => None
  end.

(** The shortest such decimal: the first number of digits that has one. *)
Fixpoint shortest_decimal (fuel : nat) (m e digits n : Z) : Z * Z :=
  match nearest_decimal m e digits n with
  | Some d => d
  | None =>
      match fuel with
      | O => (m * 2 ^ Z.max e 0, 0)
      | S k => shortest_decimal k m e (digits + 1) n
      end
  end.

(** [s * 10^t] with the zeros at the end of [s] moved into [t]. *)
Fixpoint strip_zeros (fuel : nat) (s t : Z) : Z * Z :=
  match fuel with
  | O => (s, t)
  | S k => if (s mod 10 =? 0) && negb (s =? 0) then strip_zeros k (s / 10) (t + 1) else (s, t)
  end.

(** Number::toString of the positive double [m * 2^e]: the digits [ds] of
    the shortest decimal and its decimal point [n], laid out as the
    standard says (plain up to 21 digits in front of the point, with
    leading zeros down to [1e-6], in exponent form beyond). *)
Definition show_positive (m e : Z) : string :=
  let n0 := decimal_point 5 m e (((Z.log2 m + e) * 30103) / 100000 - 1) in
  let '(s0, t0) := shortest_decimal 17 m e 1 n0 in
  let '(s, t) := strip_zeros 400 s0 t0 in
  let ds := pretty s in
  let k := Z.of_nat (String.length ds) in
  let n := t + k in
  if (k <=? n) && (n <=? 21) then ds ++ zeros (Z.to_nat (n - k))
  else if (0 <? n) && (n <=? 21) then
    String.substring 0 (Z.to_nat n) ds ++ "."
    ++ String.substring (Z.to_nat n) (Z.to_nat (k - n)) ds
  else if (-6 <? n) && (n <=? 0) then "0." ++ zeros (Z.to_nat (- n)) ++ ds
  else
    String.substring 0 1 ds
    ++ (if k =? 1 then EmptyString
        else "." ++ String.substring 1 (Z.to_nat (k - 1)) ds)
    ++ "e" ++ (if n - 1 <? 0 then "-" else "+") ++ pretty (Z.abs (n - 1)).

(** Number::toString, the text of a number in a template literal.  The
    mantissa is brought to its canonical form first. *)
Definition number_to_string (x : spec_float) : string :=
  match x with
  | S754_zero _ => "0"
  | S754_infinity false => "Infinity"
  | S754_infinity true => "-Infinity"
  | S754_nan => "NaN"
  | S754_finite sign m e =>
      (if sign then "-" else EmptyString)
      ++ match binary_normalize 53 1024 (Z.pos m) e false with
         | S754_finite _ m' e' => show_positive (Z.pos m') e'
         | S754_infinity _ => "Infinity"
         | _ => "0"
         end
  end.

(** *** Values *)

(** The values the class handles: what [JSON.parse] produces,
    [undefined], and Node's [Buffer].  A number without fraction is carried
    by its integer value ([VNum], for the integers that are doubles); any
    other number (one with a fraction, NaN, an infinity, negative zero) is
    carried as the IEEE 754 double it is ([VFloat]). *)
Inductive value : Type :=
| VUndefined
| VNull
| VBool (b : bool)
| VNum (n : Z)
| VFloat (x : spec_float)
| VStr (s : string)
| VArr (items : list value)
| VObj (fields : list (string * value))
| VBuffer (bytes : list Byte.byte).

(** [typeof v]. *)
Definition typeof (v : value) : string :=
  match v with
  | VUndefined => "undefined"
  | VNull => "object"
  | VBool _ => "boolean"
  | VNum _ | VFloat _ => "number"
  | VStr _ => "string"
  | VArr _ | VObj _ | VBuffer _ => "object"
  end.

(** [Buffer.isBuffer(v)]. *)
Definition isBuffer (v : value) : bool :=
  match v with VBuffer _ => true | _ => false end.

(** ToBoolean: the test of [if (v)], [!v], [v || w]. *)
Definition truthy (v : value) : bool :=
  match v with
  | VUndefined | VNull => false
  | VBool b => b
  | VNum n => negb (n =? 0)
  | VFloat (S754_zero _) | VFloat S754_nan => false
  | VFloat _ => true
  | VStr s => negb (String.eqb s EmptyString)
  | VArr _ | VObj _ | VBuffer _ => true
  end.

(** [a || b]. *)
Definition js_or (a b : value) : value := if truthy a then a else b.

(** [a === b].  Objects, arrays and buffers compare by identity; every use
    in the class compares the results of two different parses, or a parse
    result with a literal, so two such operands are never the same
    object. *)
Definition strict_eq (a b : value) : bool :=
  match a, b with
  | VUndefined, VUndefined => true
  | VNull, VNull => true
  | VBool x, VBool y => Bool.eqb x y
  | VNum x, VNum y => x =? y
  | VNum x, VFloat y => SFeqb (double_of_Z x) y
  | VFloat x, VNum y => SFeqb x (double_of_Z y)
  | VFloat x, VFloat y => SFeqb x y
  | VStr x, VStr y => String.eqb x y
  | _, _ => false
  end.

(** *** Strings *)

(** A JavaScript string is carried by the bytes of its UTF-8 encoding, one
    [ascii] per byte; a surrogate without its partner, which UTF-8 proper
    leaves out, is written as the three bytes of its code point, so that
    every string has one encoding.  Comparison, [startsWith] with an ASCII
    prefix, [split] at an ASCII separator and concatenation next to ASCII
    text, which is all the class does, are the same on the bytes as on
    the code units; [length] and [trim] are not, and are written out for
    the encoding. *)

(** The UTF-16 code units a byte stands for: one for the first byte of a
    character of one, two or three bytes, two for the first byte of a
    character of four bytes (a surrogate pair), none for a continuation
    byte. *)
Definition code_units (c : ascii) : nat :=
  let n := N_of_ascii c in
  if (n <? 128)%N then 1%nat
  else if (n <? 192)%N then 0%nat
  else if (n <? 240)%N then 1%nat
  else 2%nat.

(** [s.length]. *)
Fixpoint js_length (s : string) : nat :=
  match s with
  | EmptyString => 0%nat
  | String c rest => (code_units c + js_length rest)%nat
  end.

Definition string_of_bytes (bytes : list N) : string :=
  fold_right (fun n s => String (ascii_of_N n) s) EmptyString bytes.

(** The white space and the line terminators that [String.prototype.trim]
    removes, in UTF-8: TAB, LF, VT, FF, CR and SP; U+00A0; U+1680; U+2000
    to U+200A; U+2028 and U+2029; U+202F; U+205F; U+3000; U+FEFF, the byte
    order mark. *)
Definition white_space : list string :=
  map string_of_bytes
    [[9]; [10]; [11]; [12]; [13]; [32]; [194; 160]; [225; 154; 128];
     [226; 128; 128]; [226; 128; 129]; [226; 128; 130]; [226; 128; 131];
     [226; 128; 132]; [226; 128; 133]; [226; 128; 134]; [226; 128; 135];
     [226; 128; 136]; [226; 128; 137]; [226; 128; 138];
     [226; 128; 168]; [226; 128; 169]; [226; 128; 175]; [226; 129; 159];
     [227; 128; 128]; [239; 187; 191]]%N.

(** [s] without the prefix [p], when it starts with it. *)
Fixpoint drop_prefix (p s : string) : option string :=
  match p, s with
  | EmptyString, _ => Some s
  | String a p', String b s' => if Ascii.eqb a b then drop_prefix p' s' else None
  | String _ _, EmptyString => None
  end.

(** [s] without the first of [patterns] it starts with. *)
Fixpoint drop_first (patterns : list string) (s : string) : option string :=
  match patterns with
  | [] => None
  | p :: rest =>
      match drop_prefix p s with
      | Some s' => Some s'
      | None => drop_first rest s
      end
  end.

(** Dropping leading patterns, at most [fuel] times. *)
Fixpoint drop_leading (patterns : list string) (fuel : nat) (s : string) : string :=
  match fuel with
  | O => s
  | S k =>
      match drop_first patterns s with
      | Some s' => drop_leading patterns k s'
      | None => s
      end
  end.

Fixpoint reverse (s : string) : string :=
  match s with
  | EmptyString => EmptyString
  | String c rest => reverse rest ++ String c EmptyString
  end.

(** [s.trimStart()], [s.trimEnd()] and [s.trim()]: every pattern has at
    least one byte, so the length of [s] is fuel enough. *)
Definition trimStart (s : string) : string :=
  drop_leading white_space (String.length s) s.

Definition trimEnd (s : string) : string :=
  reverse (drop_leading (map reverse white_space) (String.length s) (reverse s)).

Definition trim (s : string) : string := trimEnd (trimStart s).

(** [s.startsWith(p)]. *)
Fixpoint startsWith (s p : string) : bool :=
  match p, s with
  | EmptyString, _ => true
  | String a p', String b s' => Ascii.eqb a b && startsWith s' p'
  | String _ _, EmptyString => false
  end.

Fixpoint lookup_field (k : string) (fields : list (string * value)) : value :=
  match fields with
  | [] => VUndefined
  | (k', v) :: rest => if String.eqb k k' then v else lookup_field k rest
  end.

(** [v.k] for the property names the class reads ([version], [tag_name],
    [assets], [name], [resourceType], [issue], [length], [severity],
    [details], [text], [diagnostics], ...): none of them is inherited from
    a prototype except [length] of arrays and strings.  Reading a property
    of [null] or [undefined] throws. *)
Definition get_prop (v : value) (k : string) : res value :=
  match v with
  | VUndefined =>
      Throw (TypeError ("Cannot read properties of undefined (reading '" ++ k ++ "')"))
  | VNull =>
      Throw (TypeError ("Cannot read properties of null (reading '" ++ k ++ "')"))
  | VObj fields => Ok (lookup_field k fields)
  | VArr items =>
      if String.eqb k "length" then Ok (VNum (Z.of_nat (length items)))
      else Ok VUndefined
  | VStr s =>
      if String.eqb k "length" then Ok (VNum (Z.of_nat (js_length s)))
      else Ok VUndefined
  | VBuffer bytes =>
      if String.eqb k "length" then Ok (VNum (Z.of_nat (length bytes)))
      else Ok VUndefined
  | VBool _ | VNum _ | VFloat _ => Ok VUndefined
  end.

(** [v?.k]. *)
Definition get_prop_opt (v : value) (k : string) : res value :=
  match v with
  | VUndefined | VNull => Ok VUndefined
  | _ => get_prop v k
  end.

(** [items.find(pred)] on a list, where the callback may throw. *)
Fixpoint find_item (pred : value -> res bool) (items : list value) : res value :=
  match items with
  | [] => Ok VUndefined
  | x :: rest =>
      try! hit <- pred x;
      if hit then Ok x else find_item pred rest
  end.

(** [v.find(pred)]: only arrays have the method. *)
Definition call_find (what : string) (v : value) (pred : value -> res bool) : res value :=
  match v with
  | VArr items => find_item pred items
  | VUndefined | VNull =>
      Throw (TypeError ("Cannot read properties of " ++
                        (if strict_eq v VNull then "null" else "undefined") ++
                        " (reading 'find')"))
  | _ => Throw (TypeError (what ++ ".find is not a function"))
  end.

(* ===================================================================== *)
(** ** What Node provides                                                 *)
(* ===================================================================== *)

(** [new URL(s)] gives these components, or throws. *)
Record url : Type := {
  protocol : string;   (* with the colon, as in 'https:' *)
  hostname : string;
  url_port : string;
  pathname : string;
  search : string;
}.

(** The built-ins the class calls.  They are not part of the repository,
    so the methods below are stated for every implementation of them. *)
Class Runtime : Type := {
  (** [JSON.parse(text)]: a value, or a [SyntaxError]. *)
  JSON_parse : string -> res value;
  (** [JSON.stringify(v)] and [JSON.stringify(v, null, indent)]. *)
  JSON_stringify : value -> nat -> string;
  (** [Buffer.from(s, 'utf8')]. *)
  utf8_encode : string -> list Byte.byte;
  (** [buf.toString('utf8')]. *)
  utf8_decode : list Byte.byte -> string;
  (** [new URL(s)]: the components, or a [TypeError]. *)
  URL_parse : string -> res url;
  (** [new URLSearchParams()], a sequence of [set], then [toString()]. *)
  query_toString : list (string * string) -> string;
}.

Definition join_with (sep : string) (parts : list string) : string :=
  match parts with
  | [] => EmptyString
  | p :: rest => fold_left (fun acc q => acc ++ sep ++ q) rest p
  end.

(** ToString, the conversion of a template literal [`${v}`]. *)
Fixpoint to_string `{Runtime} (v : value) : string :=
  match v with
  | VUndefined => "undefined"
  | VNull => "null"
  | VBool true => "true"
  | VBool false => "false"
  | VNum n => number_to_string (double_of_Z n)
  | VFloat x => number_to_string x
  | VStr s => s
  | VArr items =>
      join_with ","
        (map (fun x => match x with
                       | VUndefined | VNull => EmptyString
                       | _ => to_string x
                       end) items)
  | VObj _ => "[object Object]"
  | VBuffer bytes => utf8_decode bytes
  end.

(* ===================================================================== *)
(** ** The world outside the object                                       *)
(* ===================================================================== *)

(** What sits at a path the class uses as the path of a file: a file, a
    file that may be neither read nor written, or a directory.  The
    directories that contain these paths are not listed: they belong to
    the outside. *)
Inductive node : Type :=
| File (content : list Byte.byte)
| NoAccess
| Dir.

(** An HTTP request as the class issues it: through [http] or [https],
    addressed by a URL string or by an options object. *)
Inductive target : Type :=
| ByUrl (u : string)
| ByOptions (host port path : string).

Record request : Type := {
  req_module : string;
  req_method : string;
  req_target : target;
  req_headers : list (string * string);
  req_body : list Byte.byte;
}.

(** What comes back for a request whose body is collected into a string:
    an ['error'] event, the timer set by [req.setTimeout], or the ['end']
    of a response. *)
Inductive http_reply : Type :=
| ReqError (e : error)
| ReqTimeout
| Reply (status : Z) (body : string).

(** How the transfer of a download ends once the write stream is piped:
    ['finish'] after all chunks; an ['error'] of the write stream, when
    the file could not be opened ([None]) or after some chunks were
    written; an ['error'] of the request after the response began (the
    connection was reset), with some chunks written; the request timer,
    with some chunks written. *)
Inductive stream_end : Type :=
| StreamFinish
| StreamError (e : error) (written : option nat)
| SocketError (e : error) (written : nat)
| StreamTimeout (written : nat).

(** What comes back for the request of a download: an ['error'] or the
    timer before any response, or a response with its status, its
    [location] header, [parseInt] of its [content-length] header ([None]
    for NaN), the chunks its ['data'] handler receives before the call is
    decided, and the end of the transfer. *)
Inductive dl_reply : Type :=
| DlError (e : error)
| DlTimeout
| DlResponse (status : Z) (location : option string) (contentLength : option Z)
             (chunks : list (list Byte.byte)) (ending : stream_end).

(** The servers, the clock and the directories: fixed during one call.
    [mkdir destPath] is the exception of [fs.mkdirSync] when the directory
    of [destPath] is missing and cannot be made. *)
Record outside_t : Type := {
  api : request -> http_reply;
  downloads : string -> dl_reply;
  mkdir : string -> option error;
  now_iso : string;
}.

Record world : Type := {
  fs : gmap string node;
  logged : list (string * string);
  requests : list request;
  outside : outside_t;
}.

Definition set_fs (f : gmap string node -> gmap string node) (w : world) : world :=
  {| fs := f (fs w); logged := logged w; requests := requests w; outside := outside w |}.

Definition add_log (level msg : string) (w : world) : world :=
  {| fs := fs w; logged := logged w ++ [(level, msg)];
     requests := requests w; outside := outside w |}.

Definition add_request (r : request) (w : world) : world :=
  {| fs := fs w; logged := logged w; requests := requests w ++ [r];
     outside := outside w |}.

(** Methods run in the world and end as [outcome] says. *)
Definition M (A : Type) : Type := world -> outcome A * world.

Definition ret {A} (a : A) : M A := fun w => (Done a, w).
Definition throw {A} (e : error) : M A := fun w => (Fail e, w).
Definition lift {A} (r : res A) : M A :=
  fun w => (match r with Ok a => Done a | Throw e => Fail e end, w).

Definition bind {A B} (m : M A) (k : A -> M B) : M B :=
  fun w =>
    match m w with
    | (Done a, w') => k a w'
    | (Fail e, w') => (Fail e, w')
    | (Uncaught e, w') => (Uncaught e, w')
    end.

(** [try { body } catch (e) { handler }]. *)
Definition try_catch {A} (body : M A) (handler : error -> M A) : M A :=
  fun w =>
    match body w with
    | (Fail e, w') => handler e w'
    | other => other
    end.

Notation "'do!' x <- m ; k" := (bind m (fun x => k))
  (at level 10, x name, m at level 100, k at level 200).
Notation "m ;;; k" := (bind m (fun _ => k))
  (at level 100, k at level 200, right associativity).

(** [this.log(level, message)]: the logger, or the console, takes the line. *)
Definition log (level msg : string) : M unit :=
  fun w => (Done tt, add_log level msg w).

(** [fs.existsSync(p)]. *)
Definition existsSync (p : string) : M bool :=
  fun w => (Done (match fs w !! p with Some _ => true | None => false end), w).

(** [fs.unlinkSync(p)] removes a file, whatever its permissions, and fails
    on a directory (with the error of Linux). *)
Definition unlinkSync (p : string) : M unit :=
  fun w =>
    match fs w !! p with
    | Some Dir =>
        (Fail (Error ("EISDIR: illegal operation on a directory, unlink '" ++ p ++ "'")), w)
    | Some _ => (Done tt, set_fs (delete p) w)
    | None => (Fail (Error ("ENOENT: no such file or directory, unlink '" ++ p ++ "'")), w)
    end.

(** [fs.renameSync(a, b)] moves a file over a file or to a free path and
    fails when a directory is in the way.  A directory is moved as one
    node, to a free path or over a directory; the class itself only
    renames the file it has just written. *)
Definition renameSync (a b : string) : M unit :=
  fun w =>
    match fs w !! a, fs w !! b with
    | None, _ =>
        (Fail (Error ("ENOENT: no such file or directory, rename '" ++ a ++ "' -> '"
                      ++ b ++ "'")), w)
    | Some Dir, Some (File _) | Some Dir, Some NoAccess =>
        (Fail (Error ("ENOTDIR: not a directory, rename '" ++ a ++ "' -> '"
                      ++ b ++ "'")), w)
    | Some (File _), Some Dir | Some NoAccess, Some Dir =>
        (Fail (Error ("EISDIR: illegal operation on a directory, rename '" ++ a
                      ++ "' -> '" ++ b ++ "'")), w)
    | Some n, _ => (Done tt, set_fs (fun m => <[b := n]> (delete a m)) w)
    end.

(** [fs.createWriteStream(p)] opens [p] for writing.  A directory or a
    file without permission at [p] makes the stream emit ['error'] with
    the error given here; otherwise the file is created or truncated. *)
Definition open_error (p : string) (w : world) : option error :=
  match fs w !! p with
  | Some Dir => Some (Error ("EISDIR: illegal operation on a directory, open '" ++ p ++ "'"))
  | Some NoAccess => Some (Error ("EACCES: permission denied, open '" ++ p ++ "'"))
  | _ => None
  end.

(** What a write stream that could be opened leaves at [p] once [bytes]
    went through. *)
Definition stream_to (p : string) (bytes : list Byte.byte) : M unit :=
  fun w => (Done tt, set_fs (<[p := File bytes]>) w).

(** A statement inside an event callback: what it throws is caught by
    nobody. *)
Definition in_callback {A} (m : M A) : M A :=
  fun w =>
    match m w with
    | (Fail e, w') => (Uncaught e, w')
    | other => other
    end.

(** The object: the constructor's fields. *)
Record proc : Type := { pid : nat; killed : bool }.

Record validator : Type := {
  validatorJarPath : string;
  process : option proc;
  port : option Z;
  baseUrl : option string;
  isReady : bool;
  versionFilePath : string;
  version : value;
}.

(** [new FhirValidator(validatorJarPath)]. *)
Definition constructor (jar : string) : validator :=
  {| validatorJarPath := jar;
     process := None;
     port := None;
     baseUrl := None;
     isReady := false;
     versionFilePath := jar ++ ".version";
     version := VUndefined |}.

(* ===================================================================== *)
(** ** The artifact manager                                               *)
(* ===================================================================== *)

Record release : Type := {
  rel_version : value;
  rel_downloadUrl : value;
  rel_publishedAt : value;
}.

Record ensure_options : Type := { force : bool; skipUpdateCheck : bool }.

Record ensure_result : Type := {
  res_version : value;
  updated : bool;
  downloaded : bool;
}.

Definition github_request : request :=
  {| req_module := "https";
     req_method := "GET";
     req_target :=
       ByOptions "api.github.com" EmptyString "/repos/hapifhir/org.hl7.fhir.core/releases/latest";
     req_headers := [("User-Agent", "fhir-validator-node");
                     ("Accept", "application/vnd.github.v3+json")];
     req_body := [] |}.

(** The request goes out and the servers answer. *)
Definition send (r : request) : M http_reply :=
  fun w => (Done (api (outside w) r), add_request r w).

Definition download_request (parsed : url) (downloadUrl : string) : request :=
  {| req_module := if String.eqb (protocol parsed) "https:" then "https" else "http";
     req_method := "GET";
     req_target := ByUrl downloadUrl;
     req_headers := [("User-Agent", "fhir-validator-node")];
     req_body := [] |}.

Definition fetch (parsed : url) (downloadUrl : string) (w : world) : dl_reply * world :=
  (downloads (outside w) downloadUrl, add_request (download_request parsed downloadUrl) w).

(** The test of the redirect branch:
    [statusCode >= 300 && statusCode < 400 && headers.location]. *)
Definition redirect_to (status : Z) (location : option string) : option string :=
  match location with
  | Some loc =>
      if (300 <=? status) && (status <? 400) && negb (String.eqb loc EmptyString)
      then Some loc else None
  | None => None
  end.

(** *** The progress lines of a download *)

(** [Math.floor(x)] and [Math.round(x)] (the nearest integer, a tie going
    up). *)
Definition js_floor (x : spec_float) : spec_float :=
  match x with
  | S754_finite sign m e =>
      if 0 <=? e then x
      else
        let n := (if sign then Z.neg m else Z.pos m) / 2 ^ (- e) in
        if n =? 0 then S754_zero false else double_of_Z n
  | _ => x
  end.

Definition js_round (x : spec_float) : spec_float :=
  match x with
  | S754_finite sign m e =>
      if 0 <=? e then x
      else
        let n := (2 * (if sign then Z.neg m else Z.pos m) + 2 ^ (- e)) / 2 ^ (1 - e) in
        if n =? 0 then S754_zero sign else double_of_Z n
  | _ => x
  end.

(** [Math.round(bytes / 1024 / 1024)]. *)
Definition megabytes (bytes : spec_float) : spec_float :=
  js_round (SFdiv 53 1024 (SFdiv 53 1024 bytes (double_of_Z 1024)) (double_of_Z 1024)).

(** The variables of the ['data'] handler, [downloadedBytes] and
    [lastLoggedPercent], with the lines logged so far. *)
Record progress : Type := {
  downloadedBytes : spec_float;
  lastLoggedPercent : spec_float;
  progress_lines : list string;
}.

(** The ['data'] handler of [downloadFile] on one chunk.  A content length
    that is NaN or zero is falsy and nothing is logged. *)
Definition on_data (contentLength : option Z) (st : progress)
    (chunk : list Byte.byte) : progress :=
  let downloaded :=
    SFadd 53 1024 (downloadedBytes st) (double_of_Z (Z.of_nat (length chunk))) in
  let quiet := {| downloadedBytes := downloaded;
                  lastLoggedPercent := lastLoggedPercent st;
                  progress_lines := progress_lines st |} in
  match contentLength with
  | None => quiet
  | Some c =>
      if c =? 0 then quiet
      else
        let total := double_of_Z c in
        let percent :=
          js_floor (SFmul 53 1024 (SFdiv 53 1024 downloaded total) (double_of_Z 100)) in
        if SFleb (SFadd 53 1024 (lastLoggedPercent st) (double_of_Z 10)) percent then
          {| downloadedBytes := downloaded;
             lastLoggedPercent := percent;
             progress_lines :=
               progress_lines st
               ++ ["Download progress: " ++ number_to_string percent ++ "% ("
                   ++ number_to_string (megabytes downloaded) ++ "MB / "
                   ++ number_to_string (megabytes total) ++ "MB)"] |}
        else quiet
  end.

(** The lines the handler logs while [chunks] arrive. *)
Definition progress_of (contentLength : option Z) (chunks : list (list Byte.byte))
  : list string :=
  progress_lines
    (fold_left (on_data contentLength) chunks
       {| downloadedBytes := S754_zero false;
          lastLoggedPercent := S754_zero false;
          progress_lines := [] |}).

Definition log_all (level : string) (lines : list string) : M unit :=
  fun w => (Done tt, fold_left (fun w' line => add_log level line w') lines w).

Section ArtifactManager.
Context `{Runtime}.

(** [fs.readFileSync(p, 'utf8')]. *)
Definition readFileSync (p : string) : M string :=
  fun w =>
    match fs w !! p with
    | Some (File content) => (Done (utf8_decode content), w)
    | Some NoAccess => (Fail (Error ("EACCES: permission denied, open '" ++ p ++ "'")), w)
    | Some Dir => (Fail (Error "EISDIR: illegal operation on a directory, read"), w)
    | None => (Fail (Error ("ENOENT: no such file or directory, open '" ++ p ++ "'")), w)
    end.

(** [fs.writeFileSync(p, text)]. *)
Definition writeFileSync (p text : string) : M unit :=
  fun w =>
    match fs w !! p with
    | Some NoAccess => (Fail (Error ("EACCES: permission denied, open '" ++ p ++ "'")), w)
    | Some Dir =>
        (Fail (Error ("EISDIR: illegal operation on a directory, open '" ++ p ++ "'")), w)
    | _ => (Done tt, set_fs (<[p := File (utf8_encode text)]>) w)
    end.

(** [getInstalledVersion()].  The [try] block returns the version field
    when the sidecar exists ([Some]); otherwise, and after the [catch],
    control falls through to [return null]. *)
Definition getInstalledVersion (self : validator) : M value :=
  do! returned <-
    try_catch
      (do! present <- existsSync (versionFilePath self);
       if present then
         do! text <- readFileSync (versionFilePath self);
         do! versionInfo <- lift (JSON_parse text);
         do! v <- lift (get_prop versionInfo "version");
         ret (Some v)
       else ret None)
      (fun e =>
         log "warn" ("Failed to read version file: " ++ message e);;;
         ret None);
  match returned with
  | Some v => ret v
  | None => ret VNull
  end.

(** [saveVersionInfo(version, downloadUrl)]. *)
Definition saveVersionInfo (self : validator) (version downloadUrl : value) : M unit :=
  fun w =>
    let versionInfo :=
      VObj [("version", version); ("downloadUrl", downloadUrl);
            ("downloadedAt", VStr (now_iso (outside w)))] in
    writeFileSync (versionFilePath self) (JSON_stringify versionInfo 2) w.

(** [getLatestRelease()].  Inside the [try] of the ['end'] handler a
    missing asset calls [reject] and returns ([inl]); an exception of the
    block is caught and reported as a parse failure. *)
Definition getLatestRelease : M release :=
  do! reply <- send github_request;
  match reply with
  | ReqError e => throw e
  | ReqTimeout => throw (Error "GitHub API request timeout")
  | Reply status data =>
      if negb (status =? 200) then
        throw (Error ("GitHub API returned status " ++ pretty status ++ ": " ++ data))
      else
        do! settled <-
          try_catch
            (do! release <- lift (JSON_parse data);
             do! version <- lift (get_prop release "tag_name");
             do! assets <- lift (get_prop release "assets");
             do! asset <- lift (call_find "release.assets" assets
                                  (fun a => try! name <- get_prop a "name";
                                            Ok (strict_eq name (VStr "validator_cli.jar"))));
             if negb (truthy asset) then
               ret (inl (Error "validator_cli.jar not found in latest release assets"))
             else
               do! downloadUrl <- lift (get_prop asset "browser_download_url");
               do! publishedAt <- lift (get_prop release "published_at");
               ret (inr {| rel_version := version;
                           rel_downloadUrl := downloadUrl;
                           rel_publishedAt := publishedAt |}))
            (fun error =>
               ret (inl (Error ("Failed to parse GitHub response: " ++ message error))));
        match settled with
        | inl e => throw e
        | inr r => ret r
        end
  end.

(** The transfer of a response with status 200 into the temporary file, by
    the way it ends.  Only an ['error'] of the write stream removes the
    temporary file; an error of the request and the request timer leave it
    with what was written.  The handlers run as event callbacks: an
    exception of [unlinkSync] or [renameSync] is caught by nobody and the
    promise is never settled. *)
Definition transfer (destPath : string) (chunks : list (list Byte.byte))
    (ending : stream_end) : M unit :=
  let tempPath := destPath ++ ".download" in
  match ending with
  | StreamFinish =>
      stream_to tempPath (concat chunks);;;
      in_callback (renameSync tempPath destPath)
  | StreamError err written =>
      match written with
      | Some k => stream_to tempPath (concat (take k chunks))
      | None => ret tt
      end;;;
      do! present <- existsSync tempPath;
      (if present then in_callback (unlinkSync tempPath) else ret tt);;;
      throw err
  | SocketError err k =>
      stream_to tempPath (concat (take k chunks));;;
      throw err
  | StreamTimeout k =>
      stream_to tempPath (concat (take k chunks));;;
      throw (Error "Download timeout")
  end.

(** The response callback of [downloadFile] once the response is not a
    redirect.  An exception of [mkdirSync] escapes the callback.  The
    write stream fails at once when the temporary path cannot be opened;
    otherwise the transfer ends as the outside says. *)
Definition receive (destPath : string) (status : Z) (contentLength : option Z)
    (chunks : list (list Byte.byte)) (ending : stream_end) : M unit :=
  if negb (status =? 200) then
    throw (Error ("Download failed with status " ++ pretty status))
  else
    fun w =>
      match mkdir (outside w) destPath with
      | Some e => (Uncaught e, w)
      | None =>
          (log_all "info" (progress_of contentLength chunks);;;
           transfer destPath chunks
             (match open_error (destPath ++ ".download") w with
              | Some e => StreamError e None
              | None => ending
              end)) w
      end.

(** [downloadWithRedirects(downloadUrl, redirectCount)], the local function
    of [downloadFile].  [new URL] throws inside the promise executor on the
    first call (the promise rejects) and inside a response callback on the
    later ones. *)
Equations? downloadWithRedirects (destPath downloadUrl : string)
    (redirectCount : Z) (w : world) : outcome unit * world
    by wf (Z.to_nat (6 - redirectCount)) lt :=
  downloadWithRedirects destPath downloadUrl redirectCount w
    with Z_gt_dec redirectCount 5 := {
    | left _ => (Fail (Error "Too many redirects"), w)
    | right _ with URL_parse downloadUrl := {
        | Throw e => (if redirectCount =? 0 then Fail e else Uncaught e, w)
        | Ok parsedUrl with fetch parsedUrl downloadUrl w := {
            | (DlError e, w1) => (Fail e, w1)
            | (DlTimeout, w1) => (Fail (Error "Download timeout"), w1)
            | (DlResponse status location contentLength chunks ending, w1)
                with redirect_to status location := {
                | Some loc =>
                    downloadWithRedirects destPath loc (redirectCount + 1)
                      (add_log "info" ("Following redirect to " ++ loc) w1)
                | None => receive destPath status contentLength chunks ending w1 } } } }.
Proof. lia. Qed.

(** [downloadFile(url, destPath)]. *)
Definition downloadFile (url destPath : string) : M unit :=
  downloadWithRedirects destPath url 0.

(** [ensureValidator(options)]. *)
Definition ensureValidator (self : validator) (options : ensure_options)
  : M ensure_result :=
  do! jarExists <- existsSync (validatorJarPath self);
  do! installedVersion <- getInstalledVersion self;
  if jarExists && skipUpdateCheck options && negb (force options) then
    log "info" "Using existing validator JAR (version check skipped)";;;
    ret {| res_version := js_or installedVersion (VStr "unknown");
           updated := false;
           downloaded := false |}
  else
    log "info" "Checking for latest FHIR validator release...";;;
    do! latest <- getLatestRelease;
    log "info" ("Latest version: " ++ to_string (rel_version latest));;;
    let needsDownload :=
      force options
      || negb jarExists
      || negb (truthy installedVersion)
      || negb (strict_eq installedVersion (rel_version latest)) in
    if negb needsDownload then
      log "info" ("Validator is up to date (" ++ to_string installedVersion ++ ")");;;
      ret {| res_version := installedVersion;
             updated := false;
             downloaded := false |}
    else
      (if truthy installedVersion && jarExists then
         log "info" ("Updating validator from " ++ to_string installedVersion
                     ++ " to " ++ to_string (rel_version latest) ++ "...")
       else
         log "info" ("Downloading validator " ++ to_string (rel_version latest) ++ "..."));;;
      downloadFile (to_string (rel_downloadUrl latest)) (validatorJarPath self);;;
      saveVersionInfo self (rel_version latest) (rel_downloadUrl latest);;;
      log "info" ("Validator " ++ to_string (rel_version latest)
                  ++ " downloaded successfully");;;
      ret {| res_version := rel_version latest;
             updated := negb (strict_eq installedVersion VNull)
                        && negb (strict_eq installedVersion (rel_version latest));
             downloaded := true |}.

End ArtifactManager.

(* ===================================================================== *)
(** ** The validation client                                              *)
(* ===================================================================== *)

(** The [options] of [validate], typed as its documentation has them; a
    field that is absent is [None]. *)
Record validate_options : Type := {
  profiles : option (list string);
  resourceIdRule : option string;
  anyExtensionsAllowed : option bool;
  bpWarnings : option string;
  displayOption : option string;
}.

(** The [params] object of [runTxTest]; an absent field is [VUndefined]. *)
Record tx_params : Type := {
  server : value;
  suiteName : value;
  testName : value;
  tx_version : value;
  externalFile : value;
  modes : value;
}.

(** What [runTxTest] resolves with; [{result: true}] has no message. *)
Record tx_result : Type := {
  result : bool;
  tx_message : value;
}.

Definition newline : string := String (ascii_of_nat 10) EmptyString.

Definition not_ready : error := Error "Validator service is not ready".

(** [`${this.baseUrl}`]. *)
Definition show_baseUrl (self : validator) : string :=
  match baseUrl self with
  | Some u => u
  | None => "null"
  end.

(** A string option that is present and not empty, as [if (options.x)]. *)
Definition given (o : option string) : option string :=
  match o with
  | Some s => if String.eqb s EmptyString then None else Some s
  | None => None
  end.

Section ValidationClient.
Context `{Runtime}.

(** The query parameters of [validate], in the order they are set. *)
Definition validate_query (options : validate_options) : list (string * string) :=
  (match profiles options with
   | Some (p :: ps) => [("profiles", join_with "," (p :: ps))]
   | _ => []
   end)
  ++ (match given (resourceIdRule options) with
      | Some r => [("resourceIdRule", r)]
      | None => []
      end)
  ++ (match anyExtensionsAllowed options with
      | Some b => [("anyExtensionsAllowed", if b then "true" else "false")]
      | None => []
      end)
  ++ (match given (bpWarnings options) with
      | Some b => [("bpWarnings", b)]
      | None => []
      end)
  ++ (match given (displayOption options) with
      | Some d => [("displayOption", d)]
      | None => []
      end).

(** The first part of [validate]: the resource as bytes with its content
    type. *)
Definition convert_resource (resource : value) : res (list Byte.byte * string) :=
  match resource with
  | VStr s =>
      let trimmed := trim s in
      let contentType :=
        if startsWith trimmed "<" then "application/fhir+xml"
        else "application/fhir+json" in
      Ok (utf8_encode s, contentType)
  | VBuffer bytes =>
      let content := trim (utf8_decode bytes) in
      let contentType :=
        if startsWith content "<" then "application/fhir+xml"
        else "application/fhir+json" in
      Ok (bytes, contentType)
  | _ =>
      if String.eqb (typeof resource) "object" then
        Ok (utf8_encode (JSON_stringify resource 0), "application/fhir+json")
      else Throw (Error "Resource must be a string, Buffer, or object")
  end.

(** The promise of [validate] and [loadIG]: the request is built from the
    parsed URL (an invalid URL throws inside the executor, which rejects),
    and the response body is parsed. *)
Definition post_and_parse (url : string) (headers : list (string * string))
    (body : list Byte.byte) (timeout_message : string) : M value :=
  do! parsedUrl <- lift (URL_parse url);
  do! reply <- send {| req_module := "http";
                       req_method := "POST";
                       req_target := ByOptions (hostname parsedUrl) (url_port parsedUrl)
                                       (pathname parsedUrl ++ search parsedUrl);
                       req_headers := headers;
                       req_body := body |};
  match reply with
  | ReqError e => throw e
  | ReqTimeout => throw (Error timeout_message)
  | Reply _ data =>
      try_catch (lift (JSON_parse data))
        (fun error =>
           throw (Error ("Failed to parse response: " ++ message error
                         ++ newline ++ "Response: " ++ data)))
  end.

(** [validate(resource, options)]. *)
Definition validate (self : validator) (resource : value)
    (options : validate_options) : M value :=
  if negb (isReady self) then throw not_ready
  else
    do! converted <- lift (convert_resource resource);
    let '(resourceBytes, contentType) := converted in
    let url := show_baseUrl self ++ "/validateResource?"
               ++ query_toString (validate_query options) in
    post_and_parse url
      [("Content-Type", contentType);
       ("Content-Length", pretty (Z.of_nat (length resourceBytes)));
       ("Accept", "application/fhir+json")]
      resourceBytes
      "Validation request timeout".

(** [validateBytes(resourceBytes, format, options)]. *)
Definition validateBytes (self : validator) (resourceBytes format : value)
    (options : validate_options) : M value :=
  if negb (isBuffer resourceBytes) then
    throw (Error "resourceBytes must be a Buffer")
  else validate self resourceBytes options.

(** [validateObject(resourceObject, options)]. *)
Definition validateObject (self : validator) (resourceObject : value)
    (options : validate_options) : M value :=
  if negb (String.eqb (typeof resourceObject) "object")
     || strict_eq resourceObject VNull then
    throw (Error "resourceObject must be an object")
  else validate self resourceObject options.

(** [loadIG(packageId, version)]. *)
Definition loadIG (self : validator) (packageId version : value) : M value :=
  if negb (isReady self) then throw not_ready
  else
    let url := show_baseUrl self ++ "/loadIG?"
               ++ query_toString [("packageId", to_string packageId);
                                  ("version", to_string version)] in
    post_and_parse url [("Accept", "application/fhir+json")] []
      "Load IG request timeout".

(** The body of the [try] block in the ['end'] handler of [runTxTest]:
    every path calls [resolve] with the value returned here. *)
Definition classify_outcome (data : string) : res tx_result :=
  try! outcome <- JSON_parse data;
  try! resourceType <- get_prop outcome "resourceType";
  if negb (strict_eq resourceType (VStr "OperationOutcome")) then
    Ok {| result := false;
          tx_message := VStr ("Unexpected response type: "
                              ++ to_string (js_or resourceType (VStr "unknown"))) |}
  else
    try! issue <- get_prop outcome "issue";
    try! no_issue <-
      (if negb (truthy issue) then Ok true
       else try! len <- get_prop issue "length"; Ok (strict_eq len (VNum 0)));
    if (no_issue : bool) then Ok {| result := true; tx_message := VUndefined |}
    else
      try! errorIssue <-
        call_find "outcome.issue" issue
          (fun i => try! severity <- get_prop i "severity";
                    Ok (strict_eq severity (VStr "error")));
      if truthy errorIssue then
        try! details <- get_prop errorIssue "details";
        try! text <- get_prop_opt details "text";
        try! diagnostics <- get_prop errorIssue "diagnostics";
        Ok {| result := false;
              tx_message := js_or (js_or text diagnostics)
                                  (VStr "Test failed with error") |}
      else Ok {| result := true; tx_message := VUndefined |}.

(** The ['end'] handler of [runTxTest]. *)
Definition classify_response (status : Z) (data : string) : tx_result :=
  if 400 <=? status then
    {| result := false;
       tx_message := VStr ("HTTP error " ++ pretty status ++ ": " ++ data) |}
  else
    match classify_outcome data with
    | Ok r => r
    | Throw error =>
        {| result := false;
           tx_message := VStr ("Failed to parse response: " ++ message error) |}
    end.

Definition tx_query (params : tx_params) : list (string * string) :=
  [("server", to_string (server params));
   ("suite", to_string (suiteName params));
   ("test", to_string (testName params));
   ("version", to_string (tx_version params))]
  ++ (if truthy (externalFile params)
      then [("externalFile", to_string (externalFile params))] else [])
  ++ (if truthy (modes params)
      then [("modes", to_string (modes params))] else []).

(** [runTxTest(params)]. *)
Definition runTxTest (self : validator) (params : tx_params) : M tx_result :=
  if negb (isReady self) then throw not_ready
  else if negb (truthy (server params)) || negb (truthy (suiteName params))
          || negb (truthy (testName params)) || negb (truthy (tx_version params)) then
    throw (Error "server, suiteName, testName, and version are required")
  else
    let url := show_baseUrl self ++ "/txTest?" ++ query_toString (tx_query params) in
    do! parsedUrl <- lift (URL_parse url);
    do! reply <- send {| req_module := "http";
                         req_method := "GET";
                         req_target := ByOptions (hostname parsedUrl) (url_port parsedUrl)
                                         (pathname parsedUrl ++ search parsedUrl);
                         req_headers := [("Accept", "application/fhir+json")];
                         req_body := [] |};
    match reply with
    | ReqError error =>
        ret {| result := false;
               tx_message := VStr ("Request failed: " ++ message error) |}
    | ReqTimeout =>
        ret {| result := false; tx_message := VStr "Request timeout" |}
    | Reply status data => ret (classify_response status data)
    end.

End ValidationClient.

(* ===================================================================== *)
(** ** The process supervisor                                             *)
(* ===================================================================== *)

(** [cleanup()]. *)
Definition cleanup (self : validator) : validator :=
  {| validatorJarPath := validatorJarPath self;
     process := None;
     port := None;
     baseUrl := None;
     isReady := false;
     versionFilePath := versionFilePath self;
     version := version self |}.

(** [isRunning()]. *)
Definition isRunning (self : validator) : bool :=
  match process self with
  | Some _ => isReady self
  | None => false
  end.

(** The [config] of [start]; an absent required field is [None], the
    optional ones carry their defaults. *)
Record start_config : Type := {
  cfg_version : option string;
  txServer : option string;
  txLog : option string;
  igs : list string;
  cfg_port : Z;
  cfg_timeout : Z;
  autoDownload : bool;
  cfg_skipUpdateCheck : bool;
}.

Inductive signal : Type := SIGKILL | SIGTERM.

(** Where the pending call of [start] is suspended: at
    [await this.healthCheck()], or at the one-second timer of the [catch]
    branch, inside the loop of [waitForReady(timeout)] entered at
    [startTime]. *)
Inductive start_phase : Type :=
| Probing (startTime timeout : Z)
| Backoff (startTime timeout due : Z).

(** A pending call of [stop]: its ['exit'] listener sits on the process
    [on_pid], its timer fires at [deadline]. *)
Record stop_call : Type := {
  stop_id : nat;
  on_pid : nat;
  deadline : Z;
}.

Inductive call : Type :=
| StartCall
| StopCall (id : nat).

(** The object together with Node's event loop: the clock, the spawned
    processes whose ['exit'] has not been dispatched, the suspended calls,
    and a record of what was observable (signals sent, argument vectors,
    how each call settled). *)
Record machine : Type := {
  self : validator;
  now : Z;
  children : list nat;
  next_pid : nat;
  starting : option start_phase;
  stopping : list stop_call;
  next_stop : nat;
  signals : list (nat * signal);
  spawned : list (list string);
  settled : list (call * outcome unit);
  mworld : world;
}.

(** What the event loop dispatches: calls of [start] and [stop] by the
    host, the end of the pending health probe (a response with its status,
    or [None] for an error or the five-second timer), the timers, the
    ['exit'] event of a spawned process with its code and signal, and the
    passing of time.  The loop takes pending events in any order: the
    answer to a probe that was sent before the process ended may be
    dispatched after its ['exit'] event, and the port may be served by
    another process. *)
Inductive event : Type :=
| CallStart (config : start_config)
| ProbeAnswer (status : option Z)
| BackoffElapsed
| ChildExit (p : nat) (code sig : value)
| CallStop (accepted : bool)
| StopTimer (id : nat)
| Tick (ms : Z).

Definition set_self (f : validator -> validator) (m : machine) : machine :=
  {| self := f (self m); now := now m; children := children m;
     next_pid := next_pid m; starting := starting m; stopping := stopping m;
     next_stop := next_stop m; signals := signals m; spawned := spawned m;
     settled := settled m; mworld := mworld m |}.

Definition set_starting (s : option start_phase) (m : machine) : machine :=
  {| self := self m; now := now m; children := children m;
     next_pid := next_pid m; starting := s; stopping := stopping m;
     next_stop := next_stop m; signals := signals m; spawned := spawned m;
     settled := settled m; mworld := mworld m |}.

Definition set_stopping (s : list stop_call) (m : machine) : machine :=
  {| self := self m; now := now m; children := children m;
     next_pid := next_pid m; starting := starting m; stopping := s;
     next_stop := next_stop m; signals := signals m; spawned := spawned m;
     settled := settled m; mworld := mworld m |}.

Definition set_world (w : world) (m : machine) : machine :=
  {| self := self m; now := now m; children := children m;
     next_pid := next_pid m; starting := starting m; stopping := stopping m;
     next_stop := next_stop m; signals := signals m; spawned := spawned m;
     settled := settled m; mworld := w |}.

Definition settle (c : call) (r : outcome unit) (m : machine) : machine :=
  {| self := self m; now := now m; children := children m;
     next_pid := next_pid m; starting := starting m; stopping := stopping m;
     next_stop := next_stop m; signals := signals m; spawned := spawned m;
     settled := settled m ++ [(c, r)]; mworld := mworld m |}.

Definition send_signal (p : nat) (s : signal) (m : machine) : machine :=
  {| self := self m; now := now m; children := children m;
     next_pid := next_pid m; starting := starting m; stopping := stopping m;
     next_stop := next_stop m; signals := signals m ++ [(p, s)];
     spawned := spawned m; settled := settled m; mworld := mworld m |}.

Definition mlog (level msg : string) (m : machine) : machine :=
  set_world (add_log level msg (mworld m)) m.

(** [process.kill(sig)] on the handle the object holds: the signal goes
    out, and [killed] becomes true when the system accepted it. *)
Definition mark_killed (accepted : bool) (v : validator) : validator :=
  {| validatorJarPath := validatorJarPath v;
     process := match process v with
                | Some p => Some {| pid := pid p; killed := killed p || accepted |}
                | None => None
                end;
     port := port v;
     baseUrl := baseUrl v;
     isReady := isReady v;
     versionFilePath := versionFilePath v;
     version := version v |}.

(** The assignments of [start] around [spawn]. *)
Definition listen_on (p : Z) (v : validator) : validator :=
  {| validatorJarPath := validatorJarPath v;
     process := process v;
     port := Some p;
     baseUrl := Some ("http://localhost:" ++ pretty p);
     isReady := isReady v;
     versionFilePath := versionFilePath v;
     version := version v |}.

Definition hold_process (p : nat) (v : validator) : validator :=
  {| validatorJarPath := validatorJarPath v;
     process := Some {| pid := p; killed := false |};
     port := port v;
     baseUrl := baseUrl v;
     isReady := isReady v;
     versionFilePath := versionFilePath v;
     version := version v |}.

(** [this.isReady = true], the line after [await this.healthCheck()]. *)
Definition mark_ready (v : validator) : validator :=
  {| validatorJarPath := validatorJarPath v;
     process := process v;
     port := port v;
     baseUrl := baseUrl v;
     isReady := true;
     versionFilePath := versionFilePath v;
     version := version v |}.

Definition spawn_child (args : list string) (m : machine) : machine :=
  {| self := hold_process (next_pid m) (self m); now := now m;
     children := children m ++ [next_pid m];
     next_pid := S (next_pid m); starting := starting m; stopping := stopping m;
     next_stop := next_stop m; signals := signals m;
     spawned := spawned m ++ [args]; settled := settled m; mworld := mworld m |}.

Definition advance (ms : Z) (m : machine) : machine :=
  {| self := self m; now := now m + ms; children := children m;
     next_pid := next_pid m; starting := starting m; stopping := stopping m;
     next_stop := next_stop m; signals := signals m; spawned := spawned m;
     settled := settled m; mworld := mworld m |}.

Definition exit_child (p : nat) (m : machine) : machine :=
  {| self := self m; now := now m;
     children := filter (fun q => q <> p) (children m);
     next_pid := next_pid m; starting := starting m; stopping := stopping m;
     next_stop := next_stop m; signals := signals m; spawned := spawned m;
     settled := settled m; mworld := mworld m |}.

Definition add_stop (m : machine) : machine :=
  match process (self m) with
  | Some p =>
      {| self := self m; now := now m; children := children m;
         next_pid := next_pid m; starting := starting m;
         stopping := stopping m ++ [{| stop_id := next_stop m; on_pid := pid p;
                                       deadline := now m + 10000 |}];
         next_stop := S (next_stop m); signals := signals m; spawned := spawned m;
         settled := settled m; mworld := mworld m |}
  | None => m
  end.

(** The argument vector of [spawn('java', args)]. *)
Definition build_args (jar : string) (config : start_config)
    (ver tx txlog : string) : list string :=
  ["-jar"; jar; "-server"; pretty (cfg_port config); "-tx"; tx;
   "-txLog"; txlog; "-version"; ver]
  ++ flat_map (fun ig => ["-ig"; ig]) (igs config).

Definition probe_request (u : string) : request :=
  {| req_module := "http";
     req_method := "GET";
     req_target := ByUrl u;
     req_headers := [];
     req_body := [] |}.

Definition drop_stop (id : nat) (m : machine) : machine :=
  set_stopping (filter (fun sc => stop_id sc <> id) (stopping m)) m.

(** [onExit] of one pending [stop]: [clearTimeout], [cleanup], [resolve]. *)
Definition stop_on_exit (m : machine) (sc : stop_call) : machine :=
  settle (StopCall (stop_id sc)) (Done tt)
    (set_self cleanup (drop_stop (stop_id sc) m)).

(** The timer callback of one pending [stop]. *)
Definition stop_timeout (sc : stop_call) (m : machine) : machine :=
  let m1 := mlog "warn" "Force killing validator process after timeout" m in
  let m2 :=
    match process (self m1) with
    | Some p =>
        if negb (killed p) then send_signal (pid p) SIGKILL m1 else m1
    | None => m1
    end in
  settle (StopCall (stop_id sc)) (Done tt)
    (set_self cleanup (drop_stop (stop_id sc) m2)).

(** [stop()], up to the point where its promise is pending. *)
Definition stop (accepted : bool) (m : machine) : machine :=
  match process (self m) with
  | None =>
      settle (StopCall (next_stop m)) (Done tt)
        {| self := self m; now := now m; children := children m;
           next_pid := next_pid m; starting := starting m;
           stopping := stopping m; next_stop := S (next_stop m);
           signals := signals m; spawned := spawned m;
           settled := settled m; mworld := mworld m |}
  | Some p =>
      let m1 := add_stop m in
      let m2 := mlog "info" "Stopping validator process..." m1 in
      let m3 := send_signal (pid p) SIGKILL m2 in
      set_self (mark_killed accepted) m3
  end.

Section Supervisor.
Context `{Runtime}.

(** The loop of [waitForReady], from its test.  [healthCheck()] calls
    [http.get] inside a promise executor: with a URL that does not parse
    the promise rejects at once and the [catch] branch starts the timer. *)
Definition wait_loop (startTime timeout : Z) (m : machine) : machine :=
  if now m - startTime <? timeout then
    let u := show_baseUrl (self m) ++ "/validateResource" in
    match URL_parse u with
    | Ok _ =>
        set_starting (Some (Probing startTime timeout))
          (set_world (add_request (probe_request u) (mworld m)) m)
    | _ => set_starting (Some (Backoff startTime timeout (now m + 1000))) m
    end
  else
    settle StartCall
      (Fail (Error ("Validator service did not become ready within "
                     ++ pretty timeout ++ "ms")))
      (set_starting None m).

(** [await this.healthCheck()] returns or throws. *)
Definition probe_answer (startTime timeout : Z) (status : option Z)
    (m : machine) : machine :=
  match status with
  | Some code =>
      if code =? 405 then
        settle StartCall (Done tt)
          (mlog "info" "FHIR validator service is ready"
             (set_starting None (set_self mark_ready m)))
      else set_starting (Some (Backoff startTime timeout (now m + 1000))) m
  | None => set_starting (Some (Backoff startTime timeout (now m + 1000))) m
  end.

(** The step of [start] that makes sure the JAR is there. *)
Definition ensure_jar (config : start_config) (m : machine) : outcome unit * world :=
  if autoDownload config then
    match ensureValidator (self m)
            {| force := false; skipUpdateCheck := cfg_skipUpdateCheck config |}
            (mworld m) with
    | (Done _, w) => (Done tt, w)
    | (Fail e, w) => (Fail e, w)
    | (Uncaught e, w) => (Uncaught e, w)
    end
  else
    match fs (mworld m) !! validatorJarPath (self m) with
    | Some _ => (Done tt, mworld m)
    | None =>
        (Fail (Error ("Validator JAR not found at " ++ validatorJarPath (self m)
                       ++ ". Set autoDownload: true or download manually.")),
         mworld m)
    end.

(** [start(config)], up to its first suspension inside [waitForReady]. *)
Definition start (config : start_config) (m : machine) : machine :=
  match process (self m) with
  | Some _ =>
      settle StartCall (Fail (Error "Validator service is already running")) m
  | None =>
      match given (cfg_version config), given (txServer config),
            given (txLog config) with
      | Some ver, Some tx, Some txlog =>
          match ensure_jar config m with
          | (Done _, w) =>
              let m1 := set_self (listen_on (cfg_port config)) (set_world w m) in
              let args := build_args (validatorJarPath (self m)) config ver tx txlog in
              let m2 := mlog "info" ("Starting FHIR validator with command: java "
                                     ++ join_with " " args) m1 in
              let m3 := spawn_child args m2 in
              wait_loop (now m3) (cfg_timeout config) m3
          | (r, w) => settle StartCall r (set_world w m)
          end
      | _, _, _ =>
          settle StartCall (Fail (Error "version, txServer, and txLog are required")) m
      end
  end.

(** The ['exit'] event of a spawned process: the handler of [start], then
    the [onExit] of every [stop] waiting on that process. *)
Definition on_exit (p : nat) (code sig : value) (m : machine) : machine :=
  let m1 := exit_child p m in
  let m2 := mlog "info" ("Validator process exited with code " ++ to_string code
                         ++ " and signal " ++ to_string sig) m1 in
  let m3 := set_self cleanup m2 in
  fold_left stop_on_exit
    (filter (fun sc => on_pid sc = p) (stopping m3)) m3.

(** One dispatch of the event loop; [None] when the event cannot occur in
    this state (no such timer, no such process, a second [start] while one
    is pending). *)
Definition step (m : machine) (e : event) : option machine :=
  match e with
  | CallStart config =>
      match starting m with
      | None => Some (start config m)
      | Some _ => None
      end
  | ProbeAnswer status =>
      match starting m with
      | Some (Probing startTime timeout) =>
          Some (probe_answer startTime timeout status m)
      | _ => None
      end
  | BackoffElapsed =>
      match starting m with
      | Some (Backoff startTime timeout due) =>
          if due <=? now m then Some (wait_loop startTime timeout m) else None
      | _ => None
      end
  | ChildExit p code sig =>
      if bool_decide (p ∈ children m) then Some (on_exit p code sig m) else None
  | CallStop accepted => Some (stop accepted m)
  | StopTimer id =>
      match filter (fun sc => stop_id sc = id) (stopping m) with
      | sc :: _ => if deadline sc <=? now m then Some (stop_timeout sc m) else None
      | [] => None
      end
  | Tick ms => if 0 <=? ms then Some (advance ms m) else None
  end.

Fixpoint run (m : machine) (events : list event) : option machine :=
  match events with
  | [] => Some m
  | e :: rest =>
      match step m e with
      | Some m' => run m' rest
      | None => None
      end
  end.

End Supervisor.

(** A fresh object in a given world. *)
Definition init (jar : string) (w : world) : machine :=
  {| self := constructor jar; now := 0; children := []; next_pid := 0;
     starting := None; stopping := []; next_stop := 0; signals := [];
     spawned := []; settled := []; mworld := w |}.

(** The states the object can be in. *)
Definition reachable `{Runtime} (m : machine) : Prop :=
  exists jar w events, run (init jar w) events = Some m.

(* ===================================================================== *)
(** ** The output of the engine                                           *)
(* ===================================================================== *)

(** [s.split(sep)] for a separator of one character. *)
Fixpoint split_on (sep : ascii) (s : string) : list string :=
  match s with
  | EmptyString => [EmptyString]
  | String c rest =>
      if Ascii.eqb c sep then EmptyString :: split_on sep rest
      else
        match split_on sep rest with
        | p :: ps => String c p :: ps
        | [] => [String c EmptyString]
        end
  end.

Definition set_version (v : value) (self : validator) : validator :=
  {| validatorJarPath := validatorJarPath self;
     process := process self;
     port := port self;
     baseUrl := baseUrl self;
     isReady := isReady self;
     versionFilePath := versionFilePath self;
     version := v |}.

(** [jarVersion()]. *)
Definition jarVersion (self : validator) : value := version self.

(** [checkForVersion(cleanLine)]; [parts[4]] is [undefined] when the line
    has fewer than five parts. *)
Definition checkForVersion (self : validator) (cleanLine : string) : validator :=
  if negb (truthy (version self)) then
    if startsWith cleanLine "FHIR Validation tool Version" then
      let parts := split_on " " cleanLine in
      set_version (match parts !! 4%nat with
                   | Some p => VStr p
                   | None => VUndefined
                   end) self
    else self
  else self.

(** The pattern [/\u001b\[[0-9;]*m/]: an escape character, a bracket, any
    number of digits and semicolons, the letter m.  [match_sgr s] is what
    follows a match at the start of [s]. *)
Definition escape_char : ascii := ascii_of_nat 27.

Definition is_sgr_param (c : ascii) : bool :=
  let n := N_of_ascii c in ((48 <=? n) && (n <=? 57))%N || (n =? 59)%N.

Fixpoint skip_params (s : string) : string :=
  match s with
  | String c rest => if is_sgr_param c then skip_params rest else s
  | EmptyString => EmptyString
  end.

Definition match_sgr (s : string) : option string :=
  match s with
  | String c1 (String c2 rest) =>
      if Ascii.eqb c1 escape_char && Ascii.eqb c2 "[" then
        match skip_params rest with
        | String c3 after => if Ascii.eqb c3 "m" then Some after else None
        | EmptyString => None
        end
      else None
  | _ => None
  end.

Definition inspect {A : Type} (a : A) : {b : A | a = b} := exist _ a eq_refl.

(** [line.replace(/\u001b\[[0-9;]*m/g, '')]: from left to right, a match
    is dropped and the scan goes on behind it; a character where no match
    starts is kept. *)
Equations? strip_ansi (s : string) : string by wf (String.length s) lt :=
  strip_ansi EmptyString := EmptyString;
  strip_ansi (String c rest) with inspect (match_sgr (String c rest)) := {
    | exist _ (Some after) Hmatch => strip_ansi after
    | exist _ None _ => String c (strip_ansi rest) }.
Proof.
  - assert (Hskip : forall t, (String.length (skip_params t) <= String.length t)%nat).
    { induction t as [|d t IH]; simpl; [lia |].
      destruct (is_sgr_param d); simpl; lia. }
    destruct rest as [|c2 rest]; simpl in Hmatch; [discriminate |].
    destruct (Ascii.eqb c escape_char && Ascii.eqb c2 "["); [| discriminate].
    specialize (Hskip rest).
    destruct (skip_params rest) as [|c3 tail]; [discriminate |].
    destruct (Ascii.eqb c3 "m"); [| discriminate].
    inversion Hmatch; subst. simpl in *. lia.
  - simpl. lia.
Qed.

Definition newline_char : ascii := ascii_of_nat 10.

Section EngineOutput.
Context `{Runtime}.

(** The body of the [forEach] in the ['data'] handler of the standard
    output. *)
Definition on_line (sw : validator * world) (line : string) : validator * world :=
  let cleanLine := trim (strip_ansi line) in
  if (1 <? js_length cleanLine)%nat then
    (checkForVersion sw.1 cleanLine,
     add_log "info" ("Validator: " ++ cleanLine) sw.2)
  else sw.

(** The ['data'] handler of the standard output. *)
Definition on_stdout (data : list Byte.byte) (self : validator) (w : world)
  : validator * world :=
  fold_left on_line (split_on newline_char (utf8_decode data)) (self, w).

(** The ['data'] handler of the standard error. *)
Definition on_stderr (data : list Byte.byte) (w : world) : world :=
  add_log "error" ("Validator-err: " ++ utf8_decode data) w.

End EngineOutput.

(* ===================================================================== *)
(** ** A runtime to run examples with                                     *)
(* ===================================================================== *)

(** The examples need the built-ins on a handful of inputs.  [Demo] gives
    Node's answers there: [JSON.stringify] for values whose strings need
    no escape beyond the quote and the backslash, [JSON.parse] on the
    serialisations of the values listed in [known] (any other text counts
    as malformed), UTF-8 for well-formed input (a string being carried by
    its UTF-8 bytes, encoding and decoding leave the bytes as they are),
    and URLs of the shape [http://host:port/path?query]. *)
Module Demo.

Definition quote : string := String (ascii_of_nat 34) EmptyString.
Definition backslash : string := String (ascii_of_nat 92) EmptyString.

Fixpoint escape (s : string) : string :=
  match s with
  | EmptyString => EmptyString
  | String c rest =>
      (if Ascii.eqb c (ascii_of_nat 34) then backslash ++ quote
       else if Ascii.eqb c (ascii_of_nat 92) then backslash ++ backslash
       else String c EmptyString) ++ escape rest
  end.

Fixpoint spaces (n : nat) : string :=
  match n with
  | O => EmptyString
  | S k => String (ascii_of_nat 32) (spaces k)
  end.

(** Line break and indentation in front of an entry at [depth]; nothing
    when no indentation is asked for. *)
Definition gap (indent depth : nat) : string :=
  match indent with
  | O => EmptyString
  | _ => newline ++ spaces (indent * depth)
  end.

Definition bytes_json (bytes : list Byte.byte) : value :=
  VObj [("type", VStr "Buffer");
        ("data", VArr (map (fun b => VNum (Z.of_N (Byte.to_N b))) bytes))].

(** Serialisation of a value that is present ([undefined] is dealt with by
    the enclosing array or object). *)
Fixpoint stringify_at (indent depth : nat) (v : value) : string :=
  match v with
  | VUndefined | VNull => "null"
  | VBool true => "true"
  | VBool false => "false"
  | VNum n => number_to_string (double_of_Z n)
  | VFloat S754_nan | VFloat (S754_infinity _) => "null"
  | VFloat x => number_to_string x
  | VStr s => quote ++ escape s ++ quote
  | VArr items =>
      match items with
      | [] => "[]"
      | _ =>
          "[" ++ join_with ","
                   (map (fun x => gap indent (S depth)
                                  ++ stringify_at indent (S depth) x) items)
          ++ gap indent depth ++ "]"
      end
  | VObj fields =>
      let shown :=
        flat_map (fun kv =>
                    match kv with
                    | (_, VUndefined) => []
                    | (k, x) => [gap indent (S depth) ++ quote ++ escape k ++ quote
                                 ++ (match indent with O => ":" | _ => ": " end)
                                 ++ stringify_at indent (S depth) x]
                    end) fields in
      match shown with
      | [] => "{}"
      | _ => "{" ++ join_with "," shown ++ gap indent depth ++ "}"
      end
  | VBuffer bytes =>
      "{" ++ gap indent (S depth) ++ quote ++ "type" ++ quote
      ++ (match indent with O => ":" | _ => ": " end) ++ quote ++ "Buffer" ++ quote
      ++ "," ++ gap indent (S depth) ++ quote ++ "data" ++ quote
      ++ (match indent with O => ":" | _ => ": " end)
      ++ (match bytes with
          | [] => "[]"
          | _ => "[" ++ join_with ","
                          (map (fun b => gap indent (S (S depth))
                                         ++ pretty (Z.of_N (Byte.to_N b))) bytes)
                 ++ gap indent (S depth) ++ "]"
          end)
      ++ gap indent depth ++ "}"
  end.

Definition stringify (v : value) (indent : nat) : string :=
  stringify_at indent 0 v.

(** The values whose texts [parse] recognises. *)
Definition sidecar (ver : value) (u at_ : string) : value :=
  VObj [("version", ver); ("downloadUrl", VStr u); ("downloadedAt", VStr at_)].

Definition jar_url : string :=
  "https://github.com/hapifhir/org.hl7.fhir.core/releases/download/6.6.7/validator_cli.jar".

Definition release_json (tag : value) : value :=
  VObj [("tag_name", tag);
        ("assets", VArr [VObj [("name", VStr "validator_cli.jar");
                               ("browser_download_url", VStr jar_url)]]);
        ("published_at", VStr "2026-01-30T00:00:00Z")].

Definition outcome_json (issues : list value) : value :=
  VObj [("resourceType", VStr "OperationOutcome"); ("issue", VArr issues)].

Definition known : list value :=
  [ VObj [];
    VNull;
    VObj [("version", VStr EmptyString)];
    sidecar (VStr "6.6.7") jar_url "2026-01-31T10:00:00.000Z";
    sidecar (VStr "6.6.6") jar_url "2026-01-31T10:00:00.000Z";
    release_json (VStr "6.6.7");
    outcome_json [];
    outcome_json [VObj [("severity", VStr "error")]];
    outcome_json [VObj [("severity", VStr "warning")];
                  VObj [("severity", VStr "error");
                        ("details", VObj [("text", VStr "code not found")])];
                  VObj [("severity", VStr "error"); ("diagnostics", VStr "second")]];
    outcome_json [VObj [("severity", VStr "warning")];
                  VObj [("severity", VStr "information")]];
    VObj [("resourceType", VStr "Bundle")] ].

Definition parse (text : string) : res value :=
  match filter (fun v => String.eqb (stringify v 0) text
                         || String.eqb (stringify v 2) text = true) known with
  | v :: _ => Ok v
  | [] => Throw (SyntaxError "Unexpected token in JSON")
  end.

(** UTF-8: the bytes of the string, and back. *)
Definition encode (s : string) : list Byte.byte := String.list_byte_of_string s.
Definition decode (bytes : list Byte.byte) : string := String.string_of_list_byte bytes.

(** [s] cut at the first character satisfying [stop]. *)
Fixpoint break_at (stop : ascii -> bool) (s : string) : string * string :=
  match s with
  | EmptyString => (EmptyString, EmptyString)
  | String c rest =>
      if stop c then (EmptyString, s)
      else let '(a, b) := break_at stop rest in (String c a, b)
  end.

Definition is_digit (c : ascii) : bool :=
  let n := N_of_ascii c in ((48 <=? n) && (n <=? 57))%N.

Fixpoint all_digits (s : string) : bool :=
  match s with
  | EmptyString => true
  | String c rest => is_digit c && all_digits rest
  end.

Fixpoint digits_value (acc : Z) (s : string) : Z :=
  match s with
  | EmptyString => acc
  | String c rest => digits_value (10 * acc + Z.of_N (N_of_ascii c) - 48) rest
  end.

Definition invalid_url : error := TypeError "Invalid URL".

(** The part after the scheme: host, optional port, path, query. *)
Definition parse_after (scheme rest : string) : res url :=
  let '(authority, tail) :=
    break_at (fun c => Ascii.eqb c "/" || Ascii.eqb c "?")%char rest in
  let '(host, colon_port) := break_at (fun c => Ascii.eqb c ":")%char authority in
  let port_text := match colon_port with String _ p => p | EmptyString => EmptyString end in
  let '(path, query) := break_at (fun c => Ascii.eqb c "?")%char tail in
  if String.eqb host EmptyString then Throw invalid_url
  else if negb (all_digits port_text) || (65535 <? digits_value 0 port_text) then
    Throw invalid_url
  else
    Ok {| protocol := scheme;
          hostname := host;
          url_port := port_text;
          pathname := if String.eqb path EmptyString then "/" else path;
          search := if String.eqb query "?" then EmptyString else query |}.

Definition parse_url (s : string) : res url :=
  if startsWith s "http://" then parse_after "http:" (String.substring 7 (String.length s - 7) s)
  else if startsWith s "https://" then
    parse_after "https:" (String.substring 8 (String.length s - 8) s)
  else Throw invalid_url.

(** Form encoding: the bytes of the UTF-8 text, percent-encoded outside
    the unreserved set. *)
Definition hex_digit (n : N) : ascii :=
  ascii_of_N (if (n <? 10)%N then 48 + n else 55 + n)%N.

Definition encode_char (c : ascii) : string :=
  let n := N_of_ascii c in
  if is_digit c || ((65 <=? n) && (n <=? 90))%N || ((97 <=? n) && (n <=? 122))%N
     || (n =? 42)%N || (n =? 45)%N || (n =? 46)%N || (n =? 95)%N
  then String c EmptyString
  else if (n =? 32)%N then "+"
  else String "%" (String (hex_digit (n / 16)) (String (hex_digit (n mod 16)) EmptyString)).

Fixpoint form_encode (s : string) : string :=
  match s with
  | EmptyString => EmptyString
  | String c rest => encode_char c ++ form_encode rest
  end.

Definition query_text (params : list (string * string)) : string :=
  join_with "&" (map (fun kv => form_encode (fst kv) ++ "=" ++ form_encode (snd kv)) params).

#[export] Instance runtime : Runtime :=
  {| JSON_parse := parse;
     JSON_stringify := stringify;
     utf8_encode := encode;
     utf8_decode := decode;
     URL_parse := parse_url;
     query_toString := query_text |}.

End Demo.

(* ===================================================================== *)
(** ** Worlds and objects for the examples                                *)
(* ===================================================================== *)

Module Examples.

Definition offline : outside_t :=
  {| api := fun _ => ReqError (Error "connect ECONNREFUSED");
     downloads := fun _ => DlError (Error "connect ECONNREFUSED");
     mkdir := fun _ => None;
     now_iso := "2026-01-31T10:00:00.000Z" |}.

Definition world_of (files : gmap string node) (o : outside_t) : world :=
  {| fs := files; logged := []; requests := []; outside := o |}.

Definition jar : string := "./validator_cli.jar".

Definition text_file (s : string) : node := File (Demo.encode s).

(** An object whose engine answered a health probe on port 8080. *)
Definition ready : validator :=
  {| validatorJarPath := jar;
     process := Some {| pid := 0; killed := false |};
     port := Some 8080;
     baseUrl := Some "http://localhost:8080";
     isReady := true;
     versionFilePath := jar ++ ".version";
     version := VUndefined |}.

Definition no_options : validate_options :=
  {| profiles := None; resourceIdRule := None; anyExtensionsAllowed := None;
     bpWarnings := None; displayOption := None |}.

(** A fresh object, and file systems with no sidecar, with a sidecar that
    cannot be read, with a directory in its place, and with a corrupted
    one. *)
Definition fresh : validator := constructor jar.

Definition bare : world := world_of ∅ offline.

Definition locked_sidecar : world :=
  world_of {[ versionFilePath fresh := NoAccess ]} offline.

Definition sidecar_directory : world :=
  world_of {[ versionFilePath fresh := Dir ]} offline.

Definition corrupt_sidecar : world :=
  world_of {[ versionFilePath fresh := text_file "not valid json" ]} offline.

(** A network where every request gets the same answer. *)
Definition serving (reply : http_reply) : outside_t :=
  {| api := fun _ => reply;
     downloads := fun _ => DlError (Error "connect ECONNREFUSED");
     mkdir := fun _ => None;
     now_iso := "2026-01-31T10:00:00.000Z" |}.

Definition validate_url : url :=
  {| protocol := "http:"; hostname := "localhost"; url_port := "8080";
     pathname := "/validateResource"; search := EmptyString |}.

Definition patient : value := VObj [("resourceType", VStr "Patient")].

(** U+FEFF and U+200B in UTF-8. *)
Definition byte_order_mark : string := string_of_bytes [239; 187; 191]%N.
Definition zero_width_space : string := string_of_bytes [226; 128; 139]%N.

(** Parameters of a terminology test, complete and empty. *)
Definition tx : tx_params :=
  {| server := VStr "tx"; suiteName := VStr "s"; testName := VStr "t";
     tx_version := VStr "5.0.0"; externalFile := VUndefined; modes := VUndefined |}.

Definition no_params : tx_params :=
  {| server := VUndefined; suiteName := VUndefined; testName := VUndefined;
     tx_version := VUndefined; externalFile := VUndefined; modes := VUndefined |}.

Definition tx_url : url :=
  {| protocol := "http:"; hostname := "localhost"; url_port := "8080";
     pathname := "/txTest"; search := "?server=tx&suite=s&test=t&version=5.0.0" |}.

(** Issues and the outcomes the engine may answer with. *)
Definition warning : value := VObj [("severity", VStr "warning")].
Definition bare_error : value := VObj [("severity", VStr "error")].
Definition detailed_error : value :=
  VObj [("severity", VStr "error");
        ("details", VObj [("text", VStr "code not found")])].
Definition diagnosed_error : value :=
  VObj [("severity", VStr "error"); ("diagnostics", VStr "second")].

Definition outcome_text (issues : list value) : string :=
  Demo.stringify (Demo.outcome_json issues) 0.

Definition engine_answers (issues : list value) : world :=
  world_of ∅ (serving (Reply 200 (outcome_text issues))).

(** The release index announces 6.6.7 and the asset downloads in two
    chunks; one location answers 404, one redirects to itself, one stops
    with a full disk after the first chunk, one stalls after the first
    chunk until the request timer fires, one loses its connection after
    the first chunk, and one announces its length.  Directories can be
    made everywhere but under [/proc]. *)
Definition chunk1 : list Byte.byte := Demo.encode "PK-first".
Definition chunk2 : list Byte.byte := Demo.encode "-second".

Definition release_feed : outside_t :=
  {| api := fun _ => Reply 200 (Demo.stringify (Demo.release_json (VStr "6.6.7")) 0);
     downloads := fun u =>
       if String.eqb u Demo.jar_url then
         DlResponse 302 (Some "https://cdn.example/validator_cli.jar") None [] StreamFinish
       else if String.eqb u "https://cdn.example/validator_cli.jar" then
         DlResponse 200 None None [chunk1; chunk2] StreamFinish
       else if String.eqb u "https://cdn.example/gone" then
         DlResponse 404 None None [] StreamFinish
       else if String.eqb u "https://cdn.example/loop" then
         DlResponse 301 (Some "https://cdn.example/loop") None [] StreamFinish
       else if String.eqb u "https://cdn.example/full" then
         DlResponse 200 None None [chunk1; chunk2]
           (StreamError (Error "ENOSPC: no space left on device, write") (Some 1%nat))
       else if String.eqb u "https://cdn.example/slow" then
         DlResponse 200 None None [chunk1; chunk2] (StreamTimeout 1)
       else if String.eqb u "https://cdn.example/reset" then
         DlResponse 200 None None [chunk1; chunk2]
           (SocketError (Error "read ECONNRESET") 1)
       else if String.eqb u "https://cdn.example/sized" then
         DlResponse 200 None (Some 100) [repeat Byte.x00 29; repeat Byte.x00 71]
           StreamFinish
       else DlError (Error "getaddrinfo ENOTFOUND");
     mkdir := fun destPath =>
       if startsWith destPath "/proc/" then
         Some (Error "ENOENT: no such file or directory, mkdir '/proc/fhir'")
       else None;
     now_iso := "2026-01-31T10:00:00.000Z" |}.

Definition old_jar : node := File (Demo.encode "PK-old").

(** Nothing installed; a JAR whose sidecar is the empty object; a JAR
    with the sidecar of 6.6.6. *)
Definition fresh_target : world := world_of ∅ release_feed.

Definition blank_sidecar : world :=
  world_of {[ jar := old_jar; versionFilePath fresh := text_file "{}" ]} release_feed.

(** The old JAR in place, no sidecar. *)
Definition outdated : world := world_of {[ jar := old_jar ]} release_feed.


Definition temp_directory : world :=
  world_of {[ jar := old_jar; jar ++ ".download" := Dir ]} release_feed.

Definition plain : ensure_options := {| force := false; skipUpdateCheck := false |}.

(** A start configuration for a JAR that is already in place. *)
Definition installed : world := world_of {[ jar := old_jar ]} offline.

Definition r5 : start_config :=
  {| cfg_version := Some "5.0.0";
     txServer := Some "http://tx.fhir.org/r5";
     txLog := Some "./txlog.txt";
     igs := ["hl7.fhir.us.core#6.0.0"];
     cfg_port := 8080;
     cfg_timeout := 30000;
     autoDownload := false;
     cfg_skipUpdateCheck := false |}.

(** The engine exits while the first health probe is on its way, and the
    probe is still answered with 405. *)
Definition exit_before_answer : list event :=
  [CallStart r5; ChildExit 0 (VNum 1) VNull; ProbeAnswer (Some 405)].

(** The engine becomes ready, [stop()] is called and its signal is
    delivered, and the exit event does not come within ten seconds. *)
Definition stop_then_timeout : list event :=
  [CallStart r5; ProbeAnswer (Some 405); CallStop true; Tick 10000; StopTimer 0].

(** A banner line of the engine, and output in colour with a line that
    holds a full stop and one that holds the euro sign, a single character
    of three bytes. *)
Definition banner : string := "FHIR Validation tool Version 6.6.7 (Git# 1a2b3c4d)".

Definition versioned : validator := set_version (VStr "6.6.7") ready.

Definition euro : string := string_of_bytes [226; 130; 172]%N.

Definition coloured_output : list Byte.byte :=
  Demo.encode (String escape_char "[1;32mINFO" ++ String escape_char "[0m ready"
               ++ newline ++ "." ++ newline ++ euro ++ newline ++ banner ++ newline).

(** Options that name a profile and forbid unknown extensions. *)
Definition strict : validate_options :=
  {| profiles := Some ["http://hl7.org/fhir/StructureDefinition/Patient"];
     resourceIdRule := None; anyExtensionsAllowed := Some false;
     bpWarnings := None; displayOption := None |}.

Definition loadIG_url : url :=
  {| protocol := "http:"; hostname := "localhost"; url_port := "8080";
     pathname := "/loadIG"; search := "?packageId=hl7.fhir.us.core&version=6.0.0" |}.



(** The state of a fresh object, with the JAR in place and no network,
    after the events given. *)
Definition after (events : list event) : machine :=
  match @run Demo.runtime (init jar installed) events with
  | Some m => m
  | None => init jar installed
  end.

Definition skipping : ensure_options := {| force := false; skipUpdateCheck := true |}.

Definition xml : string := "application/fhir+xml".
Definition json : string := "application/fhir+json".

End Examples.

(** The request [validate] writes, given the parsed URL, the body and the
    content type. *)
Definition validate_request (u : url) (body : list Byte.byte)
    (contentType : string) : request :=
  {| req_module := "http";
     req_method := "POST";
     req_target := ByOptions (hostname u) (url_port u) (pathname u ++ search u);
     req_headers := [("Content-Type", contentType);
                     ("Content-Length", pretty (Z.of_nat (length body)));
                     ("Accept", "application/fhir+json")];
     req_body := body |}.

(** Reading aids for the statements about [runTxTest]: a value that is
    [null] or [undefined]; an issue whose severity is [error]; the two
    places a message is looked for; the request the method sends. *)
Definition nullish (v : value) : bool :=
  match v with VUndefined | VNull => true | _ => false end.

Definition is_error_issue (i : value) : bool :=
  match get_prop i "severity" with
  | Ok severity => strict_eq severity (VStr "error")
  | Throw _ => false
  end.

Definition details_text (i : value) : value :=
  match get_prop i "details" with
  | Ok (VObj fields) => lookup_field "text" fields
  | Ok (VArr items) => VUndefined
  | _ => VUndefined
  end.

Definition diagnostics_of (i : value) : value :=
  match get_prop i "diagnostics" with
  | Ok d => d
  | Throw _ => VUndefined
  end.

Definition tx_request (u : url) : request :=
  {| req_module := "http";
     req_method := "GET";
     req_target := ByOptions (hostname u) (url_port u) (pathname u ++ search u);
     req_headers := [("Accept", "application/fhir+json")];
     req_body := [] |}.

Definition tx_required (params : tx_params) : bool :=
  truthy (server params) && truthy (suiteName params)
  && truthy (testName params) && truthy (tx_version params).

(** The callback [issue => issue.severity === 'error']. *)
Definition error_pred (i : value) : res bool :=
  try! severity <- get_prop i "severity";
  Ok (strict_eq severity (VStr "error")).

(** [hops o k u v]: starting at [u], the servers of [o] answer [k] times
    with a redirect that [downloadFile] follows, and the last one leads to
    [v]. *)
Inductive hops `{Runtime} (o : outside_t) : nat -> string -> string -> Prop :=
| hops_here (u : string) : hops o 0 u u
| hops_step (k : nat) (u next v : string) (parsed : url) (status : Z)
    (location : option string) (contentLength : option Z)
    (chunks : list (list Byte.byte)) (ending : stream_end) :
    URL_parse u = Ok parsed ->
    downloads o u = DlResponse status location contentLength chunks ending ->
    redirect_to status location = Some next ->
    hops o k next v ->
    hops o (S k) u v.

Definition download_post `{Runtime} (destPath downloadUrl : string)
    (redirectCount : Z) (w : world) (end_ : outcome unit * world) : Prop :=
  let tempPath := destPath ++ ".download" in
  let '(r, w') := end_ in
  outside w' = outside w
  /\ (forall p, p <> destPath -> p <> tempPath -> fs w' !! p = fs w !! p)
  /\ match r with
     | Done _ =>
         exists k v parsed location contentLength chunks,
           hops (outside w) k downloadUrl v
           /\ redirectCount + Z.of_nat k <= 5
           /\ URL_parse v = Ok parsed
           /\ downloads (outside w) v
              = DlResponse 200 location contentLength chunks StreamFinish
           /\ redirect_to 200 location = None
           /\ fs w' !! destPath = Some (File (concat chunks))
           /\ fs w' !! tempPath = None
     | _ => fs w' !! destPath = fs w !! destPath
     end.

(** The four fields [cleanup] resets. *)
Definition cleared (v : validator) : Prop :=
  process v = None /\ port v = None /\ baseUrl v = None /\ isReady v = false.

(** The invariant of the specification: ready only with a process. *)
Definition ready_has_process (v : validator) : Prop :=
  isReady v = true -> process v <> None.

(** No call of [stop] has been settled by a rejection. *)
Definition stops_resolved (m : machine) : Prop :=
  forall id r, In (StopCall id, r) (settled m) -> r = Done tt.

(** The signals the timer callback of [stop] adds: one more kill, and only
    when the handle is still set and not marked as killed. *)
Definition fallback_kill (v : validator) : list (nat * signal) :=
  match process v with
  | Some p => if negb (killed p) then [(pid p, SIGKILL)] else []
  | None => []
  end.

(** [s] contains the character [c]. *)
Fixpoint has_char (c : ascii) (s : string) : bool :=
  match s with
  | EmptyString => false
  | String d rest => Ascii.eqb d c || has_char c rest
  end.

(** Every character of [s] is a digit or a semicolon. *)
Fixpoint all_sgr_params (s : string) : bool :=
  match s with
  | EmptyString => true
  | String c rest => is_sgr_param c && all_sgr_params rest
  end.

(** The four fields of the life cycle agree. *)
Definition same_lifecycle (a b : validator) : Prop :=
  process a = process b /\ port a = port b /\ baseUrl a = baseUrl b
  /\ isReady a = isReady b.

(** The request [loadIG] writes, given the parsed URL. *)
Definition loadIG_request (u : url) : request :=
  {| req_module := "http";
     req_method := "POST";
     req_target := ByOptions (hostname u) (url_port u) (pathname u ++ search u);
     req_headers := [("Accept", "application/fhir+json")];
     req_body := [] |}.

(** The names of the query parameters of [validate], in their order. *)
Definition validate_keys : list string :=
  ["profiles"; "resourceIdRule"; "anyExtensionsAllowed"; "bpWarnings"; "displayOption"].

(** The callback [a => a.name === 'validator_cli.jar'], and whether an
    asset satisfies it. *)
Definition asset_pred (a : value) : res bool :=
  try! name <- get_prop a "name";
  Ok (strict_eq name (VStr "validator_cli.jar")).

Definition asset_named (a : value) : bool :=
  match get_prop a "name" with
  | Ok name => strict_eq name (VStr "validator_cli.jar")
  | Throw _ => false
  end.

(** The record [saveVersionInfo] serialises. *)
Definition version_record (ver downloadUrl : value) (at_ : string) : value :=
  VObj [("version", ver); ("downloadUrl", downloadUrl); ("downloadedAt", VStr at_)].

(** What a call of [ensureValidator] leaves behind: only the JAR, its
    temporary file and the sidecar can differ; a result with
    [downloaded: true] comes with a JAR file and the record of the reported
    version; a result with [downloaded: false] comes with the files as they
    were; a call that does not resolve leaves the sidecar as it was. *)
Definition ensure_post `{Runtime} (self : validator) (w : world)
    (end_ : outcome ensure_result * world) : Prop :=
  let jar := validatorJarPath self in
  let '(r, w') := end_ in
  outside w' = outside w
  /\ (forall p, p <> jar -> p <> jar ++ ".download" -> p <> versionFilePath self ->
                fs w' !! p = fs w !! p)
  /\ match r with
     | Done result =>
         if downloaded result then
           (exists payload, fs w' !! jar = Some (File payload))
           /\ (exists latest,
                  (getLatestRelease w).1 = Done latest
                  /\ res_version result = rel_version latest
                  /\ fs w' !! versionFilePath self
                     = Some (File (utf8_encode
                                     (JSON_stringify
                                        (version_record (rel_version latest)
                                           (rel_downloadUrl latest)
                                           (now_iso (outside w))) 2))))
         else fs w' = fs w /\ fs w !! jar <> None
     | _ => fs w' !! versionFilePath self = fs w !! versionFilePath self
     end.


(** Signals are kills of processes this object spawned; a handle belongs
    to a spawned process whose exit event has not been dispatched. *)
Definition supervised (m : machine) : Prop :=
  (forall p s, In (p, s) (signals m) -> s = SIGKILL /\ (p < next_pid m)%nat)
  /\ (forall p, process (self m) = Some p -> In (pid p) (children m))
  /\ (forall c, In c (children m) -> (c < next_pid m)%nat).


(** Lookups in a file system after insertions and deletions, and the
    case analysis of a transfer. *)
Ltac fs_lookup :=
  repeat first
    [ rewrite lookup_insert_eq
    | rewrite lookup_insert_ne by congruence
    | rewrite lookup_delete_eq
    | rewrite lookup_delete_ne by congruence ].

Ltac fs_crush :=
  repeat match goal with
         | |- _ /\ _ => split
         | |- forall _, _ => intro
         end;
  try discriminate;
  repeat match goal with
         | Heq : StreamError _ _ = StreamError _ _ |- _ => inversion Heq; clear Heq; subst
         | Heq : SocketError _ _ = SocketError _ _ |- _ => inversion Heq; clear Heq; subst
         | Heq : StreamTimeout _ = StreamTimeout _ |- _ => inversion Heq; clear Heq; subst
         end;
  fs_lookup;
  first [ reflexivity | congruence | (eexists; reflexivity) | (exfalso; congruence)
        | (exfalso; intuition congruence) | idtac ].

(* ===================================================================== *)
(** ** Properties                                                         *)
(* ===================================================================== *)

(** *** Strings *)

Lemma string_app_cons (c : ascii) (a b : string) :
  String c a ++ b = String c (a ++ b).
Proof. reflexivity. Qed.

Lemma string_app_nil_r (s : string) : s ++ EmptyString = s.
Proof.
  induction s as [|c s IH]; [reflexivity |].
  rewrite string_app_cons, IH. reflexivity.
Qed.

Lemma drop_prefix_app (p s : string) : drop_prefix p (p ++ s) = Some s.
Proof.
  induction p as [|c p IH]; [reflexivity |].
  rewrite string_app_cons. cbn. rewrite Ascii.eqb_refl. exact IH.
Qed.

Lemma drop_prefix_split (p s rest : string) :
  drop_prefix p s = Some rest -> s = p ++ rest.
Proof.
  revert s. induction p as [|c p IH]; intros s Hdrop; cbn in Hdrop.
  - inversion Hdrop. reflexivity.
  - destruct s as [|d s]; [discriminate |].
    destruct (Ascii.eqb c d) eqn:E; [| discriminate].
    apply Ascii.eqb_eq in E. subst d. rewrite string_app_cons. f_equal.
    exact (IH s Hdrop).
Qed.

Lemma drop_first_split (patterns : list string) (s rest : string) :
  drop_first patterns s = Some rest ->
  exists p, In p patterns /\ s = p ++ rest.
Proof.
  induction patterns as [|q patterns IH]; cbn; [discriminate |].
  destruct (drop_prefix q s) as [s'|] eqn:Hq.
  - intros Heq. inversion Heq; subst. exists q. split; [left; reflexivity |].
    exact (drop_prefix_split _ _ _ Hq).
  - intros Hrest. destruct (IH Hrest) as (p & Hin & Heq).
    exists p. split; [right; exact Hin | exact Heq].
Qed.

Lemma string_length_app (s t : string) :
  String.length (s ++ t) = (String.length s + String.length t)%nat.
Proof.
  induction s as [|c s IH]; [reflexivity |].
  rewrite string_app_cons. cbn. now rewrite IH.
Qed.

Lemma string_app_assoc (s t u : string) : (s ++ t) ++ u = s ++ t ++ u.
Proof.
  induction s as [|c s IH]; [reflexivity |].
  rewrite !string_app_cons. now rewrite IH.
Qed.

(** More fuel than the length changes nothing. *)
Lemma drop_leading_enough (patterns : list string) :
  Forall (fun p => p <> EmptyString) patterns ->
  forall fuel s,
    (String.length s <= fuel)%nat ->
    drop_leading patterns fuel s = drop_leading patterns (String.length s) s.
Proof.
  intros Hfull.
  assert (Hshort : forall s rest, drop_first patterns s = Some rest ->
                                  (String.length rest < String.length s)%nat).
  { intros s rest Hdrop. destruct (drop_first_split _ _ _ Hdrop) as (p & Hin & ->).
    rewrite string_length_app. rewrite Forall_forall in Hfull.
    apply list_elem_of_In in Hin.
    specialize (Hfull p Hin). destruct p; [contradiction | cbn; lia]. }
  assert (Hany : forall n fuel s, (String.length s <= n)%nat -> (n <= fuel)%nat ->
                                  drop_leading patterns fuel s = drop_leading patterns n s).
  { induction n as [|n IH]; intros fuel s Hs Hfuel.
    - destruct s; [| cbn in Hs; lia]. cbn.
      destruct fuel; cbn; [reflexivity |].
      destruct (drop_first patterns EmptyString) as [rest|] eqn:Hdrop; [| reflexivity].
      apply Hshort in Hdrop. cbn in Hdrop. lia.
    - destruct fuel as [|fuel]; [lia |]. cbn.
      destruct (drop_first patterns s) as [rest|] eqn:Hdrop; [| reflexivity].
      apply IH; [apply Hshort in Hdrop; lia | lia]. }
  intros fuel s Hs. apply Hany; [lia | exact Hs].
Qed.

(** What is left starts with none of the patterns. *)
Lemma drop_leading_done (patterns : list string) :
  Forall (fun p => p <> EmptyString) patterns ->
  forall fuel s,
    (String.length s <= fuel)%nat ->
    drop_first patterns (drop_leading patterns fuel s) = None.
Proof.
  intros Hfull. induction fuel as [|fuel IH]; intros s Hs.
  - destruct s; [| cbn in Hs; lia]. cbn.
    destruct (drop_first patterns EmptyString) as [rest|] eqn:Hdrop; [| reflexivity].
    destruct (drop_first_split _ _ _ Hdrop) as (p & Hin & Heq).
    rewrite Forall_forall in Hfull. apply list_elem_of_In in Hin.
    specialize (Hfull p Hin).
    destruct p; [contradiction | discriminate].
  - cbn. destruct (drop_first patterns s) as [rest|] eqn:Hdrop; [| exact Hdrop].
    apply IH. destruct (drop_first_split _ _ _ Hdrop) as (p & Hin & ->).
    rewrite string_length_app in Hs. rewrite Forall_forall in Hfull.
    apply list_elem_of_In in Hin.
    specialize (Hfull p Hin). destruct p; [contradiction | cbn in Hs; lia].
Qed.

Lemma white_space_full : Forall (fun p => p <> EmptyString) white_space.
Proof. repeat constructor; discriminate. Qed.

Lemma white_space_reverse_full :
  Forall (fun p => p <> EmptyString) (map reverse white_space).
Proof. repeat constructor; discriminate. Qed.

(** Each pattern is found in front of whatever follows it, and, read
    backwards, behind whatever precedes it. *)
Lemma white_space_found :
  Forall (fun p => forall s, drop_first white_space (p ++ s) = Some s) white_space.
Proof. repeat constructor; intros s; reflexivity. Qed.

Lemma white_space_found_reverse :
  Forall (fun p => forall s,
              drop_first (map reverse white_space) (reverse p ++ s) = Some s)
    white_space.
Proof. repeat constructor; intros s; reflexivity. Qed.

Lemma reverse_app (s t : string) : reverse (s ++ t) = reverse t ++ reverse s.
Proof.
  induction s as [|c s IH].
  - cbn. now rewrite string_app_nil_r.
  - rewrite string_app_cons. cbn. rewrite IH. now rewrite string_app_assoc.
Qed.

Lemma reverse_length (s : string) : String.length (reverse s) = String.length s.
Proof.
  induction s as [|c s IH]; cbn; [reflexivity |].
  rewrite string_length_app. cbn. lia.
Qed.

Lemma reverse_involutive (s : string) : reverse (reverse s) = s.
Proof.
  induction s as [|c s IH]; cbn; [reflexivity |].
  rewrite reverse_app, IH. reflexivity.
Qed.

(** [trimStart] removes the white space in front, all of it, and nothing
    else; [trimEnd] does the same at the end. *)
Lemma trimStart_spec (s : string) :
  (forall p, In p white_space -> trimStart (p ++ s) = trimStart s)
  /\ drop_first white_space (trimStart s) = None
  /\ (drop_first white_space s = None -> trimStart s = s).
Proof.
  split; [| split].
  - intros p Hin. unfold trimStart. apply list_elem_of_In in Hin.
    pose proof white_space_found as Hfound. rewrite Forall_forall in Hfound.
    pose proof white_space_full as Hfull. rewrite Forall_forall in Hfull.
    specialize (Hfull p Hin).
    rewrite string_length_app.
    destruct (String.length p) as [|n] eqn:Hp; [destruct p; [contradiction | discriminate] |].
    cbn [Nat.add drop_leading]. rewrite (Hfound p Hin).
    apply drop_leading_enough; [exact white_space_full | lia].
  - apply drop_leading_done; [exact white_space_full | lia].
  - intros Hnone. unfold trimStart.
    destruct (String.length s); cbn [drop_leading]; [reflexivity |].
    rewrite Hnone. reflexivity.
Qed.

Lemma trimEnd_spec (s : string) :
  (forall p, In p white_space -> trimEnd (s ++ p) = trimEnd s)
  /\ drop_first (map reverse white_space) (reverse (trimEnd s)) = None
  /\ (drop_first (map reverse white_space) (reverse s) = None -> trimEnd s = s).
Proof.
  split; [| split].
  - intros p Hin. unfold trimEnd. f_equal. apply list_elem_of_In in Hin.
    pose proof white_space_found_reverse as Hfound. rewrite Forall_forall in Hfound.
    pose proof white_space_full as Hfull. rewrite Forall_forall in Hfull.
    specialize (Hfull p Hin).
    rewrite reverse_app, string_length_app.
    assert (Hp : (1 <= String.length p)%nat)
      by (destruct p; [contradiction | cbn; lia]).
    destruct (String.length s + String.length p)%nat as [|n] eqn:Hlen; [lia |].
    cbn [drop_leading]. rewrite (Hfound p Hin).
    rewrite (drop_leading_enough _ white_space_reverse_full n (reverse s))
      by (rewrite reverse_length; lia).
    rewrite (drop_leading_enough _ white_space_reverse_full (String.length s)
               (reverse s)) by (rewrite reverse_length; lia).
    reflexivity.
  - unfold trimEnd. rewrite reverse_involutive.
    apply drop_leading_done; [exact white_space_reverse_full |].
    rewrite reverse_length. lia.
  - intros Hnone. unfold trimEnd.
    destruct (String.length s); cbn [drop_leading]; [apply reverse_involutive |].
    rewrite Hnone. apply reverse_involutive.
Qed.

Section ClientProperties.
Context `{Runtime}.

(** [getInstalledVersion()] by the state of the sidecar file. *)
Lemma getInstalledVersion_cases (self : validator) (w : world) :
  getInstalledVersion self w
  = match fs w !! versionFilePath self with
    | None => (Done VNull, w)
    | Some NoAccess =>
        (Done VNull,
         add_log "warn"
           ("Failed to read version file: "
            ++ "EACCES: permission denied, open '" ++ versionFilePath self ++ "'") w)
    | Some Dir =>
        (Done VNull,
         add_log "warn"
           ("Failed to read version file: "
            ++ "EISDIR: illegal operation on a directory, read") w)
    | Some (File content) =>
        match JSON_parse (utf8_decode content) with
        | Throw e =>
            (Done VNull, add_log "warn" ("Failed to read version file: " ++ message e) w)
        | Ok versionInfo =>
            match get_prop versionInfo "version" with
            | Ok v => (Done v, w)
            | Throw e =>
                (Done VNull,
                 add_log "warn" ("Failed to read version file: " ++ message e) w)
            end
        end
    end.
Proof.
  unfold getInstalledVersion, bind, try_catch, existsSync, readFileSync, lift, ret, log.
  destruct (fs w !! versionFilePath self) as [[content| |]|] eqn:E; cbn; rewrite ?E; cbn;
    try reflexivity.
  destruct (JSON_parse (utf8_decode content)) as [info|e]; cbn; try reflexivity.
  destruct (get_prop info "version"); reflexivity.
Qed.

(** C7.  [getInstalledVersion()] never throws: in every file system it
    returns a value, and that value is [null] when the sidecar file is
    missing, cannot be read, or does not parse as JSON. *)
Theorem getInstalledVersion_never_throws (self : validator) (w : world) :
  (exists v w', getInstalledVersion self w = (Done v, w'))
  /\ (fs w !! versionFilePath self = None ->
      getInstalledVersion self w = (Done VNull, w))
  /\ (fs w !! versionFilePath self = Some NoAccess
      \/ fs w !! versionFilePath self = Some Dir ->
      (getInstalledVersion self w).1 = Done VNull)
  /\ (forall content e,
        fs w !! versionFilePath self = Some (File content) ->
        JSON_parse (utf8_decode content) = Throw e ->
        (getInstalledVersion self w).1 = Done VNull).
Proof.
  rewrite getInstalledVersion_cases.
  repeat split.
  - destruct (fs w !! versionFilePath self) as [[content| |]|]; eauto.
    destruct (JSON_parse (utf8_decode content)) as [info|e]; eauto.
    destruct (get_prop info "version"); eauto.
  - intros ->. reflexivity.
  - intros [-> | ->]; reflexivity.
  - intros content e -> ->. reflexivity.
Qed.

(** C6.  While [isReady] is false, [validate], [loadIG] and [runTxTest]
    reject with the not-ready error whatever their arguments are, and the
    world is untouched: nothing was checked, logged or sent. *)
Theorem not_ready_rejects_first (self : validator) (w : world) :
  isReady self = false ->
  (forall resource options, validate self resource options w = (Fail not_ready, w))
  /\ (forall packageId ver, loadIG self packageId ver w = (Fail not_ready, w))
  /\ (forall params, runTxTest self params w = (Fail not_ready, w)).
Proof.
  intros Hnot. unfold validate, loadIG, runTxTest. rewrite Hnot. simpl.
  repeat split.
Qed.

(** C9.  [validateBytes] never looks at [format]: two calls that differ
    only there end the same way in the same world, namely as [validate]
    does on the buffer. *)
Theorem validateBytes_ignores_format (self : validator) (b : list Byte.byte)
    (f1 f2 : value) (options : validate_options) (w : world) :
  validateBytes self (VBuffer b) f1 options w
  = validateBytes self (VBuffer b) f2 options w
  /\ validateBytes self (VBuffer b) f1 options w
     = validate self (VBuffer b) options w.
Proof. split; reflexivity. Qed.

(** C10.  The type assertions of the wrappers come first: in every state
    of the object, ready or not, [validateBytes] on a non-Buffer and
    [validateObject] on [null] or a non-object reject with their own
    errors and leave the world untouched (no request). *)
Theorem wrapper_assertions_first (self : validator) (w : world) :
  (forall v format options,
      isBuffer v = false ->
      validateBytes self v format options w
      = (Fail (Error "resourceBytes must be a Buffer"), w))
  /\ (forall v options,
        v = VNull \/ typeof v <> "object" ->
        validateObject self v options w
        = (Fail (Error "resourceObject must be an object"), w)).
Proof.
  split.
  - intros v format options Hv. unfold validateBytes. rewrite Hv. reflexivity.
  - intros v options [-> | Hty]; [reflexivity |].
    unfold validateObject.
    destruct v; simpl in *; try reflexivity; congruence.
Qed.

(** C8.  On a ready object whose request URL parses, [validate] sends the
    text of a string or the bytes of a Buffer with the XML content type
    when the trimmed text starts with [<] and with the JSON content type
    otherwise, and sends any other object serialised as JSON with the JSON
    content type; a white-space character in front of the text, the byte
    order mark included, does not change the answer. *)
Theorem validate_content_type (self : validator) (options : validate_options)
    (w : world) (u : url) :
  isReady self = true ->
  URL_parse (show_baseUrl self ++ "/validateResource?"
             ++ query_toString (validate_query options)) = Ok u ->
  (forall s,
      requests (validate self (VStr s) options w).2
      = (requests w
         ++ [validate_request u (utf8_encode s)
               (if startsWith (trim s) "<" then "application/fhir+xml"
                else "application/fhir+json")])%list)
  /\ (forall b,
        requests (validate self (VBuffer b) options w).2
        = (requests w
           ++ [validate_request u b
                 (if startsWith (trim (utf8_decode b)) "<" then "application/fhir+xml"
                  else "application/fhir+json")])%list)
  /\ (forall v,
        isBuffer v = false -> typeof v = "object" ->
        requests (validate self v options w).2
        = (requests w
           ++ [validate_request u (utf8_encode (JSON_stringify v 0))
                 "application/fhir+json"])%list)
  /\ (forall p s,
        In p white_space ->
        startsWith (trim (p ++ s)) "<" = startsWith (trim s) "<").
Proof.
  intros Hready Hurl.
  assert (Hsend : forall body ct,
             requests (post_and_parse
                         (show_baseUrl self ++ "/validateResource?"
                          ++ query_toString (validate_query options))
                         [("Content-Type", ct);
                          ("Content-Length", pretty (Z.of_nat (length body)));
                          ("Accept", "application/fhir+json")]
                         body "Validation request timeout" w).2
             = (requests w ++ [validate_request u body ct])%list).
  { intros body ct. unfold post_and_parse, bind, lift, send, try_catch, throw.
    rewrite Hurl. simpl.
    destruct (api (outside w) _) as [e| |status data]; simpl; try reflexivity.
    destruct (JSON_parse data); reflexivity. }
  unfold validate. rewrite Hready. simpl.
  split; [| split; [| split]].
  - intros s. unfold bind, lift. simpl. apply Hsend.
  - intros b. unfold bind, lift. simpl. apply Hsend.
  - intros v Hbuf Hty. unfold bind, lift.
    destruct v; simpl in *; try discriminate; apply Hsend.
  - intros p s Hin. unfold trim.
    rewrite (proj1 (trimStart_spec s) p Hin). reflexivity.
Qed.

End ClientProperties.

(** *** runTxTest *)

Section TxTestProperties.
Context `{Runtime}.

Lemma error_pred_spec (i : value) :
  nullish i = false -> error_pred i = Ok (is_error_issue i).
Proof.
  unfold error_pred, is_error_issue.
  destruct i; simpl; try discriminate; intros _;
    try reflexivity; destruct (String.eqb _ _); reflexivity.
Qed.

Lemma find_first_error (pre post : list value) (i : value) :
  Forall (fun x => nullish x = false /\ is_error_issue x = false) pre ->
  is_error_issue i = true ->
  find_item error_pred (pre ++ i :: post) = Ok i.
Proof.
  intros Hpre Hi. induction Hpre as [|x pre [Hx Hne] _ IH]; simpl.
  - assert (Hn : nullish i = false).
    { destruct i; try reflexivity; discriminate. }
    rewrite (error_pred_spec i Hn), Hi. reflexivity.
  - rewrite (error_pred_spec x Hx), Hne. simpl. exact IH.
Qed.

Lemma find_no_error (items : list value) :
  Forall (fun x => nullish x = false /\ is_error_issue x = false) items ->
  find_item error_pred items = Ok VUndefined.
Proof.
  induction 1 as [|x items [Hx Hne] _ IH]; simpl; [reflexivity |].
  rewrite (error_pred_spec x Hx), Hne. simpl. exact IH.
Qed.

Lemma error_issue_message (i : value) :
  is_error_issue i = true ->
  truthy i = true
  /\ (try! details <- get_prop i "details";
      try! text <- get_prop_opt details "text";
      try! diagnostics <- get_prop i "diagnostics";
      Ok {| result := false;
            tx_message := js_or (js_or text diagnostics)
                                (VStr "Test failed with error") |})
     = Ok {| result := false;
             tx_message := js_or (js_or (details_text i) (diagnostics_of i))
                                 (VStr "Test failed with error") |}.
Proof.
  unfold is_error_issue, details_text, diagnostics_of.
  destruct i; simpl; try discriminate;
    try (destruct (String.eqb _ _); discriminate).
  intros _. split; [reflexivity |].
  destruct (lookup_field "details" fields); simpl; try reflexivity;
    destruct (String.eqb _ _); reflexivity.
Qed.


(** What [classify_response] answers, case by case. *)
Lemma classify_http_error (status : Z) (data : string) :
  400 <= status ->
  classify_response status data
  = {| result := false;
       tx_message := VStr ("HTTP error " ++ pretty status ++ ": " ++ data) |}.
Proof.
  intros Hs. unfold classify_response.
  destruct (400 <=? status) eqn:E; [reflexivity | lia].
Qed.

Lemma classify_other_type (status : Z) (data : string) (outcome : value) :
  status < 400 ->
  JSON_parse data = Ok outcome ->
  nullish outcome = false ->
  (forall rt, get_prop outcome "resourceType" = Ok rt ->
              strict_eq rt (VStr "OperationOutcome") = false ->
              classify_response status data
              = {| result := false;
                   tx_message := VStr ("Unexpected response type: "
                                       ++ to_string (js_or rt (VStr "unknown"))) |})
  /\ exists rt, get_prop outcome "resourceType" = Ok rt.
Proof.
  intros Hs Hparse Hnn. split.
  - intros rt Hrt Hne. unfold classify_response, classify_outcome.
    destruct (400 <=? status) eqn:E; [lia |].
    rewrite Hparse. simpl. rewrite Hrt. simpl. rewrite Hne. reflexivity.
  - destruct outcome; simpl in *; try discriminate; eauto;
      destruct (String.eqb _ _); eauto.
Qed.

Lemma classify_operation_outcome (status : Z) (data : string)
    (fields : list (string * value)) :
  status < 400 ->
  JSON_parse data = Ok (VObj fields) ->
  lookup_field "resourceType" fields = VStr "OperationOutcome" ->
  let issue := lookup_field "issue" fields in
  (truthy issue = false \/ issue = VArr [] ->
   classify_response status data = {| result := true; tx_message := VUndefined |})
  /\ (forall pre i post,
        issue = VArr (pre ++ i :: post) ->
        Forall (fun x => nullish x = false /\ is_error_issue x = false) pre ->
        is_error_issue i = true ->
        classify_response status data
        = {| result := false;
             tx_message := js_or (js_or (details_text i) (diagnostics_of i))
                                 (VStr "Test failed with error") |})
  /\ (forall items,
        issue = VArr items ->
        Forall (fun x => nullish x = false /\ is_error_issue x = false) items ->
        classify_response status data = {| result := true; tx_message := VUndefined |}).
Proof.
  intros Hs Hparse Hrt issue.
  assert (Hhead : classify_response status data
                  = match (try! no_issue <-
                             (if negb (truthy issue) then Ok true
                              else try! len <- get_prop issue "length";
                                   Ok (strict_eq len (VNum 0)));
                           if (no_issue : bool)
                           then Ok {| result := true; tx_message := VUndefined |}
                           else
                             try! errorIssue <- call_find "outcome.issue" issue error_pred;
                             if truthy errorIssue then
                               try! details <- get_prop errorIssue "details";
                               try! text <- get_prop_opt details "text";
                               try! diagnostics <- get_prop errorIssue "diagnostics";
                               Ok {| result := false;
                                     tx_message := js_or (js_or text diagnostics)
                                                     (VStr "Test failed with error") |}
                             else Ok {| result := true; tx_message := VUndefined |})
                    with
                    | Ok r => r
                    | Throw error =>
                        {| result := false;
                           tx_message := VStr ("Failed to parse response: "
                                               ++ message error) |}
                    end).
  { unfold classify_response, classify_outcome.
    destruct (400 <=? status) eqn:E; [lia |].
    rewrite Hparse. simpl. rewrite Hrt. simpl. reflexivity. }
  rewrite Hhead. clear Hhead.
  split; [| split].
  - intros [Hfalsy | Hempty].
    + rewrite Hfalsy. reflexivity.
    + rewrite Hempty. reflexivity.
  - intros pre i post Hissue Hpre Hi. rewrite Hissue. simpl.
    assert (Hlen : (Z.of_nat (length (pre ++ i :: post)) =? 0) = false).
    { apply Z.eqb_neq. rewrite length_app. simpl. lia. }
    rewrite Hlen. simpl.
    rewrite (find_first_error pre post i Hpre Hi). simpl.
    destruct (error_issue_message i Hi) as [Htruthy Hmsg].
    rewrite Htruthy. rewrite Hmsg. reflexivity.
  - intros items Hissue Hitems. rewrite Hissue. simpl.
    destruct (Z.of_nat (length items) =? 0) eqn:Hlen; simpl; [reflexivity |].
    rewrite (find_no_error items Hitems). reflexivity.
Qed.

(** C3, amended.  Once [runTxTest] has passed its readiness and
    required-parameter checks and its request URL parses, it resolves and
    never rejects.  A transport error or the timeout gives [result: false]
    with a message; a status of 400 or more gives [result: false] with
    [HTTP error <status>: <body>]; a body that parses to a value other
    than [null] whose [resourceType] is not [OperationOutcome] gives
    [result: false] with [Unexpected response type: <type or unknown>];
    an outcome without issues gives [result: true]; an outcome whose issue
    list has an error-severity issue gives [result: false] with, from the
    first such issue, the details text, else the diagnostics, else the
    fixed text [Test failed with error]; an outcome with only non-error
    issues gives [result: true]. *)
Theorem runTxTest_never_rejects (self : validator) (params : tx_params)
    (w : world) (u : url) :
  isReady self = true ->
  tx_required params = true ->
  URL_parse (show_baseUrl self ++ "/txTest?" ++ query_toString (tx_query params)) = Ok u ->
  exists r,
    runTxTest self params w = (Done r, add_request (tx_request u) w)
    /\ match api (outside w) (tx_request u) with
       | ReqError e =>
           r = {| result := false;
                  tx_message := VStr ("Request failed: " ++ message e) |}
       | ReqTimeout =>
           r = {| result := false; tx_message := VStr "Request timeout" |}
       | Reply status data =>
           (400 <= status ->
            r = {| result := false;
                   tx_message := VStr ("HTTP error " ++ pretty status ++ ": " ++ data) |})
           /\ (forall outcome rt,
                 status < 400 ->
                 JSON_parse data = Ok outcome ->
                 get_prop outcome "resourceType" = Ok rt ->
                 strict_eq rt (VStr "OperationOutcome") = false ->
                 r = {| result := false;
                        tx_message := VStr ("Unexpected response type: "
                                            ++ to_string (js_or rt (VStr "unknown"))) |})
           /\ (forall fields,
                 status < 400 ->
                 JSON_parse data = Ok (VObj fields) ->
                 lookup_field "resourceType" fields = VStr "OperationOutcome" ->
                 (truthy (lookup_field "issue" fields) = false
                  \/ lookup_field "issue" fields = VArr [] ->
                  r = {| result := true; tx_message := VUndefined |})
                 /\ (forall pre i post,
                       lookup_field "issue" fields = VArr (pre ++ i :: post) ->
                       Forall (fun x => nullish x = false /\ is_error_issue x = false) pre ->
                       is_error_issue i = true ->
                       r = {| result := false;
                              tx_message :=
                                js_or (js_or (details_text i) (diagnostics_of i))
                                      (VStr "Test failed with error") |})
                 /\ (forall items,
                       lookup_field "issue" fields = VArr items ->
                       Forall (fun x => nullish x = false /\ is_error_issue x = false)
                              items ->
                       r = {| result := true; tx_message := VUndefined |}))
       end.
Proof.
  intros Hready Hreq Hurl.
  unfold tx_required in Hreq.
  apply andb_prop in Hreq as [Hreq Hv].
  apply andb_prop in Hreq as [Hreq Ht].
  apply andb_prop in Hreq as [Hs Hsu].
  unfold runTxTest. rewrite Hready, Hs, Hsu, Ht, Hv. simpl.
  unfold bind, lift, send, ret. rewrite Hurl. simpl.
  fold (tx_request u).
  destruct (api (outside w) (tx_request u)) as [e| |status data];
    eexists; (split; [reflexivity |]); try reflexivity.
  split; [| split].
  - apply classify_http_error.
  - intros outcome rt Hst Hparse Hrt Hne.
    assert (Hnn : nullish outcome = false).
    { destruct outcome; try reflexivity; discriminate. }
    destruct (classify_other_type status data outcome Hst Hparse Hnn) as [Hother _].
    exact (Hother rt Hrt Hne).
  - intros fields Hst Hparse Hrt.
    exact (classify_operation_outcome status data fields Hst Hparse Hrt).
Qed.

End TxTestProperties.

(** *** downloadFile *)

(** The temporary file is never the destination itself. *)
Lemma temp_path_differs (destPath : string) : destPath ++ ".download" <> destPath.
Proof.
  intros Heq. apply (f_equal String.length) in Heq.
  rewrite string_length_app in Heq. simpl in Heq. lia.
Qed.

Section DownloadProperties.
Context `{Runtime}.

Lemma log_all_frame (level : string) (lines : list string) (w : world) :
  (log_all level lines w).1 = Done tt
  /\ fs (log_all level lines w).2 = fs w
  /\ requests (log_all level lines w).2 = requests w
  /\ outside (log_all level lines w).2 = outside w.
Proof.
  unfold log_all. cbn [fst snd]. split; [reflexivity |].
  revert w. induction lines as [|line lines IH]; intros w; cbn; [repeat split |].
  destruct (IH (add_log level line w)) as (Hfs & Hreq & Hout).
  rewrite Hfs, Hreq, Hout. repeat split.
Qed.

(** The transfer, by its ending. *)
Lemma transfer_effect (destPath : string) (chunks : list (list Byte.byte))
    (ending : stream_end) (w : world) :
  let tempPath := destPath ++ ".download" in
  let r := (transfer destPath chunks ending w).1 in
  let w' := (transfer destPath chunks ending w).2 in
  (outside w' = outside w /\ requests w' = requests w)
  /\ (forall p, p <> destPath -> p <> tempPath -> fs w' !! p = fs w !! p)
  /\ (r <> Done tt -> fs w' !! destPath = fs w !! destPath)
  /\ (r = Done tt ->
      ending = StreamFinish
      /\ fs w' !! destPath = Some (File (concat chunks))
      /\ fs w' !! tempPath = None)
  /\ (ending = StreamFinish ->
      (fs w !! destPath <> Some Dir -> r = Done tt)
      /\ (fs w !! destPath = Some Dir ->
          (exists e, r = Uncaught e)
          /\ fs w' !! tempPath = Some (File (concat chunks))))
  /\ (forall err written,
        ending = StreamError err written ->
        (written <> None \/ fs w !! tempPath <> Some Dir ->
         r = Fail err /\ fs w' !! tempPath = None)
        /\ (written = None -> fs w !! tempPath = Some Dir ->
            (exists e, r = Uncaught e) /\ fs w' = fs w))
  /\ (forall err n,
        ending = SocketError err n ->
        r = Fail err /\ fs w' !! tempPath = Some (File (concat (take n chunks))))
  /\ (forall n,
        ending = StreamTimeout n ->
        r = Fail (Error "Download timeout")
        /\ fs w' !! tempPath = Some (File (concat (take n chunks)))).
Proof.
  intros tempPath.
  pose proof (temp_path_differs destPath) as Hne. fold tempPath in Hne.
  unfold transfer. fold tempPath.
  destruct ending as [|err [n|]|err n|n];
    unfold bind, stream_to, in_callback, renameSync, existsSync, unlinkSync, throw, ret;
    cbn [fst snd set_fs fs outside requests].
  - (* finish *)
    rewrite lookup_insert_eq. rewrite lookup_insert_ne by congruence.
    destruct (fs w !! destPath) as [[content| |]|] eqn:Hdest;
      cbn [fst snd set_fs fs outside requests]; fs_crush.
  - (* write error after n chunks *)
    rewrite lookup_insert_eq. cbn [fst snd set_fs fs outside requests].
    rewrite lookup_insert_eq. cbn [fst snd set_fs fs outside requests].
    fs_crush.
  - (* write error at open *)
    destruct (fs w !! tempPath) as [[content| |]|] eqn:Htemp;
      cbn [fst snd set_fs fs outside requests]; rewrite ?Htemp;
      cbn [fst snd set_fs fs outside requests]; fs_crush.
  - (* error of the request *)
    fs_crush.
  - (* request timer *)
    fs_crush.
Qed.

(** The response callback in terms of the transfer. *)
Lemma receive_step (destPath : string) (status : Z) (contentLength : option Z)
    (chunks : list (list Byte.byte)) (ending : stream_end) (w : world) :
  receive destPath status contentLength chunks ending w
  = if negb (status =? 200) then
      (Fail (Error ("Download failed with status " ++ pretty status)), w)
    else
      match mkdir (outside w) destPath with
      | Some e => (Uncaught e, w)
      | None =>
          transfer destPath chunks
            (match open_error (destPath ++ ".download") w with
             | Some e => StreamError e None
             | None => ending
             end)
            (log_all "info" (progress_of contentLength chunks) w).2
      end.
Proof.
  unfold receive. destruct (negb (status =? 200)); [reflexivity |].
  destruct (mkdir (outside w) destPath); reflexivity.
Qed.

(** The response callback on a response that is not a redirect. *)
Lemma receive_effect (destPath : string) (status : Z) (contentLength : option Z)
    (chunks : list (list Byte.byte)) (ending : stream_end) (w : world) :
  let tempPath := destPath ++ ".download" in
  let r := (receive destPath status contentLength chunks ending w).1 in
  let w' := (receive destPath status contentLength chunks ending w).2 in
  (outside w' = outside w /\ requests w' = requests w)
  /\ (forall p, p <> destPath -> p <> tempPath -> fs w' !! p = fs w !! p)
  /\ (r <> Done tt -> fs w' !! destPath = fs w !! destPath)
  /\ (r = Done tt ->
      status = 200 /\ ending = StreamFinish
      /\ fs w' !! destPath = Some (File (concat chunks))
      /\ fs w' !! tempPath = None)
  /\ (status <> 200 ->
      r = Fail (Error ("Download failed with status " ++ pretty status)) /\ fs w' = fs w)
  /\ (status = 200 ->
      (forall e, mkdir (outside w) destPath = Some e -> r = Uncaught e /\ fs w' = fs w)
      /\ (mkdir (outside w) destPath = None ->
          (fs w !! tempPath = Some Dir -> (exists e, r = Uncaught e) /\ fs w' = fs w)
          /\ (fs w !! tempPath = Some NoAccess ->
              r = Fail (Error ("EACCES: permission denied, open '" ++ tempPath ++ "'"))
              /\ fs w' !! tempPath = None)
          /\ (open_error tempPath w = None ->
              (ending = StreamFinish -> fs w !! destPath <> Some Dir -> r = Done tt)
              /\ (ending = StreamFinish -> fs w !! destPath = Some Dir ->
                  (exists e, r = Uncaught e)
                  /\ fs w' !! tempPath = Some (File (concat chunks)))
              /\ (forall err written,
                    ending = StreamError err written ->
                    r = Fail err /\ fs w' !! tempPath = None)
              /\ (forall err n,
                    ending = SocketError err n ->
                    r = Fail err
                    /\ fs w' !! tempPath = Some (File (concat (take n chunks))))
              /\ (forall n,
                    ending = StreamTimeout n ->
                    r = Fail (Error "Download timeout")
                    /\ fs w' !! tempPath = Some (File (concat (take n chunks))))))).
Proof.
  intros tempPath. rewrite receive_step.
  destruct (status =? 200) eqn:Hs; cbn [negb].
  2:{ apply Z.eqb_neq in Hs. cbn [fst snd].
      split; [split; reflexivity |]. split; [reflexivity |]. split; [reflexivity |].
      split; [intros Hr; discriminate |].
      split; [intros _; split; reflexivity |].
      intros Hbad. contradiction. }
  apply Z.eqb_eq in Hs.
  destruct (mkdir (outside w) destPath) as [e|] eqn:Hmk.
  { cbn [fst snd].
    split; [split; reflexivity |]. split; [reflexivity |]. split; [reflexivity |].
    split; [intros Hr; discriminate |].
    split; [intros Hbad; contradiction |].
    intros _. split.
    - intros e' Heq. inversion Heq; subst. split; reflexivity.
    - intros Hbad. discriminate. }
  destruct (log_all_frame "info" (progress_of contentLength chunks) w)
    as (_ & Hfs & Hreq & Hout).
  set (w0 := (log_all "info" (progress_of contentLength chunks) w).2) in *.
  set (ending' := match open_error tempPath w with
                  | Some e => StreamError e None
                  | None => ending
                  end).
  fold tempPath. fold ending'.
  destruct (transfer_effect destPath chunks ending' w0)
    as ((Hout' & Hreq') & Hother & Hkept & Hdone & Hfinish & Hwrite & Hsocket & Htimer).
  fold tempPath in Hother, Hdone, Hfinish, Hwrite, Hsocket, Htimer.
  rewrite Hfs in *.
  split; [split; congruence |].
  split; [exact Hother |].
  split; [exact Hkept |].
  split.
  { intros Hr. destruct (Hdone Hr) as (Hend & Hd & Ht).
    split; [exact Hs |]. split; [| split; assumption].
    subst ending'. destruct (open_error tempPath w); [discriminate | exact Hend]. }
  split; [intros Hbad; contradiction |].
  intros _. split; [intros e Hbad; discriminate |].
  intros _. split; [| split].
  - intros Hdir.
    assert (Hopen : open_error tempPath w
                    = Some (Error ("EISDIR: illegal operation on a directory, open '"
                                   ++ tempPath ++ "'")))
      by (unfold open_error; rewrite Hdir; reflexivity).
    subst ending'. rewrite Hopen in Hwrite |- *.
    destruct (Hwrite _ None eq_refl) as [_ Hun].
    apply Hun; [reflexivity | exact Hdir].
  - intros Hno.
    assert (Hopen : open_error tempPath w
                    = Some (Error ("EACCES: permission denied, open '"
                                   ++ tempPath ++ "'")))
      by (unfold open_error; rewrite Hno; reflexivity).
    subst ending'. rewrite Hopen in Hwrite |- *.
    destruct (Hwrite _ None eq_refl) as [Hok _].
    apply Hok. right. rewrite Hno. discriminate.
  - intros Hopen. subst ending'. rewrite Hopen in *.
    split; [intros Hend Hd; exact (proj1 (Hfinish Hend) Hd) |].
    split; [intros Hend Hd; exact (proj2 (Hfinish Hend) Hd) |].
    split; [| split; [exact Hsocket | exact Htimer]].
    intros err written Hend. destruct (Hwrite err written Hend) as [Hok _].
    apply Hok. right. unfold open_error in Hopen.
    destruct (fs w !! tempPath) as [[| |]|]; discriminate.
Qed.

(** One unfolding of [downloadWithRedirects]. *)
Lemma downloadWithRedirects_step (destPath downloadUrl : string)
    (redirectCount : Z) (w : world) :
  downloadWithRedirects destPath downloadUrl redirectCount w
  = if 5 <? redirectCount then (Fail (Error "Too many redirects"), w)
    else
      match URL_parse downloadUrl with
      | Throw e => (if redirectCount =? 0 then Fail e else Uncaught e, w)
      | Ok parsedUrl =>
          let w1 := add_request (download_request parsedUrl downloadUrl) w in
          match downloads (outside w) downloadUrl with
          | DlError e => (Fail e, w1)
          | DlTimeout => (Fail (Error "Download timeout"), w1)
          | DlResponse status location contentLength chunks ending =>
              match redirect_to status location with
              | Some loc =>
                  downloadWithRedirects destPath loc (redirectCount + 1)
                    (add_log "info" ("Following redirect to " ++ loc) w1)
              | None => receive destPath status contentLength chunks ending w1
              end
          end
      end.
Proof.
  simp downloadWithRedirects.
  destruct (Z_gt_dec redirectCount 5) as [Hgt|Hle]; simpl.
  - destruct (5 <? redirectCount) eqn:E; [reflexivity | lia].
  - destruct (5 <? redirectCount) eqn:E; [lia |].
    destruct (URL_parse downloadUrl) as [parsedUrl|e]; simpl; [| reflexivity].
    unfold fetch.
    destruct (downloads (outside w) downloadUrl)
      as [e| |status location contentLength chunks ending];
      simpl; try reflexivity.
    destruct (redirect_to status location); reflexivity.
Qed.

Lemma downloadWithRedirects_effect (n : nat) :
  forall destPath downloadUrl redirectCount w,
    (Z.to_nat (6 - redirectCount) <= n)%nat ->
    download_post destPath downloadUrl redirectCount w
      (downloadWithRedirects destPath downloadUrl redirectCount w).
Proof.
  induction n as [|n IH]; intros destPath downloadUrl redirectCount w Hn;
    rewrite downloadWithRedirects_step;
    destruct (5 <? redirectCount) eqn:Hc;
    try (simpl; repeat split; reflexivity);
    try lia.
  destruct (URL_parse downloadUrl) as [parsedUrl|e] eqn:Hparse.
  2:{ destruct (redirectCount =? 0); simpl; repeat split; reflexivity. }
  cbv zeta.
  destruct (downloads (outside w) downloadUrl)
    as [e| |status location contentLength chunks ending] eqn:Hdl;
    try (simpl; repeat split; reflexivity).
  destruct (redirect_to status location) as [loc|] eqn:Hredirect.
  - specialize (IH destPath loc (redirectCount + 1)
                  (add_log "info" ("Following redirect to " ++ loc)
                     (add_request (download_request parsedUrl downloadUrl) w))).
    unfold download_post in *.
    destruct (downloadWithRedirects _ _ _ _) as [r w'].
    destruct IH as (Hout & Hother & Hdest); [lia |].
    cbn [outside add_log add_request fs] in *.
    split; [exact Hout |]. split; [exact Hother |].
    destruct r as [[]|e|e]; try exact Hdest.
    destruct Hdest as (k & v & parsed & location' & contentLength' & chunks'
                       & Hhops & Hk & Hp & Hd & Hr & Hfile & Htemp).
    exists (S k), v, parsed, location', contentLength', chunks'.
    split; [eapply hops_step; eassumption |].
    split; [lia |]. repeat split; assumption.
  - pose proof (receive_effect destPath status contentLength chunks ending
                  (add_request (download_request parsedUrl downloadUrl) w)) as Heff.
    unfold download_post.
    destruct (receive _ _ _ _ _ _) as [r w']. cbn [fst snd] in Heff.
    cbn [outside add_request fs] in Heff.
    destruct Heff as ((Hout & _) & Hother & Hkept & Hdone & _).
    split; [exact Hout |]. split; [exact Hother |].
    destruct r as [[]|e|e]; try (apply Hkept; discriminate).
    destruct (Hdone eq_refl) as (-> & -> & Hfile & Htemp).
    exists 0%nat, downloadUrl, parsedUrl, location, contentLength, chunks.
    split; [constructor |]. split; [lia |]. repeat split; assumption.
Qed.




End DownloadProperties.

(** *** ensureValidator *)

Section EnsureProperties.
Context `{Runtime}.

Lemma getInstalledVersion_quiet (self : validator) (w : world) :
  exists v w',
    getInstalledVersion self w = (Done v, w')
    /\ fs w' = fs w /\ requests w' = requests w /\ outside w' = outside w.
Proof.
  rewrite getInstalledVersion_cases.
  destruct (fs w !! versionFilePath self) as [[content| |]|]; eauto 10.
  destruct (JSON_parse (utf8_decode content)) as [info|e]; eauto 10.
  destruct (get_prop info "version"); eauto 10.
Qed.

(** The early return: the JAR is there, the update check is skipped and
    no download is forced.  Nothing is sent. *)
Lemma ensureValidator_skips (self : validator) (options : ensure_options)
    (w w1 : world) (jarFile : node) (installedVersion : value) :
  fs w !! validatorJarPath self = Some jarFile ->
  skipUpdateCheck options = true ->
  force options = false ->
  getInstalledVersion self w = (Done installedVersion, w1) ->
  ensureValidator self options w
  = (Done {| res_version := js_or installedVersion (VStr "unknown");
             updated := false;
             downloaded := false |},
     add_log "info" "Using existing validator JAR (version check skipped)" w1)
  /\ requests (ensureValidator self options w).2 = requests w.
Proof.
  intros Hjar Hskip Hforce Hinst.
  destruct (getInstalledVersion_quiet self w) as (v & w' & Hq & _ & Hreq & _).
  rewrite Hinst in Hq. inversion Hq; subst v w'. clear Hq.
  assert (Hrun : ensureValidator self options w
                 = (Done {| res_version := js_or installedVersion (VStr "unknown");
                            updated := false;
                            downloaded := false |},
                    add_log "info"
                      "Using existing validator JAR (version check skipped)" w1)).
  { unfold ensureValidator, bind at 1. unfold existsSync at 1. rewrite Hjar.
    unfold bind at 1. rewrite Hinst. rewrite Hskip, Hforce. reflexivity. }
  split; [exact Hrun |].
  rewrite Hrun. simpl. exact Hreq.
Qed.

(** The other path: the release index is asked, and the download is
    decided from [force], the presence of the JAR, the recorded version
    and the latest tag. *)
Lemma ensureValidator_checks (self : validator) (options : ensure_options)
    (w w1 w2 : world) (installedVersion : value) (latest : release) :
  let jarExists := match fs w !! validatorJarPath self with
                   | Some _ => true | None => false end in
  jarExists && skipUpdateCheck options && negb (force options) = false ->
  getInstalledVersion self w = (Done installedVersion, w1) ->
  getLatestRelease (add_log "info" "Checking for latest FHIR validator release..." w1)
  = (Done latest, w2) ->
  let needsDownload :=
    force options || negb jarExists || negb (truthy installedVersion)
    || negb (strict_eq installedVersion (rel_version latest)) in
  (needsDownload = false ->
   ensureValidator self options w
   = (Done {| res_version := installedVersion; updated := false; downloaded := false |},
      add_log "info" ("Validator is up to date (" ++ to_string installedVersion ++ ")")
        (add_log "info" ("Latest version: " ++ to_string (rel_version latest)) w2)))
  /\ (needsDownload = true ->
      forall w3 w4,
        downloadFile (to_string (rel_downloadUrl latest)) (validatorJarPath self)
          (add_log "info"
             (if truthy installedVersion && jarExists
              then "Updating validator from " ++ to_string installedVersion
                   ++ " to " ++ to_string (rel_version latest) ++ "..."
              else "Downloading validator " ++ to_string (rel_version latest) ++ "...")
             (add_log "info" ("Latest version: " ++ to_string (rel_version latest)) w2))
        = (Done tt, w3) ->
        saveVersionInfo self (rel_version latest) (rel_downloadUrl latest) w3
        = (Done tt, w4) ->
        ensureValidator self options w
        = (Done {| res_version := rel_version latest;
                   updated := negb (strict_eq installedVersion VNull)
                              && negb (strict_eq installedVersion (rel_version latest));
                   downloaded := true |},
           add_log "info" ("Validator " ++ to_string (rel_version latest)
                           ++ " downloaded successfully") w4)).
Proof.
  intros jarExists Hpath Hinst Hlatest needsDownload.
  assert (Hhead : ensureValidator self options w
                  = (if negb needsDownload then
                       log "info" ("Validator is up to date ("
                                   ++ to_string installedVersion ++ ")");;;
                       ret {| res_version := installedVersion;
                              updated := false;
                              downloaded := false |}
                     else
                       (if truthy installedVersion && jarExists then
                          log "info" ("Updating validator from "
                                      ++ to_string installedVersion
                                      ++ " to " ++ to_string (rel_version latest) ++ "...")
                        else
                          log "info" ("Downloading validator "
                                      ++ to_string (rel_version latest) ++ "..."));;;
                       downloadFile (to_string (rel_downloadUrl latest))
                         (validatorJarPath self);;;
                       saveVersionInfo self (rel_version latest) (rel_downloadUrl latest);;;
                       log "info" ("Validator " ++ to_string (rel_version latest)
                                   ++ " downloaded successfully");;;
                       ret {| res_version := rel_version latest;
                              updated := negb (strict_eq installedVersion VNull)
                                         && negb (strict_eq installedVersion
                                                    (rel_version latest));
                              downloaded := true |})
                      (add_log "info" ("Latest version: " ++ to_string (rel_version latest))
                         w2)).
  { unfold ensureValidator, bind at 1. unfold existsSync at 1.
    fold jarExists. unfold bind at 1. rewrite Hinst. rewrite Hpath.
    unfold bind at 1. unfold log at 1. unfold bind at 1. rewrite Hlatest.
    unfold bind at 1. unfold log at 1. reflexivity. }
  rewrite Hhead. clear Hhead.
  split.
  - intros ->. reflexivity.
  - intros -> w3 w4 Hdl Hsave. cbn [negb].
    unfold bind at 1.
    assert (Hlog : (if truthy installedVersion && jarExists
                    then log "info" ("Updating validator from "
                                     ++ to_string installedVersion
                                     ++ " to " ++ to_string (rel_version latest) ++ "...")
                    else log "info" ("Downloading validator "
                                     ++ to_string (rel_version latest) ++ "..."))
                     (add_log "info"
                        ("Latest version: " ++ to_string (rel_version latest)) w2)
                   = (Done tt,
                      add_log "info"
                        (if truthy installedVersion && jarExists
                         then "Updating validator from " ++ to_string installedVersion
                              ++ " to " ++ to_string (rel_version latest) ++ "..."
                         else "Downloading validator "
                              ++ to_string (rel_version latest) ++ "...")
                        (add_log "info"
                           ("Latest version: " ++ to_string (rel_version latest)) w2))).
    { destruct (truthy installedVersion && jarExists); reflexivity. }
    rewrite Hlog. unfold bind at 1. rewrite Hdl.
    unfold bind at 1. rewrite Hsave. reflexivity.
Qed.

(** [saveVersionInfo] writes the record next to the JAR. *)
Lemma saveVersionInfo_persists (self : validator) (ver downloadUrl : value)
    (w w' : world) :
  saveVersionInfo self ver downloadUrl w = (Done tt, w') ->
  fs w' !! versionFilePath self
  = Some (File (utf8_encode
                  (JSON_stringify
                     (VObj [("version", ver); ("downloadUrl", downloadUrl);
                            ("downloadedAt", VStr (now_iso (outside w)))]) 2))).
Proof.
  unfold saveVersionInfo, writeFileSync.
  destruct (fs w !! versionFilePath self) as [[content| |]|]; intros Heq;
    inversion Heq; subst; simpl; apply lookup_insert_eq.
Qed.

(** The [updated] flag against the test that decides the download: the
    two agree when the recorded version is [null] or a non-empty string,
    as [getInstalledVersion] documents its result; they differ on the other
    values that count as no version ([undefined], the empty string). *)
Lemma updated_flag_on_contract (installedVersion latestVersion : value) :
  installedVersion = VNull \/ truthy installedVersion = true ->
  negb (strict_eq installedVersion VNull)
  && negb (strict_eq installedVersion latestVersion)
  = truthy installedVersion && negb (strict_eq installedVersion latestVersion).
Proof.
  intros [-> | Ht]; [reflexivity |].
  rewrite Ht. destruct installedVersion; simpl in *; try reflexivity; discriminate.
Qed.

End EnsureProperties.

(** *** The supervisor *)

Lemma cleanup_cleared (v : validator) : cleared (cleanup v).
Proof. repeat split. Qed.

Lemma cleared_ready_has_process (v : validator) : cleared v -> ready_has_process v.
Proof. intros (_ & _ & _ & Hr) Ht. congruence. Qed.

(** The listeners of pending [stop] calls leave the object cleared, settle
    their calls by resolving and only remove pending calls. *)
Lemma stops_on_exit (l : list stop_call) :
  forall m,
    let m' := fold_left stop_on_exit l m in
    (cleared (self m) -> cleared (self m'))
    /\ (forall sc, In sc l -> In (StopCall (stop_id sc), Done tt) (settled m'))
    /\ (forall x, In x (settled m) -> In x (settled m'))
    /\ (forall x, In x (settled m') ->
                  In x (settled m) \/ exists sc, In sc l /\ x = (StopCall (stop_id sc), Done tt))
    /\ signals m' = signals m
    /\ (l <> [] -> cleared (self m')).
Proof.
  induction l as [|sc l IH]; intros m; simpl.
  - split; [auto |]. split; [intros sc [] |]. split; [auto |]. split; [auto |].
    split; [reflexivity |]. intros Hne. contradiction.
  - specialize (IH (stop_on_exit m sc)).
    destruct IH as (Hc & Hin & Hkeep & Hfrom & Hsig & _).
    assert (Hcl : cleared (self (fold_left stop_on_exit l (stop_on_exit m sc)))).
    { apply Hc. apply cleanup_cleared. }
    repeat split; try apply Hcl.
    + intros x [<- | Hx].
      * apply Hkeep. simpl. apply in_or_app. right. left. reflexivity.
      * apply Hin. exact Hx.
    + intros x Hx. apply Hkeep. simpl. apply in_or_app. left. exact Hx.
    + intros x Hx. destruct (Hfrom x Hx) as [Hold | (sc' & Hsc' & ->)].
      * simpl in Hold. apply in_app_or in Hold as [Hold | [<- | []]].
        -- left. exact Hold.
        -- right. exists sc. split; [left; reflexivity | reflexivity].
      * right. exists sc'. split; [right; exact Hsc' | reflexivity].
    + rewrite Hsig. reflexivity.
Qed.

Section SupervisorProperties.
Context `{Runtime}.

(** Every ['exit'] event leaves the four fields cleared. *)
Lemma exit_clears (m m' : machine) (p : nat) (code sig : value) :
  step m (ChildExit p code sig) = Some m' -> cleared (self m').
Proof.
  simpl. destruct (bool_decide (p ∈ children m)); [| discriminate].
  intros Heq. inversion Heq. unfold on_exit.
  match goal with
  | |- cleared (self (fold_left stop_on_exit ?l ?m0)) =>
      apply (proj1 (stops_on_exit l m0))
  end.
  apply cleanup_cleared.
Qed.

(** The timer of a pending [stop] leaves the four fields cleared. *)
Lemma stop_timer_clears (m m' : machine) (id : nat) :
  step m (StopTimer id) = Some m' -> cleared (self m').
Proof.
  simpl. destruct (filter _ (stopping m)) as [|sc rest]; [discriminate |].
  destruct (deadline sc <=? now m); [| discriminate].
  intros Heq. inversion Heq. apply cleanup_cleared.
Qed.

Lemma wait_loop_self (startTime timeout : Z) (m : machine) :
  self (wait_loop startTime timeout m) = self m.
Proof.
  unfold wait_loop. destruct (now m - startTime <? timeout); [| reflexivity].
  destruct (URL_parse _); reflexivity.
Qed.

Lemma start_keeps_invariant (config : start_config) (m : machine) :
  ready_has_process (self m) -> ready_has_process (self (start config m)).
Proof.
  intros Hinv. unfold start.
  destruct (process (self m)) eqn:Hp; [exact Hinv |].
  destruct (given (cfg_version config)); [| exact Hinv].
  destruct (given (txServer config)); [| exact Hinv].
  destruct (given (txLog config)); [| exact Hinv].
  destruct (ensure_jar config m) as [[[]|e|e] w]; try exact Hinv.
  rewrite wait_loop_self. intros _. simpl. discriminate.
Qed.

(** Every dispatch keeps "ready only with a process", except the answer to
    a health probe that arrives when the process handle is already
    null. *)
Lemma step_keeps_invariant (m m' : machine) (e : event) :
  step m e = Some m' ->
  (forall status, e = ProbeAnswer status -> process (self m) <> None) ->
  ready_has_process (self m) ->
  ready_has_process (self m').
Proof.
  intros Hstep Hprobe Hinv. destruct e as [config|status| |p code sig|accepted|id|ms].
  - simpl in Hstep. destruct (starting m); [discriminate |].
    inversion Hstep. apply start_keeps_invariant. exact Hinv.
  - simpl in Hstep. destruct (starting m) as [[s t|s t d]|]; try discriminate.
    inversion Hstep. unfold probe_answer.
    destruct status as [code|]; [| exact Hinv].
    destruct (code =? 405); [| exact Hinv].
    intros _. simpl. exact (Hprobe (Some code) eq_refl).
  - simpl in Hstep. destruct (starting m) as [[s t|s t d]|]; try discriminate.
    destruct (d <=? now m); [| discriminate].
    inversion Hstep. rewrite wait_loop_self. exact Hinv.
  - apply cleared_ready_has_process. eapply exit_clears. exact Hstep.
  - simpl in Hstep. inversion Hstep. unfold stop.
    destruct (process (self m)) as [pr|] eqn:Hp.
    + intros _. simpl. unfold add_stop. rewrite Hp. simpl. rewrite Hp. discriminate.
    + exact Hinv.
  - apply cleared_ready_has_process. eapply stop_timer_clears. exact Hstep.
  - simpl in Hstep. destruct (0 <=? ms); [| discriminate].
    inversion Hstep. exact Hinv.
Qed.

End SupervisorProperties.


(** [stop()] without a process: resolved at once, nothing else changes. *)
Lemma stop_without_process (accepted : bool) (m : machine) :
  process (self m) = None ->
  let m' := stop accepted m in
  self m' = self m /\ signals m' = signals m /\ children m' = children m
  /\ stopping m' = stopping m /\ starting m' = starting m /\ mworld m' = mworld m
  /\ settled m' = (settled m ++ [(StopCall (next_stop m), Done tt)])%list.
Proof. intros Hp. unfold stop. rewrite Hp. repeat split. Qed.

(** [stop()] with a process: SIGKILL goes out at once and nothing else,
    the call is pending with its ten-second timer, the handle stays. *)
Lemma stop_with_process (accepted : bool) (m : machine) (p : proc) :
  process (self m) = Some p ->
  let m' := stop accepted m in
  signals m' = (signals m ++ [(pid p, SIGKILL)])%list
  /\ stopping m'
     = (stopping m ++ [{| stop_id := next_stop m; on_pid := pid p;
                          deadline := now m + 10000 |}])%list
  /\ settled m' = settled m
  /\ process (self m') = Some {| pid := pid p; killed := killed p || accepted |}
  /\ isReady (self m') = isReady (self m).
Proof.
  intros Hp. unfold stop, add_stop. rewrite Hp. simpl. rewrite Hp. repeat split.
Qed.

Section StopProperties.
Context `{Runtime}.

(** The exit event resolves every [stop] waiting on that process. *)
Lemma stop_resolves_on_exit (m m' : machine) (sc : stop_call) (code sig : value) :
  In sc (stopping m) ->
  step m (ChildExit (on_pid sc) code sig) = Some m' ->
  cleared (self m')
  /\ In (StopCall (stop_id sc), Done tt) (settled m')
  /\ signals m' = signals m.
Proof.
  intros Hsc Hstep. split; [eapply exit_clears; exact Hstep |].
  simpl in Hstep. destruct (bool_decide _); [| discriminate].
  inversion Hstep. unfold on_exit.
  match goal with
  | |- In _ (settled (fold_left stop_on_exit ?l ?m0)) /\ _ =>
      destruct (stops_on_exit l m0) as (_ & Hin & _ & _ & Hsig & _)
  end.
  split; [| exact Hsig].
  apply Hin. simpl. apply list_elem_of_In. apply list_elem_of_filter.
  split; [reflexivity | apply list_elem_of_In; exact Hsc].
Qed.

(** The timer resolves its [stop]; a further kill goes out only as
    [fallback_kill] says. *)
Lemma stop_resolves_on_timer (m m' : machine) (id : nat) :
  step m (StopTimer id) = Some m' ->
  cleared (self m')
  /\ In (StopCall id, Done tt) (settled m')
  /\ signals m' = (signals m ++ fallback_kill (self m))%list
  /\ exists sc, In sc (stopping m) /\ stop_id sc = id /\ deadline sc <= now m.
Proof.
  intros Hstep. split; [eapply stop_timer_clears; exact Hstep |].
  simpl in Hstep.
  destruct (filter (fun sc => stop_id sc = id) (stopping m)) as [|sc rest] eqn:Hf;
    [discriminate |].
  assert (Hsc : sc ∈ filter (fun sc => stop_id sc = id) (stopping m)).
  { rewrite Hf. left. }
  apply list_elem_of_filter in Hsc as [Hid Hsc].
  destruct (deadline sc <=? now m) eqn:Hd; [| discriminate].
  inversion Hstep. unfold stop_timeout, fallback_kill. simpl.
  split; [| split].
  - apply in_or_app. right. left. rewrite Hid. reflexivity.
  - destruct (process (self m)) as [p|]; [destruct (killed p) |]; simpl;
      rewrite ?app_nil_r; reflexivity.
  - exists sc. split; [apply list_elem_of_In; exact Hsc |].
    split; [exact Hid | lia].
Qed.

(** A pending [stop] is never stuck: its timer can always fire. *)
Lemma stop_timer_fires (m : machine) (sc : stop_call) :
  In sc (stopping m) ->
  exists ms m',
    run m [Tick ms; StopTimer (stop_id sc)] = Some m'
    /\ cleared (self m')
    /\ In (StopCall (stop_id sc), Done tt) (settled m').
Proof.
  intros Hsc.
  destruct (filter (fun x => stop_id x = stop_id sc) (stopping m)) as [|first rest] eqn:Hf.
  { exfalso. apply list_elem_of_In in Hsc.
    eapply (filter_nil_not_elem_of _ _ sc Hf); [reflexivity | exact Hsc]. }
  exists (Z.max 0 (deadline first - now m)).
  assert (Hstep : run m [Tick (Z.max 0 (deadline first - now m)); StopTimer (stop_id sc)]
                  = step (advance (Z.max 0 (deadline first - now m)) m)
                      (StopTimer (stop_id sc))).
  { simpl. destruct (0 <=? Z.max 0 (deadline first - now m)) eqn:E; [| lia].
    destruct (match filter _ _ with [] => None | _ => _ end); reflexivity. }
  destruct (step (advance (Z.max 0 (deadline first - now m)) m) (StopTimer (stop_id sc)))
    as [m'|] eqn:Hs.
  - exists m'. split; [exact Hstep |].
    destruct (stop_resolves_on_timer _ _ _ Hs) as (Hc & Hin & _).
    split; assumption.
  - exfalso. simpl in Hs. rewrite Hf in Hs.
    destruct (deadline first <=? now m + Z.max 0 (deadline first - now m)) eqn:E;
      [discriminate | lia].
Qed.

Lemma wait_loop_settled (startTime timeout : Z) (m : machine) (x : call * outcome unit) :
  In x (settled (wait_loop startTime timeout m)) -> In x (settled m) \/ x.1 = StartCall.
Proof.
  unfold wait_loop. destruct (now m - startTime <? timeout).
  - destruct (URL_parse _); simpl; auto.
  - simpl. intros Hx. apply in_app_or in Hx as [Hx | [<- | []]]; auto.
Qed.

Lemma start_settled (config : start_config) (m : machine) (x : call * outcome unit) :
  In x (settled (start config m)) -> In x (settled m) \/ x.1 = StartCall.
Proof.
  assert (Hsettle : forall r m0, settled m0 = settled m ->
                      In x (settled (settle StartCall r m0)) ->
                      In x (settled m) \/ x.1 = StartCall).
  { intros r m0 Hm0 Hx. simpl in Hx. rewrite Hm0 in Hx.
    apply in_app_or in Hx as [Hx | [<- | []]]; auto. }
  unfold start.
  destruct (process (self m)); [apply Hsettle; reflexivity |].
  destruct (given (cfg_version config)); [| apply Hsettle; reflexivity].
  destruct (given (txServer config)); [| apply Hsettle; reflexivity].
  destruct (given (txLog config)); [| apply Hsettle; reflexivity].
  destruct (ensure_jar config m) as [[[]|e|e] w];
    try (apply Hsettle; reflexivity).
  intros Hx. apply wait_loop_settled in Hx. exact Hx.
Qed.

(** [stop] never rejects: whatever is dispatched, the calls of [stop] that
    have settled have resolved. *)
Lemma step_stops_resolved (m m' : machine) (e : event) :
  step m e = Some m' -> stops_resolved m -> stops_resolved m'.
Proof.
  intros Hstep Hinv id r Hin.
  destruct e as [config|status| |p code sig|accepted|sid|ms]; simpl in Hstep.
  - destruct (starting m); [discriminate |]. inversion Hstep; subst m'.
    apply start_settled in Hin as [Hin | Hin]; [eauto | discriminate].
  - destruct (starting m) as [[s t|s t d]|]; try discriminate.
    inversion Hstep; subst m'. unfold probe_answer in Hin.
    destruct status as [code0|]; [| eauto].
    destruct (code0 =? 405); [| eauto].
    simpl in Hin. apply in_app_or in Hin as [Hin | [Hin | []]]; [eauto | discriminate].
  - destruct (starting m) as [[s t|s t d]|]; try discriminate.
    destruct (d <=? now m); [| discriminate]. inversion Hstep; subst m'.
    apply wait_loop_settled in Hin as [Hin | Hin]; [eauto | discriminate].
  - destruct (bool_decide _); [| discriminate]. inversion Hstep; subst m'.
    unfold on_exit in Hin.
    match type of Hin with
    | In _ (settled (fold_left stop_on_exit ?l ?m0)) =>
        destruct (stops_on_exit l m0) as (_ & _ & _ & Hfrom & _)
    end.
    destruct (Hfrom _ Hin) as [Hold | (sc & _ & Heq)]; [eauto | congruence].
  - inversion Hstep; subst m'. unfold stop in Hin.
    destruct (process (self m)) as [p|] eqn:Hp.
    + simpl in Hin. unfold add_stop in Hin. rewrite Hp in Hin. eauto.
    + simpl in Hin. apply in_app_or in Hin as [Hin | [Hin | []]]; [eauto | congruence].
  - destruct (filter _ (stopping m)) as [|sc rest]; [discriminate |].
    destruct (deadline sc <=? now m); [| discriminate]. inversion Hstep; subst m'.
    unfold stop_timeout in Hin. simpl in Hin.
    apply in_app_or in Hin as [Hin | [Hin | []]]; [| congruence].
    destruct (process (self m)) as [p|]; [destruct (killed p) |]; simpl in Hin; eauto.
  - destruct (0 <=? ms); [| discriminate]. inversion Hstep; subst m'. eauto.
Qed.

Lemma run_stops_resolved (events : list event) :
  forall m m', run m events = Some m' -> stops_resolved m -> stops_resolved m'.
Proof.
  induction events as [|e rest IH]; intros m m' Hrun Hinv; simpl in Hrun.
  - inversion Hrun; subst. exact Hinv.
  - destruct (step m e) as [m1|] eqn:Hstep; [| discriminate].
    eapply IH; [exact Hrun |]. eapply step_stops_resolved; eassumption.
Qed.

(** C5, amended.  [stop()] never rejects.  Without a process handle it
    resolves at once and leaves the object, the signals and the world as
    they are.  With a handle it sends SIGKILL immediately and nothing
    before it, and stays pending with a timer ten seconds ahead.  From then
    on, whatever else is dispatched, the exit event of that process
    resolves it without a further signal, and its timer resolves it after
    one more kill only if the handle is still set and not marked as killed;
    both leave process, port, base URL and ready flag cleared; the timer
    can always fire, so the call does resolve; and no call of [stop] is
    ever settled by a rejection. *)
Theorem stop_never_rejects (m : machine) (accepted : bool) :
  reachable m ->
  let m1 := stop accepted m in
  (process (self m) = None ->
   self m1 = self m /\ signals m1 = signals m /\ mworld m1 = mworld m
   /\ In (StopCall (next_stop m), Done tt) (settled m1))
  /\ (forall p,
        process (self m) = Some p ->
        signals m1 = (signals m ++ [(pid p, SIGKILL)])%list
        /\ In {| stop_id := next_stop m; on_pid := pid p; deadline := now m + 10000 |}
              (stopping m1)
        /\ settled m1 = settled m)
  /\ (forall events m2,
        run m1 events = Some m2 ->
        stops_resolved m2
        /\ forall sc,
            In sc (stopping m2) ->
            (forall code sig m3,
                step m2 (ChildExit (on_pid sc) code sig) = Some m3 ->
                cleared (self m3)
                /\ In (StopCall (stop_id sc), Done tt) (settled m3)
                /\ signals m3 = signals m2)
            /\ (forall m3,
                  step m2 (StopTimer (stop_id sc)) = Some m3 ->
                  cleared (self m3)
                  /\ In (StopCall (stop_id sc), Done tt) (settled m3)
                  /\ signals m3 = (signals m2 ++ fallback_kill (self m2))%list)
            /\ (exists ms m3,
                  run m2 [Tick ms; StopTimer (stop_id sc)] = Some m3
                  /\ cleared (self m3)
                  /\ In (StopCall (stop_id sc), Done tt) (settled m3))).
Proof.
  intros (jar & w & history & Hhistory) m1. subst m1.
  split; [| split].
  - intros Hp. destruct (stop_without_process accepted m Hp)
      as (Hself & Hsig & _ & _ & _ & Hw & Hset).
    repeat split; try assumption.
    rewrite Hset. apply in_or_app. right. left. reflexivity.
  - intros p Hp. destruct (stop_with_process accepted m p Hp)
      as (Hsig & Hstop & Hset & _).
    repeat split; try assumption.
    rewrite Hstop. apply in_or_app. right. left. reflexivity.
  - intros events m2 Hrun. split.
    + apply (run_stops_resolved events _ m2 Hrun).
      apply (step_stops_resolved m _ (CallStop accepted) eq_refl).
      apply (run_stops_resolved history (init jar w) m Hhistory).
      intros id r [].
    + intros sc Hsc. split; [| split].
      * intros code sig m3 Hstep. exact (stop_resolves_on_exit m2 m3 sc code sig Hsc Hstep).
      * intros m3 Hstep.
        destruct (stop_resolves_on_timer m2 m3 (stop_id sc) Hstep) as (Hc & Hin & Hsig & _).
        split; [exact Hc | split; [exact Hin | exact Hsig]].
      * exact (stop_timer_fires m2 sc Hsc).
Qed.

End StopProperties.

(** *** The output of the engine *)

Lemma split_on_no_sep (sep : ascii) (a : string) :
  has_char sep a = false -> split_on sep a = [a].
Proof.
  induction a as [|c a IH]; cbn; [reflexivity |].
  intros Hc. apply orb_false_iff in Hc as [Hc Ha].
  rewrite Hc, (IH Ha). reflexivity.
Qed.

Lemma split_on_sep (sep : ascii) (a b : string) :
  has_char sep a = false ->
  split_on sep (a ++ String sep b) = a :: split_on sep b.
Proof.
  induction a as [|c a IH].
  - intros _. change (EmptyString ++ String sep b) with (String sep b).
    cbn. rewrite Ascii.eqb_refl. reflexivity.
  - intros Hc. cbn in Hc. apply orb_false_iff in Hc as [Hc Ha].
    rewrite string_app_cons. cbn. rewrite Hc, (IH Ha). reflexivity.
Qed.

(** X1.  [checkForVersion] reads the word after the banner: on a line
    [FHIR Validation tool Version <v>], alone or followed by a blank and
    more text, an object without a version takes [v] as its version; an
    object that has a version keeps it whatever the line is; a line that
    does not start with the banner changes nothing. *)
Theorem checkForVersion_reads_banner (self : validator) (v tail line : string) :
  (truthy (version self) = false ->
   has_char " " v = false ->
   tail = EmptyString \/ (exists t, tail = String " " t) ->
   checkForVersion self ("FHIR Validation tool Version " ++ v ++ tail)
   = set_version (VStr v) self)
  /\ (truthy (version self) = true -> checkForVersion self line = self)
  /\ (startsWith line "FHIR Validation tool Version" = false ->
      checkForVersion self line = self).
Proof.
  split; [| split].
  - intros Hnone Hv Htail. unfold checkForVersion. rewrite Hnone.
    cbn [negb].
    assert (Hstart : startsWith ("FHIR Validation tool Version " ++ v ++ tail)
                       "FHIR Validation tool Version" = true) by reflexivity.
    rewrite Hstart.
    assert (Hlast : exists rest, split_on " " (v ++ tail) = v :: rest).
    { destruct Htail as [-> | [t ->]].
      - exists []. rewrite string_app_nil_r. apply split_on_no_sep. exact Hv.
      - eexists. apply split_on_sep. exact Hv. }
    destruct Hlast as [rest Hlast].
    assert (Hparts : split_on " " ("FHIR Validation tool Version " ++ v ++ tail)
                     = "FHIR" :: "Validation" :: "tool" :: "Version" :: v :: rest).
    { change ("FHIR Validation tool Version " ++ v ++ tail)
        with ("FHIR" ++ String " " ("Validation" ++ String " "
                ("tool" ++ String " " ("Version" ++ String " " (v ++ tail))))).
      rewrite !split_on_sep by reflexivity. rewrite Hlast. reflexivity. }
    cbv zeta. rewrite Hparts. reflexivity.
  - intros Hknown. unfold checkForVersion. rewrite Hknown. reflexivity.
  - intros Hother. unfold checkForVersion. rewrite Hother.
    destruct (negb (truthy (version self))); reflexivity.
Qed.


Lemma strip_ansi_cons (c : ascii) (rest : string) :
  strip_ansi (String c rest)
  = match match_sgr (String c rest) with
    | Some after => strip_ansi after
    | None => String c (strip_ansi rest)
    end.
Proof.
  simp strip_ansi. unfold inspect.
  assert (Hclause : forall (o : option string) (e : match_sgr (String c rest) = o),
             strip_ansi_unfold_clause_2 c rest (exist _ o e)
             = match o with
               | Some after => strip_ansi after
               | None => String c (strip_ansi rest)
               end).
  { intros [after|] e; reflexivity. }
  apply Hclause.
Qed.

(** X2.  Removing the colour codes leaves a text without escape character
    as it is, drops a colour sequence (escape, bracket, digits and
    semicolons, [m]) in front of any text, and never makes a text
    longer. *)
Theorem strip_ansi_removes_colours (s params : string) :
  (has_char escape_char s = false -> strip_ansi s = s)
  /\ (all_sgr_params params = true ->
      strip_ansi (String escape_char (String "[" (params ++ String "m" s)))
      = strip_ansi s)
  /\ (String.length (strip_ansi s) <= String.length s)%nat.
Proof.
  split; [| split].
  - induction s as [|c s IH]; [reflexivity |].
    cbn. intros Hc. apply orb_false_iff in Hc as [Hc Hs].
    rewrite strip_ansi_cons.
    assert (Hno : match_sgr (String c s) = None).
    { destruct s as [|c2 s]; [reflexivity |]. cbn. rewrite Hc. reflexivity. }
    rewrite Hno, (IH Hs). reflexivity.
  - intros Hparams. rewrite strip_ansi_cons.
    assert (Hskip : skip_params (params ++ String "m" s) = String "m" s).
    { induction params as [|p params IH]; [reflexivity |].
      cbn in Hparams. apply andb_prop in Hparams as [Hp Hrest].
      rewrite string_app_cons. cbn. rewrite Hp. exact (IH Hrest). }
    cbn. rewrite Ascii.eqb_refl. cbn. rewrite Hskip. reflexivity.
  - remember (String.length s) as n eqn:Hn.
    revert s Hn. induction n as [n IH] using lt_wf_ind. intros s Hn.
    destruct s as [|c s]; [simp strip_ansi; cbn; lia |].
    rewrite strip_ansi_cons.
    destruct (match_sgr (String c s)) as [after|] eqn:Hm.
    + assert (Hlen : (String.length after < String.length (String c s))%nat).
      { destruct s as [|c2 rest]; cbn in Hm; [discriminate |].
        destruct (Ascii.eqb c escape_char && Ascii.eqb c2 "["); [| discriminate].
        assert (Hskip : forall t, (String.length (skip_params t) <= String.length t)%nat).
        { induction t as [|d t IHt]; cbn; [lia |].
          destruct (is_sgr_param d); cbn; lia. }
        specialize (Hskip rest).
        destruct (skip_params rest) as [|c3 tail]; [discriminate |].
        destruct (Ascii.eqb c3 "m"); [| discriminate].
        inversion Hm; subst. cbn in *. lia. }
      specialize (IH (String.length after) ltac:(lia) after eq_refl). lia.
    + cbn. specialize (IH (String.length s) ltac:(cbn in Hn; lia) s eq_refl).
      cbn in Hn. lia.
Qed.

Section EngineOutputProperties.
Context `{Runtime}.

Lemma checkForVersion_lifecycle (self : validator) (line : string) :
  same_lifecycle (checkForVersion self line) self
  /\ validatorJarPath (checkForVersion self line) = validatorJarPath self
  /\ (truthy (version self) = true ->
      version (checkForVersion self line) = version self).
Proof.
  unfold checkForVersion.
  destruct (truthy (version self)); cbn [negb].
  - repeat split.
  - destruct (startsWith line _); repeat split; discriminate.
Qed.

Lemma on_lines_keep_state (lines : list string) :
  forall self w,
    let end_ := fold_left on_line lines (self, w) in
    same_lifecycle end_.1 self
    /\ validatorJarPath end_.1 = validatorJarPath self
    /\ (truthy (version self) = true -> version end_.1 = version self)
    /\ fs end_.2 = fs w /\ requests end_.2 = requests w
    /\ logged end_.2
       = (logged w
          ++ map (fun line => ("info", ("Validator: " ++ trim (strip_ansi line))%string))
               (filter (fun line =>
                          (1 <? js_length (trim (strip_ansi line)))%nat = true)
                       lines))%list.
Proof.
  induction lines as [|line lines IH]; intros self w.
  - cbn. rewrite app_nil_r. repeat split.
  - cbn [fold_left].
    assert (Hstep : on_line (self, w) line
                    = if (1 <? js_length (trim (strip_ansi line)))%nat
                      then (checkForVersion self (trim (strip_ansi line)),
                            add_log "info" ("Validator: " ++ trim (strip_ansi line)) w)
                      else (self, w)) by reflexivity.
    rewrite Hstep. clear Hstep. rewrite filter_cons.
    destruct (1 <? js_length (trim (strip_ansi line)))%nat eqn:Hlong.
    + specialize (IH (checkForVersion self (trim (strip_ansi line)))
                    (add_log "info" ("Validator: " ++ trim (strip_ansi line)) w)).
      cbv zeta in IH. unfold same_lifecycle in *.
      destruct IH as ((Hp & Hpo & Hb & Hr) & Hjar & Hver & Hfs & Hreq & Hlog).
      destruct (checkForVersion_lifecycle self (trim (strip_ansi line)))
        as ((Hp' & Hpo' & Hb' & Hr') & Hjar' & Hver').
      cbv zeta. rewrite decide_True by reflexivity.
      rewrite Hp, Hpo, Hb, Hr, Hjar, Hfs, Hreq, Hlog.
      split; [repeat split; assumption |].
      split; [assumption |].
      split.
      { intros Ht. rewrite Hver; [apply Hver'; exact Ht |].
        rewrite (Hver' Ht). exact Ht. }
      split; [reflexivity |]. split; [reflexivity |].
      cbn. rewrite <- app_assoc. reflexivity.
    + specialize (IH self w). cbv zeta in IH. cbv zeta.
      rewrite decide_False by discriminate. exact IH.
Qed.

(** X3.  Whatever the engine prints, the handler of its standard output
    leaves the process handle, the port, the base URL, the ready flag and
    the JAR path alone, touches no file and sends no request; it keeps a
    version that is already known; and it logs one line for every output
    line that, without colour codes and trimmed, has a [length] above
    one. *)
Theorem on_stdout_keeps_state (data : list Byte.byte) (self : validator) (w : world) :
  same_lifecycle (on_stdout data self w).1 self
  /\ validatorJarPath (on_stdout data self w).1 = validatorJarPath self
  /\ (truthy (version self) = true -> version (on_stdout data self w).1 = version self)
  /\ fs (on_stdout data self w).2 = fs w
  /\ requests (on_stdout data self w).2 = requests w
  /\ logged (on_stdout data self w).2
     = (logged w
        ++ map (fun line => ("info", ("Validator: " ++ trim (strip_ansi line))%string))
             (filter (fun line =>
                        (1 <? js_length (trim (strip_ansi line)))%nat = true)
                     (split_on newline_char (utf8_decode data))))%list.
Proof.
  unfold on_stdout.
  exact (on_lines_keep_state (split_on newline_char (utf8_decode data)) self w).
Qed.

End EngineOutputProperties.

(** *** The validation client, further *)

Section ClientOutcomes.
Context `{Runtime}.

(** The promise behind [validate] and [loadIG], by the answer of the
    engine. *)
Lemma post_and_parse_outcome (address : string) (headers : list (string * string))
    (body : list Byte.byte) (timeout_message : string) (w : world) (u : url) :
  URL_parse address = Ok u ->
  let r := {| req_module := "http"; req_method := "POST";
              req_target := ByOptions (hostname u) (url_port u) (pathname u ++ search u);
              req_headers := headers; req_body := body |} in
  post_and_parse address headers body timeout_message w
  = (match api (outside w) r with
     | ReqError e => Fail e
     | ReqTimeout => Fail (Error timeout_message)
     | Reply _ data =>
         match JSON_parse data with
         | Ok v => Done v
         | Throw e => Fail (Error ("Failed to parse response: " ++ message e
                                   ++ newline ++ "Response: " ++ data))
         end
     end, add_request r w).
Proof.
  intros Hurl r. unfold post_and_parse, bind, lift, send, try_catch, throw.
  rewrite Hurl. fold r.
  destruct (api (outside w) r) as [e| |status data]; try reflexivity.
  destruct (JSON_parse data); reflexivity.
Qed.

(** X4.  On a ready object, [validate] sends one request and settles by
    the answer alone: a transport error rejects with that error, the
    timer with [Validation request timeout]; a response resolves with the
    parsed body whenever the body parses, whatever its status code, and
    rejects with a message quoting the body when it does not. *)
Theorem validate_outcome (self : validator) (resource : value)
    (options : validate_options) (w : world) (u : url)
    (bytes : list Byte.byte) (contentType : string) :
  isReady self = true ->
  convert_resource resource = Ok (bytes, contentType) ->
  URL_parse (show_baseUrl self ++ "/validateResource?"
             ++ query_toString (validate_query options)) = Ok u ->
  validate self resource options w
  = (match api (outside w) (validate_request u bytes contentType) with
     | ReqError e => Fail e
     | ReqTimeout => Fail (Error "Validation request timeout")
     | Reply status data =>
         match JSON_parse data with
         | Ok v => Done v
         | Throw e => Fail (Error ("Failed to parse response: " ++ message e
                                   ++ newline ++ "Response: " ++ data))
         end
     end, add_request (validate_request u bytes contentType) w).
Proof.
  intros Hready Hconv Hurl. unfold validate. rewrite Hready. cbn [negb].
  unfold bind at 1. unfold lift at 1. rewrite Hconv.
  rewrite (post_and_parse_outcome _ _ _ _ w u Hurl). reflexivity.
Qed.

(** X5.  On a ready object, a resource that is neither a string, a Buffer
    nor an object (a number, a boolean, [undefined]) makes [validate]
    reject with its own error before anything is sent. *)
Theorem validate_rejects_other_types (self : validator) (resource : value)
    (options : validate_options) (w : world) :
  isReady self = true ->
  typeof resource <> "string" ->
  typeof resource <> "object" ->
  validate self resource options w
  = (Fail (Error "Resource must be a string, Buffer, or object"), w).
Proof.
  intros Hready Hs Ho. unfold validate. rewrite Hready.
  destruct resource; cbn in Hs, Ho; try congruence; reflexivity.
Qed.

(** X6.  On a ready object, [runTxTest] with one of [server],
    [suiteName], [testName], [version] missing or empty rejects with the
    error naming the four, and nothing is sent. *)
Theorem runTxTest_requires_params (self : validator) (params : tx_params) (w : world) :
  isReady self = true ->
  tx_required params = false ->
  runTxTest self params w
  = (Fail (Error "server, suiteName, testName, and version are required"), w).
Proof.
  intros Hready Hreq. unfold runTxTest. rewrite Hready. cbn [negb].
  unfold tx_required in Hreq.
  destruct (truthy (server params)), (truthy (suiteName params)),
    (truthy (testName params)), (truthy (tx_version params));
    cbn in *; try discriminate; reflexivity.
Qed.

(** X7.  On a ready object, [loadIG] sends one POST without body, with
    the package id and the version as its two query parameters, and
    settles as [validate] does: the parsed body whatever the status, the
    transport error, the timeout error [Load IG request timeout], or the
    parse failure. *)
Theorem loadIG_outcome (self : validator) (packageId ver : value) (w : world) (u : url) :
  isReady self = true ->
  URL_parse (show_baseUrl self ++ "/loadIG?"
             ++ query_toString [("packageId", to_string packageId);
                                ("version", to_string ver)]) = Ok u ->
  loadIG self packageId ver w
  = (match api (outside w) (loadIG_request u) with
     | ReqError e => Fail e
     | ReqTimeout => Fail (Error "Load IG request timeout")
     | Reply status data =>
         match JSON_parse data with
         | Ok v => Done v
         | Throw e => Fail (Error ("Failed to parse response: " ++ message e
                                   ++ newline ++ "Response: " ++ data))
         end
     end, add_request (loadIG_request u) w).
Proof.
  intros Hready Hurl. unfold loadIG. rewrite Hready. cbn [negb].
  rewrite (post_and_parse_outcome _ _ _ _ w u Hurl). reflexivity.
Qed.

End ClientOutcomes.

(** X8.  The query of [validate] names each parameter at most once and in
    the fixed order; it is empty when no option is given; a parameter
    other than [profiles] is never sent with an empty value; and
    [anyExtensionsAllowed: false] is sent, as the text [false], not
    dropped. *)
Theorem validate_query_shape (options : validate_options) :
  sublist (map fst (validate_query options)) validate_keys
  /\ (profiles options = None -> resourceIdRule options = None ->
      anyExtensionsAllowed options = None -> bpWarnings options = None ->
      displayOption options = None -> validate_query options = [])
  /\ (forall k v, In (k, v) (validate_query options) ->
                  k <> "profiles" -> v <> EmptyString)
  /\ (forall b, anyExtensionsAllowed options = Some b ->
                In ("anyExtensionsAllowed", if b then "true" else "false")
                   (validate_query options)).
Proof.
  assert (Hgiven : forall o s, given o = Some s -> s <> EmptyString).
  { intros [t|] s; cbn; [| discriminate].
    destruct (String.eqb t EmptyString) eqn:E; [discriminate |].
    intros Heq. inversion Heq; subst. intros ->. discriminate. }
  unfold validate_query, validate_keys.
  destruct options as [pr rule ext bp disp]; cbn [profiles resourceIdRule
    anyExtensionsAllowed bpWarnings displayOption].
  split; [| split; [| split]].
  - destruct pr as [[|p ps]|], (given rule), ext, (given bp), (given disp);
      cbn; repeat constructor.
  - intros -> -> -> -> ->. reflexivity.
  - intros k v Hin Hk.
    pose proof (Hgiven rule) as Hrule. pose proof (Hgiven bp) as Hbp.
    pose proof (Hgiven disp) as Hdisp.
    apply in_app_or in Hin as [Hin | Hin].
    { destruct pr as [[|p ps]|]; cbn in Hin; try contradiction.
      destruct Hin as [Heq | []]. inversion Heq; subst. contradiction. }
    apply in_app_or in Hin as [Hin | Hin].
    { destruct (given rule) as [r|]; cbn in Hin; [| contradiction].
      destruct Hin as [Heq | []]. inversion Heq; subst. apply Hrule. reflexivity. }
    apply in_app_or in Hin as [Hin | Hin].
    { destruct ext as [[|]|]; cbn in Hin; try contradiction;
        destruct Hin as [Heq | []]; inversion Heq; subst; discriminate. }
    apply in_app_or in Hin as [Hin | Hin].
    { destruct (given bp) as [r|]; cbn in Hin; [| contradiction].
      destruct Hin as [Heq | []]. inversion Heq; subst. apply Hbp. reflexivity. }
    destruct (given disp) as [r|]; cbn in Hin; [| contradiction].
    destruct Hin as [Heq | []]. inversion Heq; subst. apply Hdisp. reflexivity.
  - intros b ->. apply in_or_app. right. apply in_or_app. right.
    apply in_or_app. left. left. reflexivity.
Qed.

(** *** The artifact manager, further *)

Section ReleaseProperties.
Context `{Runtime}.

Lemma asset_pred_spec (a : value) :
  nullish a = false -> asset_pred a = Ok (asset_named a).
Proof.
  unfold asset_pred, asset_named.
  destruct a; cbn; try discriminate; intros _;
    try reflexivity; destruct (String.eqb _ _); reflexivity.
Qed.

Lemma find_first_asset (pre post : list value) (a : value) :
  Forall (fun x => nullish x = false /\ asset_named x = false) pre ->
  asset_named a = true ->
  find_item asset_pred (pre ++ a :: post) = Ok a.
Proof.
  intros Hpre Ha. induction Hpre as [|x pre [Hx Hne] _ IH]; cbn.
  - assert (Hn : nullish a = false).
    { destruct a; try reflexivity; discriminate. }
    rewrite (asset_pred_spec a Hn), Ha. reflexivity.
  - rewrite (asset_pred_spec x Hx), Hne. cbn. exact IH.
Qed.

Lemma find_no_asset (items : list value) :
  Forall (fun x => nullish x = false /\ asset_named x = false) items ->
  find_item asset_pred items = Ok VUndefined.
Proof.
  induction 1 as [|x items [Hx Hne] _ IH]; cbn; [reflexivity |].
  rewrite (asset_pred_spec x Hx), Hne. cbn. exact IH.
Qed.

(** [getLatestRelease] sends its one request and does nothing else to the
    world. *)
Lemma getLatestRelease_world (w : world) :
  (getLatestRelease w).2 = add_request github_request w.
Proof.
  unfold getLatestRelease, bind, send, throw, try_catch, lift, ret.
  destruct (api (outside w) github_request) as [e| |status data]; try reflexivity.
  destruct (negb (status =? 200)); [reflexivity |].
  destruct (JSON_parse data) as [release|e]; [| reflexivity].
  destruct (get_prop release "tag_name") as [tag|e]; [| reflexivity].
  destruct (get_prop release "assets") as [assets|e]; [| reflexivity].
  cbn.
  destruct (call_find "release.assets" assets _) as [asset|e]; [| reflexivity].
  cbn. destruct (negb (truthy asset)); [reflexivity |]. cbn.
  destruct (get_prop asset "browser_download_url") as [u|e]; [| reflexivity].
  cbn. destruct (get_prop release "published_at"); reflexivity.
Qed.

(** Its result depends on the servers only. *)
Lemma getLatestRelease_by_outside (w w0 : world) :
  outside w = outside w0 -> (getLatestRelease w).1 = (getLatestRelease w0).1.
Proof.
  intros Hout. unfold getLatestRelease, bind, send. rewrite Hout.
  destruct (api (outside w0) github_request) as [e| |status data]; try reflexivity.
  destruct (negb (status =? 200)); [reflexivity |].
  unfold try_catch, lift, bind, ret, throw.
  destruct (JSON_parse data) as [release|e]; [| reflexivity].
  destruct (get_prop release "tag_name") as [tag|e]; [| reflexivity].
  destruct (get_prop release "assets") as [assets|e]; [| reflexivity].
  cbn.
  destruct (call_find "release.assets" assets _) as [asset|e]; [| reflexivity].
  cbn. destruct (negb (truthy asset)); [reflexivity |]. cbn.
  destruct (get_prop asset "browser_download_url") as [u|e]; [| reflexivity].
  cbn. destruct (get_prop release "published_at"); reflexivity.
Qed.

(** X9.  [getLatestRelease] sends exactly one request, to the release
    index, and touches nothing else.  A transport error rejects with that
    error, the timer with [GitHub API request timeout], a status other than
    200 with the status and the body, a body that does not parse with
    [Failed to parse GitHub response].  With status 200 and an asset list,
    it resolves with the tag, the download URL of the first asset named
    [validator_cli.jar] and the publication date, and rejects with
    [validator_cli.jar not found] when no asset has that name. *)
Theorem getLatestRelease_outcome (w : world) :
  (getLatestRelease w).2 = add_request github_request w
  /\ (forall e, api (outside w) github_request = ReqError e ->
                (getLatestRelease w).1 = Fail e)
  /\ (api (outside w) github_request = ReqTimeout ->
      (getLatestRelease w).1 = Fail (Error "GitHub API request timeout"))
  /\ (forall status data,
        api (outside w) github_request = Reply status data ->
        (status <> 200 ->
         (getLatestRelease w).1
         = Fail (Error ("GitHub API returned status " ++ pretty status ++ ": " ++ data)))
        /\ (forall e,
              status = 200 -> JSON_parse data = Throw e ->
              (getLatestRelease w).1
              = Fail (Error ("Failed to parse GitHub response: " ++ message e)))
        /\ (forall fields pre asset post,
              status = 200 -> JSON_parse data = Ok (VObj fields) ->
              lookup_field "assets" fields = VArr (pre ++ VObj asset :: post) ->
              Forall (fun x => nullish x = false /\ asset_named x = false) pre ->
              asset_named (VObj asset) = true ->
              (getLatestRelease w).1
              = Done {| rel_version := lookup_field "tag_name" fields;
                        rel_downloadUrl := lookup_field "browser_download_url" asset;
                        rel_publishedAt := lookup_field "published_at" fields |})
        /\ (forall fields items,
              status = 200 -> JSON_parse data = Ok (VObj fields) ->
              lookup_field "assets" fields = VArr items ->
              Forall (fun x => nullish x = false /\ asset_named x = false) items ->
              (getLatestRelease w).1
              = Fail (Error "validator_cli.jar not found in latest release assets"))).
Proof.
  split; [apply getLatestRelease_world |].
  unfold getLatestRelease, bind, send.
  split; [intros e ->; reflexivity |].
  split; [intros ->; reflexivity |].
  intros status data ->. cbn [fst].
  split; [| split; [| split]].
  - intros Hs. destruct (status =? 200) eqn:E; [apply Z.eqb_eq in E; contradiction |].
    reflexivity.
  - intros e -> Hparse. cbn. unfold try_catch, lift, bind. rewrite Hparse. reflexivity.
  - intros fields pre asset post -> Hparse Hassets Hpre Hnamed. cbn.
    unfold try_catch, lift, bind, ret. rewrite Hparse. cbn. rewrite Hassets. cbn.
    fold asset_pred. rewrite (find_first_asset pre post (VObj asset) Hpre Hnamed).
    reflexivity.
  - intros fields items -> Hparse Hassets Hitems. cbn.
    unfold try_catch, lift, bind, ret. rewrite Hparse. cbn. rewrite Hassets. cbn.
    fold asset_pred. rewrite (find_no_asset items Hitems). reflexivity.
Qed.

End ReleaseProperties.

Section EnsureFiles.
Context `{Runtime}.

Lemma sidecar_path_differs (jar : string) :
  jar ++ ".version" <> jar /\ jar ++ ".version" <> jar ++ ".download".
Proof.
  split.
  - intros Heq. apply (f_equal String.length) in Heq.
    rewrite string_length_app in Heq. cbn in Heq. lia.
  - intros Heq. apply String.app_inj in Heq. discriminate.
Qed.

Lemma saveVersionInfo_cases (self : validator) (ver downloadUrl : value) (w : world) :
  (saveVersionInfo self ver downloadUrl w
   = (Done tt,
      set_fs (<[versionFilePath self :=
                  File (utf8_encode
                          (JSON_stringify
                             (version_record ver downloadUrl (now_iso (outside w))) 2))]>) w))
  \/ (exists e, saveVersionInfo self ver downloadUrl w = (Fail e, w)).
Proof.
  unfold saveVersionInfo, writeFileSync, version_record.
  destruct (fs w !! versionFilePath self) as [[content| |]|]; eauto.
Qed.

Lemma ensureValidator_post (self : validator) (options : ensure_options) (w : world) :
  versionFilePath self = validatorJarPath self ++ ".version" ->
  ensure_post self w (ensureValidator self options w).
Proof.
  intros Hside.
  destruct (sidecar_path_differs (validatorJarPath self)) as [Hne1 Hne2].
  rewrite <- Hside in Hne1, Hne2.
  destruct (getInstalledVersion_quiet self w)
    as (installed & w1 & Hinst & Hfs1 & Hreq1 & Hout1).
  unfold ensureValidator. unfold bind at 1. unfold existsSync at 1.
  unfold bind at 1. rewrite Hinst.
  set (jarExists := match fs w !! validatorJarPath self with
                    | Some _ => true | None => false end).
  destruct (jarExists && skipUpdateCheck options && negb (force options)) eqn:Hskip.
  { cbn. split; [exact Hout1 |]. split; [intros; rewrite Hfs1; reflexivity |].
    split; [exact Hfs1 |].
    apply andb_prop in Hskip as [Hskip _]. apply andb_prop in Hskip as [Hskip _].
    subst jarExists. destruct (fs w !! validatorJarPath self); [discriminate | discriminate]. }
  unfold bind at 1. unfold log at 1. unfold bind at 1.
  pose proof (getLatestRelease_world
                (add_log "info" "Checking for latest FHIR validator release..." w1)) as Hlw.
  pose proof (getLatestRelease_by_outside
                (add_log "info" "Checking for latest FHIR validator release..." w1) w
                Hout1) as Hsame.
  destruct (getLatestRelease
              (add_log "info" "Checking for latest FHIR validator release..." w1))
    as [[latest|e|e] w2]; cbn in Hlw, Hsame; subst w2;
    try (cbn; split; [exact Hout1 |];
         split; [intros; rewrite Hfs1; reflexivity | rewrite Hfs1; reflexivity]).
  unfold bind at 1. unfold log at 1.
  destruct (negb (force options || negb jarExists || negb (truthy installed)
                  || negb (strict_eq installed (rel_version latest)))) eqn:Hneeds.
  { cbn. split; [exact Hout1 |]. split; [intros; rewrite Hfs1; reflexivity |].
    split; [exact Hfs1 |].
    apply negb_true_iff in Hneeds.
    apply orb_false_iff in Hneeds as [Hneeds _].
    apply orb_false_iff in Hneeds as [Hneeds _].
    apply orb_false_iff in Hneeds as [_ Hjar].
    subst jarExists. destruct (fs w !! validatorJarPath self); [discriminate | discriminate]. }
  unfold bind at 1.
  match goal with
  | |- ensure_post _ _
         (match (if ?c then log ?l ?a else log ?l ?b) ?w0 with _ => _ end) =>
      assert (Hlog : (if c then log l a else log l b) w0
                     = (Done tt, add_log l (if c then a else b) w0))
        by (destruct c; reflexivity);
      rewrite Hlog; clear Hlog;
      set (w3 := add_log l (if c then a else b) w0)
  end.
  assert (Hfs3 : fs w3 = fs w) by exact Hfs1.
  assert (Hout3 : outside w3 = outside w) by exact Hout1.
  unfold bind at 1.
  pose proof (downloadWithRedirects_effect 6 (validatorJarPath self)
                (to_string (rel_downloadUrl latest)) 0 w3) as Hdl.
  unfold download_post in Hdl. unfold downloadFile.
  destruct (downloadWithRedirects (validatorJarPath self)
              (to_string (rel_downloadUrl latest)) 0 w3) as [r4 w4].
  destruct Hdl as (Hout4 & Hother4 & Hdest4); [cbn; lia |].
  destruct r4 as [[]|e|e].
  2,3: cbn; (split; [congruence |]);
       (split; [intros p Hp Ht Hs; rewrite (Hother4 p Hp Ht); rewrite Hfs3; reflexivity |]);
       rewrite (Hother4 _ Hne1 Hne2), Hfs3; reflexivity.
  destruct Hdest4 as (k & v & parsed & location & contentLength & chunks
                      & _ & _ & _ & _ & _ & Hjar4 & _).
  unfold bind at 1.
  destruct (saveVersionInfo_cases self (rel_version latest) (rel_downloadUrl latest) w4)
    as [Hsave | [e Hsave]]; rewrite Hsave.
  - cbn. split; [congruence |].
    split.
    { intros p Hp Ht Hs. rewrite lookup_insert_ne by congruence.
      rewrite (Hother4 p Hp Ht), Hfs3. reflexivity. }
    split.
    + exists (concat chunks). rewrite lookup_insert_ne by congruence. exact Hjar4.
    + exists latest. split; [symmetry; exact Hsame |]. split; [reflexivity |].
      rewrite lookup_insert_eq. rewrite Hout4, Hout3. reflexivity.
  - cbn. split; [congruence |].
    split; [intros p Hp Ht Hs; rewrite (Hother4 p Hp Ht), Hfs3; reflexivity |].
    rewrite (Hother4 _ Hne1 Hne2), Hfs3. reflexivity.
Qed.


(** X11.  When [ensureValidator] on an object made by the constructor
    reports [downloaded: true], a JAR file is in place and the sidecar
    holds the record of the very version it reports, stamped with the
    current time. *)
Theorem ensureValidator_records_download (jar : string) (options : ensure_options)
    (w : world) (result : ensure_result) :
  (ensureValidator (constructor jar) options w).1 = Done result ->
  downloaded result = true ->
  let w' := (ensureValidator (constructor jar) options w).2 in
  (exists payload, fs w' !! jar = Some (File payload))
  /\ (exists downloadUrl,
         fs w' !! (jar ++ ".version")
         = Some (File (utf8_encode
                         (JSON_stringify
                            (version_record (res_version result) downloadUrl
                               (now_iso (outside w))) 2)))).
Proof.
  intros Hrun Hd w'. subst w'.
  pose proof (ensureValidator_post (constructor jar) options w eq_refl) as Hpost.
  unfold ensure_post in Hpost.
  destruct (ensureValidator (constructor jar) options w) as [r w']. cbn [fst snd] in *.
  subst r. destruct Hpost as (_ & _ & Hr). rewrite Hd in Hr.
  destruct Hr as (Hjar & latest & _ & Hver & Hrecord).
  split; [exact Hjar |]. exists (rel_downloadUrl latest). rewrite Hver. exact Hrecord.
Qed.

End EnsureFiles.

Section VersionRecord.
Context `{Runtime}.

(** X12.  What [saveVersionInfo] writes, [getInstalledVersion] reads
    back: provided the runtime decodes the bytes it encoded and parses the
    text it serialised for this record, the installed version after a
    successful save is the version saved. *)
Theorem version_record_round_trip (self : validator) (ver downloadUrl : value)
    (w w' : world) :
  let record := version_record ver downloadUrl (now_iso (outside w)) in
  utf8_decode (utf8_encode (JSON_stringify record 2)) = JSON_stringify record 2 ->
  JSON_parse (JSON_stringify record 2) = Ok record ->
  saveVersionInfo self ver downloadUrl w = (Done tt, w') ->
  getInstalledVersion self w' = (Done ver, w').
Proof.
  intros record Hcodec Hparse Hsave.
  pose proof (saveVersionInfo_persists self ver downloadUrl w w' Hsave) as Hfile.
  rewrite getInstalledVersion_cases. rewrite Hfile.
  fold (version_record ver downloadUrl (now_iso (outside w))). fold record.
  rewrite Hcodec, Hparse. reflexivity.
Qed.

(** X13.  A second call changes nothing.  After a call of
    [ensureValidator] that reported [downloaded: true] with a non-empty
    tag, and with a runtime that reads back the record written for the
    release it found, any further call without [force], while the release
    index still announces that release, resolves with the same version,
    [downloaded: false] and [updated: false], and leaves every file as it
    is. *)
Theorem ensureValidator_second_call (jar tag : string)
    (options1 options2 : ensure_options) (w : world) (result : ensure_result) :
  let self := constructor jar in
  let w1 := (ensureValidator self options1 w).2 in
  (ensureValidator self options1 w).1 = Done result ->
  downloaded result = true ->
  res_version result = VStr tag ->
  tag <> EmptyString ->
  (forall latest,
      (getLatestRelease w).1 = Done latest ->
      let record := version_record (VStr tag) (rel_downloadUrl latest)
                      (now_iso (outside w)) in
      utf8_decode (utf8_encode (JSON_stringify record 2)) = JSON_stringify record 2
      /\ JSON_parse (JSON_stringify record 2) = Ok record) ->
  force options2 = false ->
  (ensureValidator self options2 w1).1
  = Done {| res_version := VStr tag; updated := false; downloaded := false |}
  /\ fs (ensureValidator self options2 w1).2 = fs w1.
Proof.
  intros self w1 Hrun Hd Hver Htag Hrt Hforce. subst w1.
  pose proof (ensureValidator_post self options1 w eq_refl) as Hpost.
  unfold ensure_post in Hpost.
  destruct (ensureValidator self options1 w) as [r w1]. cbn [fst snd] in *.
  subst r. rewrite Hd in Hpost.
  destruct Hpost as (Hout & _ & (payload & Hjar) & latest & Hlatest & Hlv & Hrecord).
  rewrite Hver in Hlv.
  destruct (Hrt latest Hlatest) as [Hcodec Hparse]. cbv zeta in Hcodec, Hparse.
  assert (Htruthy : truthy (VStr tag) = true).
  { cbn. destruct (String.eqb tag EmptyString) eqn:E; [| reflexivity].
    apply String.eqb_eq in E. contradiction. }
  assert (Hinst : getInstalledVersion self w1 = (Done (VStr tag), w1)).
  { rewrite getInstalledVersion_cases. rewrite Hrecord. rewrite <- Hlv.
    rewrite Hcodec, Hparse. reflexivity. }
  destruct (skipUpdateCheck options2) eqn:Hskip.
  - destruct (ensureValidator_skips self options2 w1 w1 (File payload) (VStr tag)
                Hjar Hskip Hforce Hinst) as [Heq _].
    rewrite Heq. cbn [fst snd]. unfold js_or. rewrite Htruthy. split; reflexivity.
  - pose proof (ensureValidator_checks self options2 w1 w1
                  (add_request github_request
                     (add_log "info" "Checking for latest FHIR validator release..." w1))
                  (VStr tag) latest) as Hchecks.
    cbv zeta in Hchecks. cbn [validatorJarPath self constructor] in Hchecks, Hjar.
    rewrite Hjar in Hchecks. rewrite Hskip, Hforce in Hchecks.
    destruct Hchecks as [Hno _]; [reflexivity | exact Hinst | |].
    { rewrite (surjective_pairing (getLatestRelease _)).
      rewrite getLatestRelease_world.
      rewrite (getLatestRelease_by_outside
                 (add_log "info" "Checking for latest FHIR validator release..." w1)
                 w Hout), Hlatest. reflexivity. }
    rewrite Hno.
    + split; reflexivity.
    + rewrite <- Hlv. cbn. rewrite String.eqb_refl.
      cbn in Htruthy. rewrite Htruthy. reflexivity.
Qed.

End VersionRecord.

Section DownloadRequests.
Context `{Runtime}.

Lemma receive_requests (destPath : string) (status : Z) (contentLength : option Z)
    (chunks : list (list Byte.byte)) (ending : stream_end) (w : world) :
  requests (receive destPath status contentLength chunks ending w).2 = requests w.
Proof.
  exact (proj2 (proj1 (receive_effect destPath status contentLength chunks ending w))).
Qed.

Lemma downloadWithRedirects_requests (n : nat) :
  forall destPath downloadUrl redirectCount w,
    (Z.to_nat (6 - redirectCount) <= n)%nat ->
    exists extra,
      requests (downloadWithRedirects destPath downloadUrl redirectCount w).2
      = (requests w ++ extra)%list
      /\ (length extra <= Z.to_nat (6 - redirectCount))%nat
      /\ Forall (fun r => req_method r = "GET" /\ req_body r = []) extra.
Proof.
  induction n as [|n IH]; intros destPath downloadUrl redirectCount w Hn;
    rewrite downloadWithRedirects_step;
    destruct (5 <? redirectCount) eqn:Hc;
    try (exists []; cbn; rewrite app_nil_r; repeat split; [lia | constructor]);
    try lia.
  destruct (URL_parse downloadUrl) as [parsedUrl|e].
  2:{ exists []. cbn. rewrite app_nil_r. repeat split; [lia | constructor]. }
  cbv zeta.
  assert (Hone : forall (r : outcome unit),
             exists extra,
               requests (r, add_request (download_request parsedUrl downloadUrl) w).2
               = (requests w ++ extra)%list
               /\ (length extra <= Z.to_nat (6 - redirectCount))%nat
               /\ Forall (fun r => req_method r = "GET" /\ req_body r = []) extra).
  { intros r. exists [download_request parsedUrl downloadUrl]. cbn.
    repeat split; [lia | repeat constructor]. }
  destruct (downloads (outside w) downloadUrl)
    as [e| |status location contentLength chunks ending]; try apply Hone.
  destruct (redirect_to status location) as [loc|].
  - destruct (IH destPath loc (redirectCount + 1)
                (add_log "info" ("Following redirect to " ++ loc)
                   (add_request (download_request parsedUrl downloadUrl) w)))
      as (extra & Hreq & Hlen & Hget); [lia |].
    exists (download_request parsedUrl downloadUrl :: extra).
    rewrite Hreq. cbn. rewrite <- app_assoc. cbn.
    repeat split; [lia | constructor; [split; reflexivity | exact Hget]].
  - rewrite receive_requests. apply (Hone (Done tt)).
Qed.

(** X14.  One call of [downloadFile] sends at most six requests, the
    first location and up to five redirects; each of them is a GET without
    body, and the requests sent before are untouched. *)
Theorem downloadFile_request_bound (url destPath : string) (w : world) :
  exists extra,
    requests (downloadFile url destPath w).2 = (requests w ++ extra)%list
    /\ (length extra <= 6)%nat
    /\ Forall (fun r => req_method r = "GET" /\ req_body r = []) extra.
Proof.
  destruct (downloadWithRedirects_requests 6 destPath url 0 w) as (extra & Hreq & Hlen & Hget);
    [cbn; lia |].
  exists extra. unfold downloadFile. split; [exact Hreq |]. split; [| exact Hget].
  cbn in Hlen. lia.
Qed.

End DownloadRequests.

Section EnsureGuarantee.
Context `{Runtime}.

(** X15.  [ensureValidator] does what it is for: on an object made by the
    constructor, whenever it resolves, with or without a download, the JAR
    path exists. *)
Theorem ensureValidator_guarantees_jar (jar : string) (options : ensure_options)
    (w : world) (result : ensure_result) :
  (ensureValidator (constructor jar) options w).1 = Done result ->
  fs (ensureValidator (constructor jar) options w).2 !! jar <> None.
Proof.
  intros Hrun.
  pose proof (ensureValidator_post (constructor jar) options w eq_refl) as Hpost.
  unfold ensure_post in Hpost.
  destruct (ensureValidator (constructor jar) options w) as [r w']. cbn [fst snd] in *.
  subst r. destruct Hpost as (_ & _ & Hr).
  destruct (downloaded result).
  - destruct Hr as ((payload & Hjar) & _). cbn in Hjar. rewrite Hjar. discriminate.
  - destruct Hr as (-> & Hjar). exact Hjar.
Qed.


Lemma wait_loop_frame (startTime timeout : Z) (m : machine) :
  let m' := wait_loop startTime timeout m in
  self m' = self m /\ signals m' = signals m /\ children m' = children m
  /\ spawned m' = spawned m /\ next_pid m' = next_pid m
  /\ stopping m' = stopping m /\ fs (mworld m') = fs (mworld m).
Proof.
  unfold wait_loop. destruct (now m - startTime <? timeout).
  - destruct (URL_parse _); repeat split.
  - repeat split.
Qed.



Lemma run_invariant (P : machine -> Prop) :
  (forall m m' e, step m e = Some m' -> P m -> P m') ->
  forall events m m', run m events = Some m' -> P m -> P m'.
Proof.
  intros Hstep. induction events as [|e rest IH]; intros m m' Hrun Hm; cbn in Hrun.
  - inversion Hrun; subst. exact Hm.
  - destruct (step m e) as [m1|] eqn:He; [| discriminate].
    eapply IH; [exact Hrun |]. eapply Hstep; eassumption.
Qed.


End EnsureGuarantee.

Lemma stops_on_exit_frame (l : list stop_call) :
  forall m,
    children (fold_left stop_on_exit l m) = children m
    /\ next_pid (fold_left stop_on_exit l m) = next_pid m
    /\ starting (fold_left stop_on_exit l m) = starting m.
Proof.
  induction l as [|sc l IH]; intros m; cbn; [repeat split |].
  destruct (IH (stop_on_exit m sc)) as (Hc & Hn & Hs).
  rewrite Hc, Hn, Hs. repeat split.
Qed.

Section SupervisedProperties.
Context `{Runtime}.

Lemma step_keeps_supervised (m m' : machine) (e : event) :
  step m e = Some m' -> supervised m -> supervised m'.
Proof.
  intros Hstep (Hsig & Hhandle & Hchild).
  destruct e as [config|status| |p code sig|accepted|id|ms]; cbn in Hstep.
  - destruct (starting m); [discriminate |]. inversion Hstep; subst m'. clear Hstep.
    unfold start.
    assert (Hsame : supervised m -> forall r w,
               supervised (settle StartCall r (set_world w m))).
    { intros Hs r w. exact Hs. }
    assert (Hm : supervised m) by (split; [exact Hsig | split; assumption]).
    destruct (process (self m)) eqn:Hp; [exact Hm |].
    destruct (given (cfg_version config)); [| apply (Hsame Hm _ (mworld m))].
    destruct (given (txServer config)); [| apply (Hsame Hm _ (mworld m))].
    destruct (given (txLog config)); [| apply (Hsame Hm _ (mworld m))].
    destruct (ensure_jar config m) as [[[]|e|e] w]; try apply (Hsame Hm).
    match goal with
    | |- supervised (wait_loop ?s ?t ?m0) =>
        destruct (wait_loop_frame s t m0) as (Hself & Hsg & Hch & _ & Hnp & _ & _)
    end.
    cbv zeta in Hself, Hsg, Hch, Hnp. unfold supervised.
    rewrite Hself, Hsg, Hch, Hnp. cbn.
    split; [| split].
    + intros q sg Hin. destruct (Hsig q sg Hin) as [Hk Hlt]. split; [exact Hk | lia].
    + intros q Heq. inversion Heq; subst. cbn. apply in_or_app. right. left. reflexivity.
    + intros c Hin. apply in_app_or in Hin as [Hin | [<- | []]]; [| lia].
      specialize (Hchild c Hin). lia.
  - destruct (starting m) as [[s t|s t d]|]; try discriminate.
    inversion Hstep; subst m'. unfold probe_answer.
    destruct status as [code0|];
      [| split; [exact Hsig | split; [exact Hhandle | exact Hchild]]].
    destruct (code0 =? 405);
      split; try exact Hsig; split; try exact Hhandle; exact Hchild.
  - destruct (starting m) as [[s t|s t d]|]; try discriminate.
    destruct (d <=? now m); [| discriminate]. inversion Hstep; subst m'.
    destruct (wait_loop_frame s t m) as (Hself & Hsg & Hch & _ & Hnp & _ & _).
    cbv zeta in Hself, Hsg, Hch, Hnp. unfold supervised.
    rewrite Hself, Hsg, Hch, Hnp. split; [exact Hsig | split; assumption].
  - pose proof (exit_clears m m' p code sig) as Hclear. cbn in Hclear.
    destruct (bool_decide (p ∈ children m)); [| discriminate].
    specialize (Hclear Hstep). inversion Hstep; subst m'. clear Hstep.
    unfold on_exit in *.
    match goal with
    | |- supervised (fold_left stop_on_exit ?l ?m0) =>
        destruct (stops_on_exit l m0) as (_ & _ & _ & _ & Hsg & _);
        destruct (stops_on_exit_frame l m0) as (Hch & Hnp & _)
    end.
    unfold supervised. rewrite Hsg, Hch, Hnp. cbn.
    split; [exact Hsig |]. split.
    + intros q Hq. destruct Hclear as (Hnone & _). congruence.
    + intros c Hin. apply list_elem_of_In in Hin.
      apply list_elem_of_filter in Hin as [_ Hin]. apply list_elem_of_In in Hin.
      exact (Hchild c Hin).
  - inversion Hstep; subst m'. clear Hstep. unfold stop.
    destruct (process (self m)) as [pr|] eqn:Hp.
    + unfold supervised. cbn. unfold add_stop. rewrite Hp. cbn. rewrite Hp.
      split; [| split].
      * intros q s Hin. apply in_app_or in Hin as [Hin | [Heq | []]].
        -- exact (Hsig q s Hin).
        -- inversion Heq; subst. split; [reflexivity |].
           apply Hchild. apply Hhandle. reflexivity.
      * intros q Heq. inversion Heq; subst. cbn. apply Hhandle. reflexivity.
      * exact Hchild.
    + split; [exact Hsig | split; [| exact Hchild]].
      cbn. rewrite Hp. discriminate.
  - destruct (filter _ (stopping m)) as [|sc rest]; [discriminate |].
    destruct (deadline sc <=? now m); [| discriminate]. inversion Hstep; subst m'.
    unfold stop_timeout, supervised. cbn.
    split; [| split].
    + destruct (process (self m)) as [pr|] eqn:Hp; [destruct (killed pr) |]; cbn;
        try exact Hsig.
      intros q s Hin. apply in_app_or in Hin as [Hin | [Heq | []]].
      * exact (Hsig q s Hin).
      * inversion Heq; subst. split; [reflexivity |].
        apply Hchild. apply Hhandle. reflexivity.
    + discriminate.
    + destruct (process (self m)) as [pr|]; [destruct (killed pr) |]; exact Hchild.
  - destruct (0 <=? ms); [| discriminate]. inversion Hstep; subst m'.
    split; [exact Hsig | split; assumption].
Qed.

(** X18.  In every state the object can reach, every signal it has sent
    is a SIGKILL (never a graceful signal) addressed to a process it
    spawned itself, and a process handle it holds belongs to a spawned
    process whose exit event has not been dispatched yet. *)
Theorem reachable_supervised (m : machine) : reachable m -> supervised m.
Proof.
  intros (jar & w & events & Hrun).
  apply (run_invariant supervised step_keeps_supervised events (init jar w) m Hrun).
  split; [| split].
  - intros p s [].
  - cbn. discriminate.
  - intros c [].
Qed.


(** X20.  After the exit event of the engine, and after the timer of a
    pending [stop], the object is not running, and [validate], [loadIG]
    and [runTxTest] on it reject with the not-ready error without sending
    anything. *)
Theorem calls_after_exit_not_ready (m m' : machine) (e : event) :
  (exists p code sig, e = ChildExit p code sig) \/ (exists id, e = StopTimer id) ->
  step m e = Some m' ->
  isRunning (self m') = false
  /\ (forall resource options w,
         validate (self m') resource options w = (Fail not_ready, w))
  /\ (forall packageId ver w, loadIG (self m') packageId ver w = (Fail not_ready, w))
  /\ (forall params w, runTxTest (self m') params w = (Fail not_ready, w)).
Proof.
  intros He Hstep.
  assert (Hclear : cleared (self m')).
  { destruct He as [(p & code & sig & ->) | (id & ->)].
    - eapply exit_clears. exact Hstep.
    - eapply stop_timer_clears. exact Hstep. }
  destruct Hclear as (Hp & _ & _ & Hr).
  unfold isRunning, validate, loadIG, runTxTest. rewrite Hp, Hr. repeat split.
Qed.

End SupervisedProperties.

Section EnsureNetwork.
Context `{Runtime}.

(** X21.  Working without network.  With the JAR path in place,
    [skipUpdateCheck: true] and no [force], [ensureValidator] sends no
    request and changes no file, and resolves with the recorded version,
    or [unknown] when none is recorded, and [downloaded: false]. *)
Theorem ensureValidator_without_network (self : validator) (options : ensure_options)
    (w : world) (jarFile : node) :
  fs w !! validatorJarPath self = Some jarFile ->
  skipUpdateCheck options = true ->
  force options = false ->
  exists installedVersion,
    (getInstalledVersion self w).1 = Done installedVersion
    /\ (ensureValidator self options w).1
       = Done {| res_version := js_or installedVersion (VStr "unknown");
                 updated := false;
                 downloaded := false |}
    /\ requests (ensureValidator self options w).2 = requests w
    /\ fs (ensureValidator self options w).2 = fs w.
Proof.
  intros Hjar Hskip Hforce.
  destruct (getInstalledVersion_quiet self w) as (v & w1 & Hq & Hfs & _ & _).
  destruct (ensureValidator_skips self options w w1 jarFile v Hjar Hskip Hforce Hq)
    as [Hrun Hreq].
  exists v. rewrite Hq. split; [reflexivity |].
  split; [rewrite Hrun; reflexivity |].
  split; [exact Hreq |].
  rewrite Hrun. exact Hfs.
Qed.

(** X22.  In every other case the release index is asked first, and a
    lookup that is rejected rejects the call with the same error, even
    with a JAR of the latest release in place; one request was sent and no
    file is changed. *)
Theorem ensureValidator_lookup_rejected (self : validator) (options : ensure_options)
    (w : world) (e : error) :
  (match fs w !! validatorJarPath self with Some _ => true | None => false end)
  && skipUpdateCheck options && negb (force options) = false ->
  (getLatestRelease w).1 = Fail e ->
  (ensureValidator self options w).1 = Fail e
  /\ fs (ensureValidator self options w).2 = fs w
  /\ requests (ensureValidator self options w).2 = (requests w ++ [github_request])%list.
Proof.
  intros Hpath Hlookup.
  destruct (getInstalledVersion_quiet self w) as (v & w1 & Hq & Hfs & Hreq & Hout).
  pose proof (getLatestRelease_world
                (add_log "info" "Checking for latest FHIR validator release..." w1))
    as Hworld.
  pose proof (getLatestRelease_by_outside
                (add_log "info" "Checking for latest FHIR validator release..." w1)
                w Hout) as Hsame.
  rewrite Hlookup in Hsame.
  assert (Hrun : ensureValidator self options w
                 = (Fail e,
                    add_request github_request
                      (add_log "info" "Checking for latest FHIR validator release..."
                         w1))).
  { unfold ensureValidator, bind at 1. unfold existsSync at 1.
    unfold bind at 1. rewrite Hq. rewrite Hpath.
    unfold bind at 1. unfold log at 1. unfold bind at 1.
    destruct (getLatestRelease
                (add_log "info" "Checking for latest FHIR validator release..." w1))
      as [r w2]. cbn [fst snd] in Hworld, Hsame. subst r w2. reflexivity. }
  rewrite Hrun. cbn [fst snd add_request add_log fs requests].
  rewrite Hfs, Hreq. repeat split.
Qed.

End EnsureNetwork.

(* ===================================================================== *)
(** ** The properties at work                                             *)
(* ===================================================================== *)

Section AtWork.
#[local] Existing Instance Demo.runtime.

(** C7 at work: no sidecar, an unreadable sidecar, a directory at the path
    of the sidecar, and the text [not valid json] in the sidecar. *)
Lemma getInstalledVersion_never_throws_witness :
  (fs Examples.bare !! versionFilePath Examples.fresh = None
   /\ getInstalledVersion Examples.fresh Examples.bare = (Done VNull, Examples.bare))
  /\ (fs Examples.locked_sidecar !! versionFilePath Examples.fresh = Some NoAccess
      /\ (getInstalledVersion Examples.fresh Examples.locked_sidecar).1 = Done VNull)
  /\ (fs Examples.sidecar_directory !! versionFilePath Examples.fresh = Some Dir
      /\ (getInstalledVersion Examples.fresh Examples.sidecar_directory).1 = Done VNull)
  /\ ((fs Examples.corrupt_sidecar !! versionFilePath Examples.fresh
       = Some (Examples.text_file "not valid json")
       /\ JSON_parse (utf8_decode (Demo.encode "not valid json"))
          = Throw (SyntaxError "Unexpected token in JSON"))
      /\ (getInstalledVersion Examples.fresh Examples.corrupt_sidecar).1 = Done VNull).
Proof.
  pose proof (getInstalledVersion_never_throws Examples.fresh Examples.bare)
    as (_ & Hmissing & _).
  pose proof (getInstalledVersion_never_throws Examples.fresh Examples.locked_sidecar)
    as (_ & _ & Hlocked & _).
  pose proof (getInstalledVersion_never_throws Examples.fresh Examples.sidecar_directory)
    as (_ & _ & Hdirectory & _).
  pose proof (getInstalledVersion_never_throws Examples.fresh Examples.corrupt_sidecar)
    as (_ & _ & _ & Hcorrupt).
  refine (conj (conj _ _) (conj (conj _ _) (conj (conj _ _) (conj (conj _ _) _)))).
  - vm_compute. reflexivity.
  - apply Hmissing. vm_compute. reflexivity.
  - vm_compute. reflexivity.
  - apply Hlocked. left. vm_compute. reflexivity.
  - vm_compute. reflexivity.
  - apply Hdirectory. right. vm_compute. reflexivity.
  - vm_compute. reflexivity.
  - vm_compute. reflexivity.
  - apply (Hcorrupt (Demo.encode "not valid json") (SyntaxError "Unexpected token in JSON"));
      vm_compute; reflexivity.
Defined.

(** C6 at work: a number as resource, an empty parameter object. *)
Lemma not_ready_rejects_first_witness :
  isReady Examples.fresh = false
  /\ validate Examples.fresh (VNum 42) Examples.no_options Examples.bare
     = (Fail not_ready, Examples.bare)
  /\ loadIG Examples.fresh VUndefined VUndefined Examples.bare
     = (Fail not_ready, Examples.bare)
  /\ runTxTest Examples.fresh Examples.no_params Examples.bare
     = (Fail not_ready, Examples.bare).
Proof.
  assert (Hnot : isReady Examples.fresh = false) by reflexivity.
  destruct (not_ready_rejects_first Examples.fresh Examples.bare Hnot)
    as (Hvalidate & Hload & Htx).
  refine (conj Hnot (conj _ (conj _ _))).
  - apply Hvalidate.
  - apply Hload.
  - apply Htx.
Defined.

(** C10 at work: a string given as bytes, [null] and a string given as
    object, on an object that is not ready. *)
Lemma wrapper_assertions_first_witness :
  (isBuffer (VStr "{}") = false
   /\ validateBytes Examples.fresh (VStr "{}") (VStr "json") Examples.no_options
        Examples.bare
      = (Fail (Error "resourceBytes must be a Buffer"), Examples.bare))
  /\ validateObject Examples.fresh VNull Examples.no_options Examples.bare
     = (Fail (Error "resourceObject must be an object"), Examples.bare)
  /\ (typeof (VStr "string") <> "object"
      /\ validateObject Examples.fresh (VStr "string") Examples.no_options Examples.bare
         = (Fail (Error "resourceObject must be an object"), Examples.bare)).
Proof.
  destruct (wrapper_assertions_first Examples.fresh Examples.bare) as (Hbytes & Hobject).
  assert (Hty : typeof (VStr "string") <> "object") by discriminate.
  refine (conj (conj eq_refl _) (conj _ (conj Hty _))).
  - apply Hbytes. reflexivity.
  - apply Hobject. left. reflexivity.
  - apply Hobject. right. exact Hty.
Defined.

(** C8 at work: an XML text with leading blanks, an XML text and an XML
    buffer that begin with a byte order mark, a text that begins with a
    zero-width space (which [trim] keeps), a JSON buffer, an object. *)
Lemma validate_content_type_witness :
  (isReady Examples.ready = true
   /\ URL_parse (show_baseUrl Examples.ready ++ "/validateResource?"
                 ++ query_toString (validate_query Examples.no_options))
      = Ok Examples.validate_url)
  /\ requests (validate Examples.ready (VStr "  <Patient/>") Examples.no_options
                 Examples.bare).2
     = [validate_request Examples.validate_url (utf8_encode "  <Patient/>")
          Examples.xml]
  /\ requests (validate Examples.ready (VStr (Examples.byte_order_mark ++ "<Patient/>"))
                 Examples.no_options Examples.bare).2
     = [validate_request Examples.validate_url
          (utf8_encode (Examples.byte_order_mark ++ "<Patient/>")) Examples.xml]
  /\ requests (validate Examples.ready
                 (VBuffer (utf8_encode (Examples.byte_order_mark ++ "<Patient/>")))
                 Examples.no_options Examples.bare).2
     = [validate_request Examples.validate_url
          (utf8_encode (Examples.byte_order_mark ++ "<Patient/>")) Examples.xml]
  /\ requests (validate Examples.ready (VStr (Examples.zero_width_space ++ "<Patient/>"))
                 Examples.no_options Examples.bare).2
     = [validate_request Examples.validate_url
          (utf8_encode (Examples.zero_width_space ++ "<Patient/>")) Examples.json]
  /\ requests (validate Examples.ready (VBuffer (utf8_encode "{}")) Examples.no_options
                 Examples.bare).2
     = [validate_request Examples.validate_url (utf8_encode "{}") Examples.json]
  /\ requests (validate Examples.ready Examples.patient Examples.no_options
                 Examples.bare).2
     = [validate_request Examples.validate_url
          (utf8_encode (JSON_stringify Examples.patient 0)) Examples.json].
Proof.
  assert (Hready : isReady Examples.ready = true) by reflexivity.
  assert (Hurl : URL_parse (show_baseUrl Examples.ready ++ "/validateResource?"
                            ++ query_toString (validate_query Examples.no_options))
                 = Ok Examples.validate_url) by (vm_compute; reflexivity).
  destruct (validate_content_type Examples.ready Examples.no_options Examples.bare
              Examples.validate_url Hready Hurl) as (Hstr & Hbuf & Hobj & _).
  refine (conj (conj Hready Hurl) (conj _ (conj _ (conj _ (conj _ (conj _ _)))))).
  - exact (Hstr "  <Patient/>").
  - exact (Hstr (Examples.byte_order_mark ++ "<Patient/>")).
  - exact (Hbuf (utf8_encode (Examples.byte_order_mark ++ "<Patient/>"))).
  - exact (Hstr (Examples.zero_width_space ++ "<Patient/>")).
  - exact (Hbuf (utf8_encode "{}")).
  - exact (Hobj Examples.patient eq_refl eq_refl).
Defined.

(** C3 at work: the engine answers with a warning, then an error with a
    details text, then an error with diagnostics. *)
Lemma runTxTest_never_rejects_witness :
  (isReady Examples.ready = true
   /\ tx_required Examples.tx = true
   /\ URL_parse (show_baseUrl Examples.ready ++ "/txTest?"
                 ++ query_toString (tx_query Examples.tx)) = Ok Examples.tx_url)
  /\ (runTxTest Examples.ready Examples.tx
        (Examples.engine_answers
           [Examples.warning; Examples.detailed_error; Examples.diagnosed_error])).1
     = Done {| result := false; tx_message := VStr "code not found" |}.
Proof.
  assert (Hready : isReady Examples.ready = true) by reflexivity.
  assert (Hreq : tx_required Examples.tx = true) by reflexivity.
  assert (Hurl : URL_parse (show_baseUrl Examples.ready ++ "/txTest?"
                            ++ query_toString (tx_query Examples.tx))
                 = Ok Examples.tx_url) by (vm_compute; reflexivity).
  refine (conj (conj Hready (conj Hreq Hurl)) _).
  destruct (runTxTest_never_rejects Examples.ready Examples.tx
              (Examples.engine_answers
                 [Examples.warning; Examples.detailed_error; Examples.diagnosed_error])
              Examples.tx_url Hready Hreq Hurl) as (r & Hrun & Hclass).
  rewrite Hrun. simpl. f_equal.
  simpl in Hclass. destruct Hclass as (_ & _ & Houtcome).
  destruct (Houtcome
              [("resourceType", VStr "OperationOutcome");
               ("issue", VArr [Examples.warning; Examples.detailed_error;
                               Examples.diagnosed_error])])
    as (_ & Herror & _); [lia | vm_compute; reflexivity | reflexivity |].
  apply (Herror [Examples.warning] Examples.detailed_error [Examples.diagnosed_error]).
  - reflexivity.
  - repeat constructor.
  - reflexivity.
Defined.

(** C3 as first stated fails where the first error issue carries neither
    a details text nor diagnostics: the message is then the fixed text of
    the last alternative, not one of the two. *)
Lemma runTxTest_message_counterexample :
  (runTxTest Examples.ready Examples.tx
     (Examples.engine_answers [Examples.bare_error])).1
  = Done {| result := false; tx_message := VStr "Test failed with error" |}
  /\ is_error_issue Examples.bare_error = true
  /\ details_text Examples.bare_error = VUndefined
  /\ diagnostics_of Examples.bare_error = VUndefined
  /\ VStr "Test failed with error"
     <> js_or (details_text Examples.bare_error) (diagnostics_of Examples.bare_error).
Proof.
  refine (conj _ (conj eq_refl (conj eq_refl (conj eq_refl _)))).
  - vm_compute. reflexivity.
  - discriminate.
Defined.



(** A directory in the way of the temporary file: the write stream fails
    to open it, [unlinkSync] throws inside the ['error'] handler, and the
    promise is never settled. *)
Example download_onto_directory :
  fs Examples.temp_directory !! (Examples.jar ++ ".download") = Some Dir
  /\ (downloadFile Demo.jar_url Examples.jar Examples.temp_directory).1
     = Uncaught (Error "EISDIR: illegal operation on a directory, unlink './validator_cli.jar.download'")
  /\ fs (downloadFile Demo.jar_url Examples.jar Examples.temp_directory).2
     = fs Examples.temp_directory.
Proof. vm_compute. repeat split. Qed.

(** A destination whose directory is missing and cannot be made:
    [mkdirSync] throws inside the response callback, before anything is
    written. *)
Example download_without_directory :
  mkdir (outside Examples.outdated) "/proc/fhir/validator_cli.jar"
  = Some (Error "ENOENT: no such file or directory, mkdir '/proc/fhir'")
  /\ (downloadFile Demo.jar_url "/proc/fhir/validator_cli.jar" Examples.outdated).1
     = Uncaught (Error "ENOENT: no such file or directory, mkdir '/proc/fhir'")
  /\ fs (downloadFile Demo.jar_url "/proc/fhir/validator_cli.jar" Examples.outdated).2
     = fs Examples.outdated.
Proof. vm_compute. repeat split. Qed.

(** Numbers as template literals print them. *)
Example number_to_string_samples :
  let tenth := SFdiv 53 1024 (double_of_Z 1) (double_of_Z 10) in
  let fifth := SFdiv 53 1024 (double_of_Z 1) (double_of_Z 5) in
  number_to_string (double_of_Z 8080) = "8080"
  /\ number_to_string (double_of_Z (-42)) = "-42"
  /\ number_to_string (double_of_Z (10 ^ 21)) = "1e+21"
  /\ number_to_string (double_of_Z (2 ^ 64)) = "18446744073709552000"
  /\ number_to_string tenth = "0.1"
  /\ number_to_string (SFadd 53 1024 tenth fifth) = "0.30000000000000004"
  /\ number_to_string (SFdiv 53 1024 (double_of_Z 1) (double_of_Z (10 ^ 7))) = "1e-7"
  /\ number_to_string
       (SFmul 53 1024 (SFdiv 53 1024 (double_of_Z 29) (double_of_Z 100))
          (double_of_Z 100))
     = "28.999999999999996"
  /\ to_string (VNum 5) = "5"
  /\ to_string (VArr [VNum 1; VNull; VFloat tenth]) = "1,,0.1".
Proof. vm_compute. repeat split. Qed.

(** The progress lines: a response that announces 100 bytes and delivers
    29 and then 71.  The first line says 28, not 29: the handler computes
    [29 / 100 * 100] in floating point. *)
Example download_progress_lines :
  logged (downloadFile "https://cdn.example/sized" Examples.jar Examples.outdated).2
  = [("info", "Download progress: 28% (0MB / 0MB)");
     ("info", "Download progress: 100% (0MB / 0MB)")].
Proof. vm_compute. reflexivity. Qed.

(** The request timer is not a stream error: the promise rejects, the
    destination keeps the old JAR, and the part already written stays in
    the temporary file. *)
Example download_timeout_keeps_temp :
  (downloadFile "https://cdn.example/slow" Examples.jar Examples.outdated).1
  = Fail (Error "Download timeout")
  /\ fs (downloadFile "https://cdn.example/slow" Examples.jar Examples.outdated).2
       !! Examples.jar = Some Examples.old_jar
  /\ fs (downloadFile "https://cdn.example/slow" Examples.jar Examples.outdated).2
       !! (Examples.jar ++ ".download") = Some (File Examples.chunk1).
Proof. vm_compute. repeat split. Qed.

(** C1, where the code leaves the claim.  The sidecar holds the empty
    object, so no installed version is recorded: [getInstalledVersion]
    gives [undefined], the download is decided on that ground and logged
    as a download, not as an update; yet the result says [updated: true],
    because the flag compares with [null] only. *)
Theorem ensureValidator_updated_without_prior_version :
  (getInstalledVersion Examples.fresh Examples.blank_sidecar).1 = Done VUndefined
  /\ (ensureValidator Examples.fresh Examples.plain Examples.blank_sidecar).1
     = Done {| res_version := VStr "6.6.7"; updated := true; downloaded := true |}
  /\ logged (ensureValidator Examples.fresh Examples.plain Examples.blank_sidecar).2
     = [("info", "Checking for latest FHIR validator release...");
        ("info", "Latest version: 6.6.7");
        ("info", "Downloading validator 6.6.7...");
        ("info", "Following redirect to https://cdn.example/validator_cli.jar");
        ("info", "Validator 6.6.7 downloaded successfully")].
Proof. vm_compute. repeat split. Qed.

(** Two calls in a row on a fresh target: the first downloads, the second
    finds the version it recorded and does nothing. *)
Example ensureValidator_twice :
  let first := ensureValidator Examples.fresh Examples.plain Examples.fresh_target in
  let second := ensureValidator Examples.fresh Examples.plain first.2 in
  first.1 = Done {| res_version := VStr "6.6.7"; updated := false; downloaded := true |}
  /\ second.1
     = Done {| res_version := VStr "6.6.7"; updated := false; downloaded := false |}
  /\ fs second.2 !! Examples.jar = Some (File (Examples.chunk1 ++ Examples.chunk2)).
Proof. vm_compute. repeat split. Qed.

(** C2, where the code leaves the claim.  The ['exit'] event is dispatched
    while a health probe is pending; [cleanup] clears the handle; the probe
    is then answered with 405 and [waitForReady] sets [isReady] without
    looking at the handle.  The state reached has [isReady] true and no
    process, and [start] has resolved. *)
Theorem ready_without_process_reachable :
  exists m,
    run (init Examples.jar Examples.installed) Examples.exit_before_answer = Some m
    /\ reachable m
    /\ isReady (self m) = true
    /\ process (self m) = None
    /\ baseUrl (self m) = None
    /\ settled m = [(StartCall, Done tt)].
Proof.
  eexists. split; [vm_compute; reflexivity |].
  split; [| repeat split].
  exists Examples.jar, Examples.installed, Examples.exit_before_answer.
  vm_compute. reflexivity.
Qed.

(** In the state reached that way a request is not turned away as not
    ready: it fails on the URL built from the cleared base URL. *)
Example validate_after_early_exit :
  exists m,
    run (init Examples.jar Examples.installed) Examples.exit_before_answer = Some m
    /\ validate (self m) Examples.patient Examples.no_options (mworld m)
       = (Fail (TypeError "Invalid URL"), mworld m).
Proof.
  exists (Examples.after Examples.exit_before_answer).
  split; vm_compute; reflexivity.
Qed.

(** C5 at work: [stop()] on a running engine, the signal delivered, then
    ten seconds without an exit event. *)
Lemma stop_never_rejects_witness :
  exists m,
    run (init Examples.jar Examples.installed)
      [CallStart Examples.r5; ProbeAnswer (Some 405)] = Some m
    /\ reachable m
    /\ signals (stop true m) = [(0%nat, SIGKILL)]
    /\ (forall m2, run (stop true m) [Tick 10000; StopTimer 0] = Some m2 ->
                   stops_resolved m2).
Proof.
  eexists. split; [vm_compute; reflexivity |].
  match goal with
  | |- reachable ?m0 /\ _ =>
      assert (Hreach : reachable m0)
        by (exists Examples.jar, Examples.installed,
              [CallStart Examples.r5; ProbeAnswer (Some 405)];
            vm_compute; reflexivity);
      destruct (stop_never_rejects m0 true Hreach) as (_ & Hkill & Hlater)
  end.
  split; [exact Hreach |]. split.
  - destruct (Hkill {| pid := 0; killed := false |} eq_refl) as (Hsig & _).
    exact Hsig.
  - intros m2 Hrun. exact (proj1 (Hlater _ m2 Hrun)).
Defined.

(** C5 as first stated fails on the fallback kill: [stop()] sends its
    signal, the signal is delivered, no exit event comes and the timer
    fires after ten seconds.  The call resolves, and the only signal ever
    sent is the first one: the timer callback found the handle marked as
    killed and sent nothing. *)
Lemma stop_timeout_without_second_kill :
  exists m,
    run (init Examples.jar Examples.installed) Examples.stop_then_timeout = Some m
    /\ settled m = [(StartCall, Done tt); (StopCall 0, Done tt)]
    /\ signals m = [(0%nat, SIGKILL)]
    /\ process (self m) = None.
Proof. eexists. split; [vm_compute; reflexivity |]. repeat split. Qed.

(** X1 at work: the banner with a build note behind the version, a second
    banner on an object that knows its version, and a line that only
    contains the banner. *)
Lemma checkForVersion_reads_banner_witness :
  (truthy (version Examples.fresh) = false
   /\ has_char " " "6.6.7" = false
   /\ checkForVersion Examples.fresh Examples.banner
      = set_version (VStr "6.6.7") Examples.fresh)
  /\ (truthy (version Examples.versioned) = true
      /\ checkForVersion Examples.versioned "FHIR Validation tool Version 6.7.0"
         = Examples.versioned)
  /\ (startsWith "Loading FHIR Validation tool Version 6.7.0"
        "FHIR Validation tool Version" = false
      /\ checkForVersion Examples.fresh "Loading FHIR Validation tool Version 6.7.0"
         = Examples.fresh).
Proof.
  refine (conj (conj eq_refl (conj eq_refl _)) (conj (conj eq_refl _) (conj eq_refl _))).
  - exact (proj1 (checkForVersion_reads_banner Examples.fresh "6.6.7" " (Git# 1a2b3c4d)"
                    EmptyString)
             eq_refl eq_refl (or_intror (ex_intro _ "(Git# 1a2b3c4d)" eq_refl))).
  - exact (proj1 (proj2 (checkForVersion_reads_banner Examples.versioned EmptyString
                           EmptyString "FHIR Validation tool Version 6.7.0"))
             eq_refl).
  - exact (proj2 (proj2 (checkForVersion_reads_banner Examples.fresh EmptyString
                           EmptyString "Loading FHIR Validation tool Version 6.7.0"))
             eq_refl).
Defined.

(** X2 at work: a text without escape character, and a green [INFO] in
    front of it. *)
Lemma strip_ansi_removes_colours_witness :
  (has_char escape_char "INFO ready" = false
   /\ strip_ansi "INFO ready" = "INFO ready")
  /\ (all_sgr_params "1;32" = true
      /\ strip_ansi (String escape_char (String "[" ("1;32" ++ String "m" "INFO ready")))
         = "INFO ready").
Proof.
  destruct (strip_ansi_removes_colours "INFO ready" "1;32") as (Hplain & Hcolour & _).
  refine (conj (conj eq_refl (Hplain eq_refl)) (conj eq_refl _)).
  rewrite (Hcolour eq_refl). exact (Hplain eq_refl).
Defined.

(** X3 at work: four lines on the standard output of an engine whose
    version is known; the two lines of one character are not logged and
    the banner does not change the version. *)
Lemma on_stdout_keeps_state_witness :
  truthy (version Examples.versioned) = true
  /\ version (on_stdout Examples.coloured_output Examples.versioned Examples.bare).1
     = VStr "6.6.7"
  /\ logged (on_stdout Examples.coloured_output Examples.versioned Examples.bare).2
     = [("info", "Validator: INFO ready");
        ("info", ("Validator: " ++ Examples.banner)%string)].
Proof.
  destruct (on_stdout_keeps_state Examples.coloured_output Examples.versioned
              Examples.bare) as (_ & _ & Hversion & _ & _ & Hlog).
  refine (conj eq_refl (conj (Hversion eq_refl) _)).
  rewrite Hlog. vm_compute. reflexivity.
Defined.

(** X4 at work: a Patient sent to an engine that answers with an outcome
    without issues. *)
Lemma validate_outcome_witness :
  (isReady Examples.ready = true
   /\ convert_resource Examples.patient
      = Ok (utf8_encode (JSON_stringify Examples.patient 0), Examples.json)
   /\ URL_parse (show_baseUrl Examples.ready ++ "/validateResource?"
                 ++ query_toString (validate_query Examples.no_options))
      = Ok Examples.validate_url)
  /\ (validate Examples.ready Examples.patient Examples.no_options
        (Examples.engine_answers [])).1
     = Done (Demo.outcome_json []).
Proof.
  assert (Hready : isReady Examples.ready = true) by reflexivity.
  assert (Hconv : convert_resource Examples.patient
                  = Ok (utf8_encode (JSON_stringify Examples.patient 0), Examples.json))
    by reflexivity.
  assert (Hurl : URL_parse (show_baseUrl Examples.ready ++ "/validateResource?"
                            ++ query_toString (validate_query Examples.no_options))
                 = Ok Examples.validate_url) by (vm_compute; reflexivity).
  refine (conj (conj Hready (conj Hconv Hurl)) _).
  rewrite (validate_outcome Examples.ready Examples.patient Examples.no_options
             (Examples.engine_answers []) Examples.validate_url _ _ Hready Hconv Hurl).
  vm_compute. reflexivity.
Defined.

(** X5 at work: a number as resource on a ready object. *)
Lemma validate_rejects_other_types_witness :
  (isReady Examples.ready = true
   /\ typeof (VNum 42) <> "string" /\ typeof (VNum 42) <> "object")
  /\ validate Examples.ready (VNum 42) Examples.no_options Examples.bare
     = (Fail (Error "Resource must be a string, Buffer, or object"), Examples.bare).
Proof.
  assert (Hready : isReady Examples.ready = true) by reflexivity.
  assert (Hs : typeof (VNum 42) <> "string") by discriminate.
  assert (Ho : typeof (VNum 42) <> "object") by discriminate.
  refine (conj (conj Hready (conj Hs Ho)) _).
  exact (validate_rejects_other_types Examples.ready (VNum 42) Examples.no_options
           Examples.bare Hready Hs Ho).
Defined.

(** X6 at work: an empty parameter object on a ready object. *)
Lemma runTxTest_requires_params_witness :
  (isReady Examples.ready = true /\ tx_required Examples.no_params = false)
  /\ runTxTest Examples.ready Examples.no_params Examples.bare
     = (Fail (Error "server, suiteName, testName, and version are required"),
        Examples.bare).
Proof.
  refine (conj (conj eq_refl eq_refl) _).
  exact (runTxTest_requires_params Examples.ready Examples.no_params Examples.bare
           eq_refl eq_refl).
Defined.

(** X7 at work: US Core 6.0.0 loaded into an engine that answers with an
    outcome without issues. *)
Lemma loadIG_outcome_witness :
  (isReady Examples.ready = true
   /\ URL_parse (show_baseUrl Examples.ready ++ "/loadIG?"
                 ++ query_toString [("packageId", to_string (VStr "hl7.fhir.us.core"));
                                    ("version", to_string (VStr "6.0.0"))])
      = Ok Examples.loadIG_url)
  /\ loadIG Examples.ready (VStr "hl7.fhir.us.core") (VStr "6.0.0")
       (Examples.engine_answers [])
     = (Done (Demo.outcome_json []),
        add_request (loadIG_request Examples.loadIG_url) (Examples.engine_answers [])).
Proof.
  assert (Hready : isReady Examples.ready = true) by reflexivity.
  assert (Hurl : URL_parse (show_baseUrl Examples.ready ++ "/loadIG?"
                            ++ query_toString
                                 [("packageId", to_string (VStr "hl7.fhir.us.core"));
                                  ("version", to_string (VStr "6.0.0"))])
                 = Ok Examples.loadIG_url) by (vm_compute; reflexivity).
  refine (conj (conj Hready Hurl) _).
  rewrite (loadIG_outcome Examples.ready (VStr "hl7.fhir.us.core") (VStr "6.0.0")
             (Examples.engine_answers []) Examples.loadIG_url Hready Hurl).
  f_equal.
Defined.

(** X8 at work: no option gives the empty query; a profile and
    [anyExtensionsAllowed: false] give two parameters. *)
Lemma validate_query_shape_witness :
  validate_query Examples.no_options = []
  /\ (anyExtensionsAllowed Examples.strict = Some false
      /\ In ("anyExtensionsAllowed", "false") (validate_query Examples.strict))
  /\ sublist (map fst (validate_query Examples.strict)) validate_keys.
Proof.
  destruct (validate_query_shape Examples.no_options) as (_ & Hempty & _).
  destruct (validate_query_shape Examples.strict) as (Hsub & _ & _ & Hflag).
  refine (conj (Hempty eq_refl eq_refl eq_refl eq_refl eq_refl)
            (conj (conj eq_refl (Hflag false eq_refl)) Hsub)).
Defined.

(** X9 at work: the release index announces 6.6.7 with one asset; and a
    network that refuses the connection. *)
Lemma getLatestRelease_outcome_witness :
  (api (outside Examples.fresh_target) github_request
   = Reply 200 (Demo.stringify (Demo.release_json (VStr "6.6.7")) 0)
   /\ (getLatestRelease Examples.fresh_target).1
      = Done {| rel_version := VStr "6.6.7";
                rel_downloadUrl := VStr Demo.jar_url;
                rel_publishedAt := VStr "2026-01-30T00:00:00Z" |})
  /\ (api (outside Examples.bare) github_request
      = ReqError (Error "connect ECONNREFUSED")
      /\ getLatestRelease Examples.bare
         = (Fail (Error "connect ECONNREFUSED"), add_request github_request Examples.bare)).
Proof.
  destruct (getLatestRelease_outcome Examples.fresh_target) as (_ & _ & _ & Hreply).
  destruct (Hreply 200 (Demo.stringify (Demo.release_json (VStr "6.6.7")) 0) eq_refl)
    as (_ & _ & Hfound & _).
  destruct (getLatestRelease_outcome Examples.bare) as (Hworld & Herror & _).
  refine (conj (conj eq_refl _) (conj eq_refl _)).
  - apply (Hfound
             [("tag_name", VStr "6.6.7");
              ("assets", VArr [VObj [("name", VStr "validator_cli.jar");
                                     ("browser_download_url", VStr Demo.jar_url)]]);
              ("published_at", VStr "2026-01-30T00:00:00Z")]
             []
             [("name", VStr "validator_cli.jar");
              ("browser_download_url", VStr Demo.jar_url)]
             []).
    + reflexivity.
    + vm_compute. reflexivity.
    + reflexivity.
    + constructor.
    + reflexivity.
  - rewrite (surjective_pairing (getLatestRelease Examples.bare)).
    rewrite Hworld, (Herror _ eq_refl). reflexivity.
Defined.


(** X11 at work: nothing installed, the release index announces 6.6.7. *)
Lemma ensureValidator_records_download_witness :
  ((ensureValidator (constructor Examples.jar) Examples.plain Examples.fresh_target).1
   = Done {| res_version := VStr "6.6.7"; updated := false; downloaded := true |})
  /\ (exists payload,
         fs (ensureValidator (constructor Examples.jar) Examples.plain
               Examples.fresh_target).2 !! Examples.jar = Some (File payload))
  /\ (exists downloadUrl,
         fs (ensureValidator (constructor Examples.jar) Examples.plain
               Examples.fresh_target).2 !! (Examples.jar ++ ".version")
         = Some (File (utf8_encode
                         (JSON_stringify
                            (version_record (VStr "6.6.7") downloadUrl
                               "2026-01-31T10:00:00.000Z") 2)))).
Proof.
  assert (Hdone : (ensureValidator (constructor Examples.jar) Examples.plain
                     Examples.fresh_target).1
                  = Done {| res_version := VStr "6.6.7"; updated := false;
                            downloaded := true |}) by (vm_compute; reflexivity).
  refine (conj Hdone _).
  exact (ensureValidator_records_download Examples.jar Examples.plain
           Examples.fresh_target _ Hdone eq_refl).
Defined.

(** X12 at work: the record of 6.6.7 saved and read back. *)
Lemma version_record_round_trip_witness :
  (saveVersionInfo Examples.fresh (VStr "6.6.7") (VStr Demo.jar_url) Examples.bare).1
  = Done tt
  /\ getInstalledVersion Examples.fresh
       (saveVersionInfo Examples.fresh (VStr "6.6.7") (VStr Demo.jar_url) Examples.bare).2
     = (Done (VStr "6.6.7"),
        (saveVersionInfo Examples.fresh (VStr "6.6.7") (VStr Demo.jar_url)
           Examples.bare).2).
Proof.
  assert (Hsave : (saveVersionInfo Examples.fresh (VStr "6.6.7") (VStr Demo.jar_url)
                     Examples.bare).1 = Done tt) by (vm_compute; reflexivity).
  refine (conj Hsave _).
  apply (version_record_round_trip Examples.fresh (VStr "6.6.7") (VStr Demo.jar_url)
           Examples.bare).
  - vm_compute. reflexivity.
  - vm_compute. reflexivity.
  - rewrite (surjective_pairing (saveVersionInfo _ _ _ _)). rewrite Hsave. reflexivity.
Defined.

(** X13 at work: two calls in a row on a target with nothing installed. *)
Lemma ensureValidator_second_call_witness :
  (ensureValidator (constructor Examples.jar) Examples.plain Examples.fresh_target).1
  = Done {| res_version := VStr "6.6.7"; updated := false; downloaded := true |}
  /\ (ensureValidator (constructor Examples.jar) Examples.plain
        (ensureValidator (constructor Examples.jar) Examples.plain
           Examples.fresh_target).2).1
     = Done {| res_version := VStr "6.6.7"; updated := false; downloaded := false |}
  /\ fs (ensureValidator (constructor Examples.jar) Examples.plain
           (ensureValidator (constructor Examples.jar) Examples.plain
              Examples.fresh_target).2).2
     = fs (ensureValidator (constructor Examples.jar) Examples.plain
             Examples.fresh_target).2.
Proof.
  assert (Hdone : (ensureValidator (constructor Examples.jar) Examples.plain
                     Examples.fresh_target).1
                  = Done {| res_version := VStr "6.6.7"; updated := false;
                            downloaded := true |}) by (vm_compute; reflexivity).
  refine (conj Hdone _).
  apply (ensureValidator_second_call Examples.jar "6.6.7" Examples.plain Examples.plain
           Examples.fresh_target _ Hdone).
  - reflexivity.
  - reflexivity.
  - discriminate.
  - intros latest Hlatest.
    assert (Hfound : (getLatestRelease Examples.fresh_target).1
                     = Done {| rel_version := VStr "6.6.7";
                               rel_downloadUrl := VStr Demo.jar_url;
                               rel_publishedAt := VStr "2026-01-30T00:00:00Z" |})
      by (vm_compute; reflexivity).
    rewrite Hfound in Hlatest. inversion Hlatest; subst latest.
    split; vm_compute; reflexivity.
  - reflexivity.
Defined.

(** X15 at work: after the call on a target with nothing installed, the file
    is at the JAR path. *)
Lemma ensureValidator_guarantees_jar_witness :
  (ensureValidator (constructor Examples.jar) Examples.plain Examples.fresh_target).1
  = Done {| res_version := VStr "6.6.7"; updated := false; downloaded := true |}
  /\ fs (ensureValidator (constructor Examples.jar) Examples.plain
           Examples.fresh_target).2 !! Examples.jar <> None.
Proof.
  assert (Hdone : (ensureValidator (constructor Examples.jar) Examples.plain
                     Examples.fresh_target).1
                  = Done {| res_version := VStr "6.6.7"; updated := false;
                            downloaded := true |}) by (vm_compute; reflexivity).
  exact (conj Hdone (ensureValidator_guarantees_jar Examples.jar Examples.plain
                       Examples.fresh_target _ Hdone)).
Defined.



(** X18 at work: the object after [start], [stop] and the timer of
    [stop]. *)
Lemma reachable_supervised_witness :
  exists m,
    run (init Examples.jar Examples.installed) Examples.stop_then_timeout = Some m
    /\ reachable m
    /\ supervised m.
Proof.
  eexists. split; [vm_compute; reflexivity |].
  match goal with
  | |- reachable ?m0 /\ _ =>
      assert (Hreach : reachable m0)
        by (exists Examples.jar, Examples.installed, Examples.stop_then_timeout;
            vm_compute; reflexivity);
      exact (conj Hreach (reachable_supervised m0 Hreach))
  end.
Defined.


(** X20 at work: the engine of a ready object exits. *)
Lemma calls_after_exit_not_ready_witness :
  let m := Examples.after [CallStart Examples.r5; ProbeAnswer (Some 405)] in
  let m' := Examples.after [CallStart Examples.r5; ProbeAnswer (Some 405);
                            ChildExit 0 (VNum 1) VNull] in
  isRunning (self m) = true
  /\ step m (ChildExit 0 (VNum 1) VNull) = Some m'
  /\ isRunning (self m') = false
  /\ validate (self m') Examples.patient Examples.no_options (mworld m')
     = (Fail not_ready, mworld m')
  /\ loadIG (self m') (VStr "hl7.fhir.us.core") (VStr "6.0.0") (mworld m')
     = (Fail not_ready, mworld m')
  /\ runTxTest (self m') Examples.tx (mworld m') = (Fail not_ready, mworld m').
Proof.
  intros m m'.
  assert (H1 : isRunning (self m) = true) by (vm_compute; reflexivity).
  assert (H2 : step m (ChildExit 0 (VNum 1) VNull) = Some m') by (vm_compute; reflexivity).
  destruct (calls_after_exit_not_ready m m' (ChildExit 0 (VNum 1) VNull)
              (or_introl (ex_intro _ 0%nat (ex_intro _ (VNum 1)
                            (ex_intro _ VNull eq_refl)))) H2)
    as (Hrunning & Hvalidate & Hload & Htx).
  exact (conj H1 (conj H2 (conj Hrunning
           (conj (Hvalidate _ _ _) (conj (Hload _ _ _) (Htx _ _)))))).
Defined.

(** X21 at work: the old JAR without a record, no network, and the update
    check skipped. *)
Lemma ensureValidator_without_network_witness :
  fs Examples.installed !! validatorJarPath Examples.fresh = Some Examples.old_jar
  /\ exists installedVersion,
      (getInstalledVersion Examples.fresh Examples.installed).1 = Done installedVersion
      /\ (ensureValidator Examples.fresh Examples.skipping Examples.installed).1
         = Done {| res_version := js_or installedVersion (VStr "unknown");
                   updated := false;
                   downloaded := false |}
      /\ requests (ensureValidator Examples.fresh Examples.skipping Examples.installed).2
         = requests Examples.installed
      /\ fs (ensureValidator Examples.fresh Examples.skipping Examples.installed).2
         = fs Examples.installed.
Proof.
  assert (Hjar : fs Examples.installed !! validatorJarPath Examples.fresh
                 = Some Examples.old_jar) by (vm_compute; reflexivity).
  exact (conj Hjar (ensureValidator_without_network Examples.fresh Examples.skipping
                      Examples.installed Examples.old_jar Hjar eq_refl eq_refl)).
Defined.

(** X22 at work: the same installation with the update check, and no
    network. *)
Lemma ensureValidator_lookup_rejected_witness :
  (getLatestRelease Examples.installed).1 = Fail (Error "connect ECONNREFUSED")
  /\ (ensureValidator Examples.fresh Examples.plain Examples.installed).1
     = Fail (Error "connect ECONNREFUSED")
  /\ fs (ensureValidator Examples.fresh Examples.plain Examples.installed).2
     = fs Examples.installed
  /\ requests (ensureValidator Examples.fresh Examples.plain Examples.installed).2
     = [github_request].
Proof.
  assert (Hlookup : (getLatestRelease Examples.installed).1
                    = Fail (Error "connect ECONNREFUSED")) by (vm_compute; reflexivity).
  refine (conj Hlookup _).
  apply (ensureValidator_lookup_rejected Examples.fresh Examples.plain Examples.installed
           (Error "connect ECONNREFUSED")).
  - vm_compute. reflexivity.
  - exact Hlookup.
Defined.

End AtWork.
